(** * HealthCare-AdvisorAgent: the session log store, the provenance filter
      and the interaction orchestrator

    A shallow embedding of [src/services/userHistory.ts] and of the two
    request handlers of [src/server.ts], with the properties of the
    specification stated and settled against it.

    Conventions.
    - A JavaScript string is a [string]; a character is a code unit below
      256.  The newline is [nl].
    - [fs/promises], the clock, [randomUUID] and the model stream are the
      environment: they are an explicit [World] threaded through the
      asynchronous functions, and a rejected promise is an [Err] result.
    - The file system is USER_DATA_DIR alone, a directory of regular
      files; a log is named by its file name in it.  This covers the
      identifiers that are plain file names ([plainName]); the statements
      that depend on which file an identifier designates assume it. *)

From Stdlib Require Import String Ascii List Bool Arith Lia.
From Stdlib Require Import DecimalString.
From stdpp Require Import base option list strings gmap.

Import ListNotations.
Open Scope string_scope.
Open Scope list_scope.

(* ================================================================== *)
(** ** JavaScript string primitives *)
(* ================================================================== *)

Module Js.

Definition nlc : ascii := "010"%char.
Definition nl : string := String nlc EmptyString.

  (** [s.split('\n')]: never empty, one more element than newlines. *)
Fixpoint split (s : string) : list string :=
    match s with
    | EmptyString => [EmptyString]
    | String c r =>
        if Ascii.eqb c nlc then EmptyString :: split r
        else match split r with
             | h :: t => String c h :: t
             | [] => [String c EmptyString]
             end
    end.

  (** [xs.join(sep)]. *)
Fixpoint join (sep : string) (xs : list string) : string :=
    match xs with
    | [] => EmptyString
    | [x] => x
    | x :: rest => x +:+ sep +:+ join sep rest
    end.

  (** [s.startsWith(p)], also the anchored literal regular expression
      [/^p/] when [p] has no metacharacter. *)
Fixpoint startsWith (p s : string) : bool :=
    match p, s with
    | EmptyString, _ => true
    | String a p', String b s' => Ascii.eqb a b && startsWith p' s'
    | String _ _, EmptyString => false
    end.

  (** [s.includes(p)]. *)
Fixpoint includes (p s : string) : bool :=
    startsWith p s ||
    match s with
    | EmptyString => false
    | String _ s' => includes p s'
    end.

  (** White space of [String.prototype.trim] among the code units below
      256: TAB, LF, VT, FF, CR, SPACE and NBSP. *)
Definition isWhite (c : ascii) : bool :=
    let n := nat_of_ascii c in
    (Nat.leb 9 n && Nat.leb n 13) || Nat.eqb n 32 || Nat.eqb n 160.

Fixpoint trimStart (s : string) : string :=
    match s with
    | EmptyString => EmptyString
    | String c r => if isWhite c then trimStart r else s
    end.

Fixpoint trimEnd (s : string) : string :=
    match s with
    | EmptyString => EmptyString
    | String c r =>
        match trimEnd r with
        | EmptyString => if isWhite c then EmptyString else String c EmptyString
        | r' => String c r'
        end
    end.

Definition trim (s : string) : string := trimEnd (trimStart s).

  (** Truthiness of an optional string ([undefined] and [''] are falsy). *)
Definition truthy (o : option string) : bool :=
    match o with
    | Some (String _ _) => true
    | _ => false
    end.

  (** [String(n)] for a non-negative integer. *)
Definition ofNat (n : nat) : string := NilEmpty.string_of_uint (Nat.to_uint n).

  (** Greedy [[^\n]*]: the longest newline-free prefix, and the rest. *)
Fixpoint spanLine (s : string) : string * string :=
    match s with
    | EmptyString => (EmptyString, EmptyString)
    | String c r =>
        if Ascii.eqb c nlc then (EmptyString, s)
        else let '(a, b) := spanLine r in (String c a, b)
    end.

  (** Consume the literal [p] at the head of [s]. *)
Fixpoint eat (p s : string) : option string :=
    match p, s with
    | EmptyString, _ => Some s
    | String a p', String b s' => if Ascii.eqb a b then eat p' s' else None
    | String _ _, EmptyString => None
    end.

End Js.

Import Js.

(* ================================================================== *)
(** ** The provenance filter: [extractUserProvidedHistory] *)
(* ================================================================== *)

Module Filter.

Definition SESSION_START : string := "### Session".
Definition SYMPTOMS : string := "**Symptoms Reported:**".
Definition HEALTH : string := "**Additional Health Context:**".
Definition DIAGNOSIS : string := "**Diagnosis & Recommendations:**".
Definition RULE : string := "---".

  (** The loop variables of [extractUserProvidedHistory]. *)
Record Scan : Type := mkScan {
    userProvidedSections : list string;
    currentSession : list string;
    inSymptomsSection : bool;
    inHealthContextSection : bool;
    inDiagnosisSection : bool
  }.

Definition scan0 : Scan := mkScan [] [] false false false.

  (** [if (currentSession.length > 0) userProvidedSections.push(...)] *)
Definition pushSession (ups cur : list string) : list string :=
    if Nat.ltb 0 (length cur) then ups ++ [join nl cur] else ups.

  (** One iteration of the [for] loop, on [line = lines[i]]. *)
Definition step (s : Scan) (line : string) : Scan :=
    if startsWith SESSION_START line then
      mkScan (pushSession (userProvidedSections s) (currentSession s))
             [line] false false false
    else if includes SYMPTOMS line then
      mkScan (userProvidedSections s) (currentSession s ++ [line])
             true false false
    else if includes HEALTH line then
      mkScan (userProvidedSections s) (currentSession s ++ [line])
             false true false
    else if includes DIAGNOSIS line then
      mkScan (userProvidedSections s) (currentSession s) false false true
    else if String.eqb (trim line) RULE then
      mkScan (userProvidedSections s) (currentSession s) false false false
    else if inSymptomsSection s || inHealthContextSection s then
      mkScan (userProvidedSections s) (currentSession s ++ [line])
             (inSymptomsSection s) (inHealthContextSection s)
             (inDiagnosisSection s)
    else s.

Definition scanLines (lines : list string) : Scan := fold_left step lines scan0.

  (** The test after the loop. *)
Definition finish (s : Scan) : list string :=
    if Nat.ltb 0 (length (currentSession s)) && negb (inDiagnosisSection s)
    then userProvidedSections s ++ [join nl (currentSession s)]
    else userProvidedSections s.

  (** [/^# Medical History[^\n]*\n\n\*\*Created:\*\*[^\n]*/]: the matched
      text, if the input matches.  The class [[^\n]*] is greedy and the
      next pattern item is a newline, so the match is unique. *)
Definition headerMatch (md : string) : option string :=
    match eat "# Medical History" md with
    | None => None
    | Some r1 =>
        let '(a, r2) := spanLine r1 in
        match eat (nl +:+ nl +:+ "**Created:**") r2 with
        | None => None
        | Some r3 =>
            let '(b, _) := spanLine r3 in
            Some ("# Medical History" +:+ a +:+ nl +:+ nl +:+ "**Created:**" +:+ b)
        end
    end.

Definition headerOf (md : string) : string :=
    match headerMatch md with Some h => h | None => "" end.

Definition sectionsOf (md : string) : list string :=
    finish (scanLines (split md)).

Definition SECTION_LABEL : string :=
    nl +:+ nl +:+ "---" +:+ nl +:+ nl +:+ "## Session History" +:+ nl +:+ nl.
Definition JOINER : string := nl +:+ nl +:+ "---" +:+ nl +:+ nl.

  (** The two template literals that end the function. *)
Definition assemble (header : string) (sections : list string) : string :=
    if Nat.eqb (length sections) 0 then header +:+ SECTION_LABEL
    else header +:+ SECTION_LABEL +:+ join JOINER sections +:+ nl +:+ nl.

Definition extractUserProvidedHistory (markdownContent : string) : string :=
    assemble (headerOf markdownContent) (sectionsOf markdownContent).

End Filter.

Import Filter.

(* ================================================================== *)
(** ** The environment: file system, clock, UUID source, model, response *)
(* ================================================================== *)

Module Env.

  (** Error codes of [fs/promises] that the store can meet. *)
Inductive FsCode : Type := ENOENT | EACCES.

  (** A thrown value.  The [path] of a file-system error is the path of
      the failed call as the model names it (see [Store.filePathOf]). *)
Inductive Exn : Type :=
  | FsExn (code : FsCode) (syscall path : string)
  | ModelExn (message : string).

Definition codeText (c : FsCode) : string :=
    match c with
    | ENOENT => "ENOENT: no such file or directory"
    | EACCES => "EACCES: permission denied"
    end.

  (** [String(error)] and [error.message]. *)
Definition exnMessage (e : Exn) : string :=
    match e with
    | FsExn c sc p => codeText c +:+ ", " +:+ sc +:+ " '" +:+ p +:+ "'"
    | ModelExn m => m
    end.
Definition exnString (e : Exn) : string := "Error: " +:+ exnMessage e.

Inductive Res (A : Type) : Type :=
  | Ok (a : A)
  | Err (e : Exn).
Arguments Ok {A} a.
Arguments Err {A} e.

  (** A file of USER_DATA_DIR with the permissions of the server process. *)
Record File : Type := mkFile {
    content : string;
    mayRead : bool;
    mayWrite : bool
  }.

  (** USER_DATA_DIR: whether it exists, whether the process may create it,
      whether it may create files in it, and its files by name.  The
      directory holds regular files only, and nothing outside it is
      modelled: a path stands for the file of that name in the directory. *)
Record Fs : Type := mkFs {
    dirExists : bool;
    mayMkdir : bool;
    mayCreate : bool;
    files : gmap string File
  }.

Record Message : Type := mkMessage { role : string; msgContent : string }.

  (** One chunk of the stream: [chunk.choices[0]?.delta?.content] and
      [chunk.usage]. *)
Record Chunk : Type := mkChunk {
    deltaContent : option string;
    usage : option string
  }.

  (** What [openRouter.chat.send] does with a prompt: the call is rejected,
      or it gives a stream that yields [chunks] and then ends or throws. *)
Inductive ModelReply : Type :=
  | SendRejected (e : Exn)
  | Stream (chunks : list Chunk) (failure : option Exn).

Inductive JsonBody : Type :=
  | JsonObject (fields : list (string * string)).

  (** The Express response object, as far as the handlers drive it. *)
Record Response : Type := mkResponse {
    status : nat;
    headers : list (string * string);
    written : list string;
    json : option JsonBody;
    ended : bool
  }.

Definition freshResponse : Response := mkResponse 200 [] [] None false.

  (** The oracles: the [n]-th reading of the clock as ISO-8601 text, the
      [n]-th random UUID, and the model. *)
Record Oracle : Type := mkOracle {
    isoAt : nat -> string;
    uuidAt : nat -> string;
    llm : list Message -> ModelReply
  }.

  (** What the process prints: [console.log(text)], and
      [console.error(label, error)], which prints the label followed by the
      inspected error (its message, its stack, its properties).  The entry
      keeps the label and the error, not a rendering. *)
Inductive ConsoleLine : Type :=
  | Logged (text : string)
  | Errored (label : string) (error : Exn).

Record World : Type := mkWorld {
    fs : Fs;
    clockReads : nat;
    uuidDraws : nat;
    console : list ConsoleLine;
    modelCalls : list (list Message);
    res : Response
  }.

Definition withFs (f : Fs) (w : World) : World :=
    mkWorld f (clockReads w) (uuidDraws w) (console w) (modelCalls w) (res w).
Definition withRes (r : Response) (w : World) : World :=
    mkWorld (fs w) (clockReads w) (uuidDraws w) (console w) (modelCalls w) r.

  (** Asynchronous code: a state and exception monad over [World]. *)
Definition M (A : Type) : Type := World -> Res A * World.

Definition ret {A} (a : A) : M A := fun w => (Ok a, w).
Definition bind {A B} (m : M A) (k : A -> M B) : M B :=
    fun w => match m w with
             | (Ok a, w') => k a w'
             | (Err e, w') => (Err e, w')
             end.
Definition throw {A} (e : Exn) : M A := fun w => (Err e, w).
Definition tryCatch {A} (m : M A) (h : Exn -> M A) : M A :=
    fun w => match m w with
             | (Ok a, w') => (Ok a, w')
             | (Err e, w') => h e w'
             end.

Declare Scope js_scope.
Delimit Scope js_scope with js.
Notation "'let!' x ':=' m 'in' k" := (bind m (fun x => k))
    (at level 10, x binder, m at level 100, k at level 200) : js_scope.
Notation "m ';!' k" := (bind m (fun _ => k))
    (at level 200, k at level 200, right associativity) : js_scope.

  (** [fs.mkdir(dir, { recursive: true })]. *)
Definition mkdir (dir : string) : M unit := fun w =>
    if dirExists (fs w) then (Ok tt, w)
    else if mayMkdir (fs w)
      then (Ok tt, withFs (mkFs true (mayMkdir (fs w)) true (files (fs w))) w)
      else (Err (FsExn EACCES "mkdir" dir), w).

  (** [fs.readFile(path, 'utf-8')]. *)
Definition readFile (path : string) : M string := fun w =>
    if negb (dirExists (fs w)) then (Err (FsExn ENOENT "open" path), w)
    else match files (fs w) !! path with
         | None => (Err (FsExn ENOENT "open" path), w)
         | Some f => if mayRead f then (Ok (content f), w)
                     else (Err (FsExn EACCES "open" path), w)
         end.

  (** Opening [path] for writing and storing [update old], where [old] is
      the previous content (empty for a file that is created). *)
Definition store (path : string) (update : string -> string) : M unit := fun w =>
    if negb (dirExists (fs w)) then (Err (FsExn ENOENT "open" path), w)
    else match files (fs w) !! path with
         | None =>
             if mayCreate (fs w)
             then (Ok tt, withFs (mkFs true (mayMkdir (fs w)) (mayCreate (fs w))
                                    (<[path := mkFile (update "") true true]> (files (fs w)))) w)
             else (Err (FsExn EACCES "open" path), w)
         | Some f =>
             if mayWrite f
             then (Ok tt, withFs (mkFs true (mayMkdir (fs w)) (mayCreate (fs w))
                                    (<[path := mkFile (update (content f)) (mayRead f) true]>
                                       (files (fs w)))) w)
             else (Err (FsExn EACCES "open" path), w)
         end.

  (** [fs.writeFile(path, data, 'utf-8')] and [fs.appendFile(...)]. *)
Definition writeFile (path data : string) : M unit := store path (fun _ => data).
Definition appendFile (path data : string) : M unit :=
    store path (fun old => old +:+ data).

Definition consolePrint (line : ConsoleLine) : M unit := fun w =>
    (Ok tt, mkWorld (fs w) (clockReads w) (uuidDraws w) (console w ++ [line])
                    (modelCalls w) (res w)).

  (** [console.log(text)] and [console.error(label, error)]. *)
Definition consoleLog (text : string) : M unit := consolePrint (Logged text).
Definition consoleError (label : string) (error : Exn) : M unit :=
    consolePrint (Errored label error).

Section WithOracle.
Context (o : Oracle).

    (** [new Date().toISOString()]. *)
Definition nowISO : M string := fun w =>
      (Ok (isoAt o (clockReads w)),
       mkWorld (fs w) (S (clockReads w)) (uuidDraws w) (console w)
               (modelCalls w) (res w)).

    (** [randomUUID()]. *)
Definition randomUUID : M string := fun w =>
      (Ok (uuidAt o (uuidDraws w)),
       mkWorld (fs w) (clockReads w) (S (uuidDraws w)) (console w)
               (modelCalls w) (res w)).

    (** [await openRouter.chat.send({ ..., messages, stream: true })]. *)
Definition chatSend (messages : list Message)
      : M (list Chunk * option Exn) := fun w =>
      let w' := mkWorld (fs w) (clockReads w) (uuidDraws w) (console w)
                        (modelCalls w ++ [messages]) (res w) in
      match llm o messages with
      | SendRejected e => (Err e, w')
      | Stream chunks failure => (Ok (chunks, failure), w')
      end.
End WithOracle.

  (** The response object. *)
Definition resStatusJson (code : nat) (body : JsonBody) : M unit := fun w =>
    (Ok tt, withRes (mkResponse code (headers (res w)) (written (res w))
                                (Some body) true) w).
Definition resSetHeader (name value : string) : M unit := fun w =>
    (Ok tt, withRes (mkResponse (status (res w)) (headers (res w) ++ [(name, value)])
                                (written (res w)) (json (res w)) (ended (res w))) w).
Definition resWrite (text : string) : M unit := fun w =>
    (Ok tt, withRes (mkResponse (status (res w)) (headers (res w))
                                (written (res w) ++ [text]) (json (res w))
                                (ended (res w))) w).
Definition resEnd : M unit := fun w =>
    (Ok tt, withRes (mkResponse (status (res w)) (headers (res w))
                                (written (res w)) (json (res w)) true) w).

(** [res.send(body)]: the body is written and the response ends. *)
Definition resSend (body : string) : M unit := fun w =>
  (Ok tt, withRes (mkResponse (status (res w)) (headers (res w))
                              (written (res w) ++ [body]) (json (res w)) true) w).

End Env.

Import Env.
Open Scope js_scope.

(* ================================================================== *)
(** ** The session log store: the asynchronous part of [userHistory.ts] *)
(* ================================================================== *)

Module Store.

  (** [path.join(__dirname, '..', 'user-data')] is an absolute path that
      depends on where the module is installed; the directory is named here
      by its last component. *)
Definition USER_DATA_DIR : string := "user-data".

  (** [path.join(USER_DATA_DIR, `${userId}.md`)], as the name of the file
      inside USER_DATA_DIR.  This is what [path.join] designates when
      [userId] is a plain file name ([plainName] below): with a path
      separator in it, [path.join] normalises the path, which may then
      name a file of another identifier or a file outside the directory,
      and such identifiers are outside this model.  The paths that
      [FsExn] carries are relative to USER_DATA_DIR in the same way. *)
Definition filePathOf (userId : string) : string := userId +:+ ".md".

  (** The template literal of [loadUserHistory]. *)
Definition initialContent (userId created : string) : string :=
    "# Medical History - User " +:+ userId +:+ nl +:+
    nl +:+
    "**Created:** " +:+ created +:+ nl +:+
    nl +:+
    "---" +:+ nl +:+
    nl +:+
    "## Session History" +:+ nl +:+
    nl.

  (** The template literal of [appendToUserHistory]. *)
Definition sessionEntry (now symptoms diagnosis : string)
      (healthHistory : option string) : string :=
    nl +:+
    "### Session " +:+ now +:+ nl +:+
    nl +:+
    "**Symptoms Reported:**" +:+ nl +:+
    symptoms +:+ nl +:+
    nl +:+
    (if truthy healthHistory
     then "**Additional Health Context:**" +:+ nl +:+
          default "" healthHistory +:+ nl
     else "") +:+ nl +:+
    nl +:+
    "**Diagnosis & Recommendations:**" +:+ nl +:+
    diagnosis +:+ nl +:+
    nl +:+
    "---" +:+ nl +:+
    nl.

Section WithOracle.
Context (o : Oracle).

Definition initializeUserDataDir : M unit :=
      tryCatch
        (mkdir USER_DATA_DIR ;!
         consoleLog "User data directory initialized")
        (fun error =>
           consoleError "Failed to create user data directory:" error).

Definition loadUserHistory (userId : string) : M string :=
      let filePath := filePathOf userId in
      tryCatch
        (let! content := readFile filePath in
         ret content)
        (fun error =>
           let! created := nowISO o in
           let initial := initialContent userId created in
           writeFile filePath initial ;!
           ret initial).

Definition appendToUserHistory (userId symptoms diagnosis : string)
        (healthHistory : option string) : M unit :=
      let filePath := filePathOf userId in
      let! now := nowISO o in
      appendFile filePath (sessionEntry now symptoms diagnosis healthHistory).

    (** [providedUserId || randomUUID()]: the right operand is evaluated
        only when the left one is falsy. *)
Definition ensureUserId (providedUserId : option string) : M string :=
      if truthy providedUserId then ret (default "" providedUserId)
      else randomUUID o.

End WithOracle.

End Store.

Import Store.

(* ================================================================== *)
(** ** The interaction orchestrator: the handlers of [server.ts] *)
(* ================================================================== *)

Module Server.

  (** [req.body] after [const { symptoms, healthHistory, userId } = req.body]. *)
Record Body : Type := mkBody {
    symptoms : option string;
    healthHistory : option string;
    userId : option string
  }.

Definition SYMPTOMS_REQUIRED : string :=
    "Symptoms are required. Please provide a 'symptoms' field in the request body.".

Definition systemPrompt (userProvidedHistory : string) : string :=
"You are a healthcare assistant. You have access to symptoms and health information that the patient has previously reported.

IMPORTANT: The information below contains ONLY what the patient has explicitly reported in previous sessions. Do NOT assume or infer medical conditions that were not explicitly stated by the patient. Only reference information that was directly provided by the patient.

PREVIOUS PATIENT REPORTS:
" +:+ userProvidedHistory +:+ "

Instructions:
- Review the patient's previously reported symptoms and health information above
- Reference previous symptoms or patterns if relevant
- Note any recurring issues
- Provide continuity of care recommendations
- ONLY reference medical conditions, diagnoses, or health information that was explicitly stated by the patient in their reports
- Do NOT assume chronic conditions or diagnoses unless the patient explicitly mentioned them
- You are given a user's health history and a list of symptoms. You need to diagnose the user's condition and recommend a treatment plan based on the CURRENT symptoms and ONLY the explicitly reported health information.".

Definition userPrompt (healthHistory : option string) (symptoms : string) : string :=
    if truthy healthHistory
    then "Additional Context: " +:+ default "" healthHistory +:+ nl +:+ nl +:+
         "Current Symptoms: " +:+ symptoms
    else "Current Symptoms: " +:+ symptoms.

Definition buildMessages (userProvidedHistory : string)
      (healthHistory : option string) (symptoms : string) : list Message :=
    [ mkMessage "system" (systemPrompt userProvidedHistory);
      mkMessage "user" (userPrompt healthHistory symptoms) ].

  (** The body of [for await (const chunk of stream)] over the chunks the
      stream yields; [usageInfo] is written and never read, and is left
      out.  Returns the loop variables [response] and [chunkCount]. *)
Fixpoint relay (chunks : list Chunk) (response : string) (chunkCount : nat)
      : M (string * nat) :=
    match chunks with
    | [] => ret (response, chunkCount)
    | chunk :: rest =>
        let chunkCount := S chunkCount in
        if truthy (deltaContent chunk)
        then let content := default "" (deltaContent chunk) in
             resWrite content ;!
             relay rest (response +:+ content) chunkCount
        else relay rest response chunkCount
    end.

Definition userIdTrailer (effectiveUserId : string) : string :=
    nl +:+ nl +:+ "--- USER_ID: " +:+ effectiveUserId +:+ " ---".

Definition streamErrorNotice (streamError : Exn) : string :=
    nl +:+ nl +:+ "[Error during streaming]: " +:+ exnString streamError +:+ nl.

Section WithOracle.
Context (o : Oracle).

    (** The part of both handlers from the first line of the outer [try]
        to the inner [catch], which [onStreamError] is.  The loop
        variables [response] and [chunkCount] outlive the inner [try]; the
        loop throws only when the stream does, after the chunks it
        yielded. *)
Definition interaction (body : Body)
        (onStreamError : Exn -> string -> nat -> M unit) : M unit :=
      if negb (truthy (symptoms body)) then
        resStatusJson 400 (JsonObject [("error", SYMPTOMS_REQUIRED)])
      else
        let symptoms := default "" (symptoms body) in
        let! effectiveUserId := ensureUserId o (userId body) in
        let! fullHistoryMd := loadUserHistory o effectiveUserId in
        let userProvidedHistory := extractUserProvidedHistory fullHistoryMd in
        let messages :=
          buildMessages userProvidedHistory (healthHistory body) symptoms in
        let! stream := chatSend o messages in
        resSetHeader "Content-Type" "text/event-stream" ;!
        resSetHeader "Cache-Control" "no-cache" ;!
        resSetHeader "Connection" "keep-alive" ;!
        let! loopVars := relay (fst stream) "" 0 in
        let response := fst loopVars in
        let chunkCount := snd loopVars in
        tryCatch
          (match snd stream with
           | Some thrown => throw thrown
           | None => ret tt
           end ;!
           appendToUserHistory o effectiveUserId symptoms response
                               (healthHistory body) ;!
           resWrite (userIdTrailer effectiveUserId) ;!
           resEnd)
          (fun streamError => onStreamError streamError response chunkCount).

Definition internalError (endpoint : string) (error : Exn) : M unit :=
      consoleError ("Error in " +:+ endpoint +:+ " endpoint:") error ;!
      resStatusJson 500 (JsonObject [("error", "Internal server error");
                                     ("message", exnMessage error)]).

    (** [app.post("/diagnose", ...)], behind the payment gate. *)
Definition diagnose (body : Body) : M unit :=
      tryCatch
        (interaction body (fun streamError response chunkCount =>
           consoleError "Error during streaming:" streamError ;!
           resWrite (streamErrorNotice streamError) ;!
           resWrite ("[Chunks received before error: " +:+ ofNat chunkCount
                     +:+ "]" +:+ nl) ;!
           resWrite ("[Response length before error: "
                     +:+ ofNat (String.length response) +:+ " characters]" +:+ nl) ;!
           resEnd))
        (internalError "/diagnose").

    (** [app.post("/diagnose-test", ...)]. *)
Definition diagnoseTest (body : Body) : M unit :=
      tryCatch
        (interaction body (fun streamError response chunkCount =>
           consoleError "Error during streaming:" streamError ;!
           resWrite (streamErrorNotice streamError) ;!
           resEnd))
        (internalError "/diagnose-test").

(** [app.get("/history/:userId", ...)], on [req.params.userId]. *)
Definition history (userId : string) : M unit :=
  tryCatch
    (let! history := loadUserHistory o userId in
     resSetHeader "Content-Type" "text/markdown" ;!
     resSend history)
    (fun error =>
       resStatusJson 500 (JsonObject [("error", "Failed to load history");
                                      ("message", exnMessage error)])).

End WithOracle.

End Server.

Import Server.

(* ================================================================== *)
(** ** The clients: reading the identifier back from the streamed body *)
(* ================================================================== *)

Module Client.

(** What [.] refuses in a regular expression without the [s] flag, among
    the code units below 256: LF and CR. *)
Definition isLineTerminator (c : ascii) : bool :=
  Nat.eqb (nat_of_ascii c) 10 || Nat.eqb (nat_of_ascii c) 13.

(** [(.*?) ---] read at the head of [s]: the shortest run of [.] that is
    followed by [ ---]; the captured run. *)
Fixpoint lazyCapture (s : string) : option string :=
  if startsWith " ---" s then Some EmptyString
  else match s with
       | EmptyString => None
       | String c r =>
           if isLineTerminator c then None
           else match lazyCapture r with
                | Some x => Some (String c x)
                | None => None
                end
       end.

(** [/--- USER_ID: (.*?) ---/] tried at the head of [s]. *)
Definition userIdAt (s : string) : option string :=
  match eat "--- USER_ID: " s with
  | Some r => lazyCapture r
  | None => None
  end.

(** [fullResponse.match(/--- USER_ID: (.*?) ---/)], as [userIdMatch[1]]:
    the leftmost position where the pattern matches decides. *)
Fixpoint userIdMatch (fullResponse : string) : option string :=
  match userIdAt fullResponse with
  | Some x => Some x
  | None =>
      match fullResponse with
      | EmptyString => None
      | String _ r => userIdMatch r
      end
  end.

End Client.

Import Client.

(* ================================================================== *)
(** ** Vocabulary of the statements *)
(* ================================================================== *)

(** How the loop of the filter treats a line: the first test that fires. *)
Inductive Kind : Type :=
| KSession | KSymptoms | KHealth | KDiagnosis | KRule | KText.

Definition classify (line : string) : Kind :=
  if startsWith SESSION_START line then KSession
  else if includes SYMPTOMS line then KSymptoms
  else if includes HEALTH line then KHealth
  else if includes DIAGNOSIS line then KDiagnosis
  else if String.eqb (trim line) RULE then KRule
  else KText.

(** A line that carries one of the four markers. *)
Definition isMarkerLine (line : string) : bool :=
  startsWith SESSION_START line || includes SYMPTOMS line
  || includes HEALTH line || includes DIAGNOSIS line.

Definition isText (line : string) : bool :=
  match classify line with KText => true | _ => false end.

(** A string without a newline: one line. *)
Fixpoint noNewline (s : string) : bool :=
  match s with
  | EmptyString => true
  | String c r => negb (Ascii.eqb c nlc) && noNewline r
  end.

(** A field text none of whose lines is a marker line or a rule. *)
Definition plainText (s : string) : bool := forallb isText (split s).

(** [items] written one after the other, each closed by a newline. *)
Definition unlines (items : list string) : string :=
  fold_right (fun item rest => item +:+ nl +:+ rest) "" items.

(** The header pattern read on the lines of the text: the first line
    starts with the title, the second is empty, the third starts with the
    Created label. *)
Definition headerLines (lines : list string) : option string :=
  match lines with
  | l0 :: rest =>
      if startsWith "# Medical History" l0 then
        match rest with
        | l1 :: l2 :: _ =>
            if String.eqb l1 "" && startsWith "**Created:**" l2
            then Some (l0 +:+ nl +:+ nl +:+ l2)
            else None
        | _ => None
        end
      else None
  | [] => None
  end.

(** A session entry as the store writes it, and what the user said in it. *)
Record Entry : Type := mkEntry {
  entryTime : string;
  entrySymptoms : string;
  entryHealth : option string;
  entryModelOutput : string
}.

Record Reported : Type := mkReported {
  saidAt : string;
  saidSymptoms : string;
  saidHealth : option string
}.

Definition userFields (e : Entry) : Reported :=
  mkReported (entryTime e) (entrySymptoms e) (entryHealth e).

Definition renderEntry (e : Entry) : string :=
  sessionEntry (entryTime e) (entrySymptoms e) (entryModelOutput e) (entryHealth e).

(** The log after the appends of [es], in this order, to [initial]. *)
Definition logAfter (initial : string) (es : list Entry) : string :=
  fold_left (fun log e => log +:+ renderEntry e) es initial.

Definition titleLine (userId : string) : string :=
  "# Medical History - User " +:+ userId.
Definition createdLine (created : string) : string := "**Created:** " +:+ created.

(** The identifier and the creation time fit on their lines and bring no
    marker into the header. *)
Definition headerPlain (userId created : string) : bool :=
  noNewline userId && noNewline created
  && isText (titleLine userId) && isText (createdLine created).

(** An entry of the fixed grammar: the time fits on the entry line and no
    line of a field is a marker line or a rule. *)
Definition wellFormed (e : Entry) : bool :=
  noNewline (entryTime e) && plainText (entrySymptoms e)
  && plainText (default "" (entryHealth e)) && plainText (entryModelOutput e).

(** The items of the template of [appendToUserHistory], each closed by a
    newline in the entry. *)
Definition entryItems (e : Entry) : list string :=
  [""; "### Session " +:+ entryTime e; ""; SYMPTOMS; entrySymptoms e; ""]
  ++ (if truthy (entryHealth e) then [HEALTH; default "" (entryHealth e)] else [])
  ++ [""; ""; DIAGNOSIS; entryModelOutput e; ""; RULE; ""].

Definition headerItems (userId created : string) : list string :=
  [titleLine userId; ""; createdLine created; ""; RULE; ""; "## Session History"; ""].

(** The block of the filtered view for what the user said in one entry. *)
Definition blockLines (r : Reported) : list string :=
  ["### Session " +:+ saidAt r; SYMPTOMS] ++ split (saidSymptoms r) ++ [""]
  ++ (if truthy (saidHealth r) then HEALTH :: split (default "" (saidHealth r)) else [])
  ++ [""; ""].

Definition blockText (r : Reported) : string :=
  "### Session " +:+ saidAt r +:+ nl +:+
  SYMPTOMS +:+ nl +:+
  saidSymptoms r +:+ nl +:+
  nl +:+
  (if truthy (saidHealth r)
   then HEALTH +:+ nl +:+ default "" (saidHealth r) +:+ nl +:+ nl
   else nl).

(** The filtered view written from the user's words alone. *)
Definition filteredView (userId created : string) (said : list Reported) : string :=
  assemble (titleLine userId +:+ nl +:+ nl +:+ createdLine created)
           (map blockText said).

Definition userTexts (r : Reported) : list string :=
  saidSymptoms r :: (if truthy (saidHealth r) then [default "" (saidHealth r)] else []).

(** The [pieces] occur in [s] one after the other, without overlap. *)
Fixpoint inOrder (pieces : list string) (s : string) : Prop :=
  match pieces with
  | [] => True
  | p :: rest => exists a b, s = a +:+ p +:+ b /\ inOrder rest b
  end.

(** The lines of a log without the text of its diagnosis sections: inside
    an entry (after an entry-start line), the text lines that follow a
    line treated as diagnosis marker, up to the next rule or marker line,
    are left out.  [afterDiagnosis] says that the last rule or marker line
    seen was such a diagnosis marker. *)
Fixpoint dropDiagnosisText (inEntry afterDiagnosis : bool) (lines : list string)
    : list string :=
  match lines with
  | [] => []
  | l :: rest =>
      match classify l with
      | KSession => l :: dropDiagnosisText true false rest
      | KSymptoms | KHealth | KRule => l :: dropDiagnosisText inEntry false rest
      | KDiagnosis => l :: dropDiagnosisText inEntry inEntry rest
      | KText =>
          if afterDiagnosis then dropDiagnosisText inEntry true rest
          else l :: dropDiagnosisText inEntry false rest
      end
  end.

Definition withoutDiagnosisText (md : string) : string :=
  join nl (dropDiagnosisText false false (split md)).

(** An entry whose diagnosis marker line also carries the symptoms marker. *)
Definition mixedMarkerLog : string :=
  "### Session 2026-02-15T17:03:50.616Z" +:+ nl +:+
  nl +:+
  "**Symptoms Reported:**" +:+ nl +:+
  "cough" +:+ nl +:+
  nl +:+
  "**Diagnosis & Recommendations:** (from the **Symptoms Reported:** above)" +:+ nl +:+
  "Likely bronchitis." +:+ nl +:+
  nl +:+
  "---" +:+ nl.

Definition isSession (line : string) : bool :=
  match classify line with KSession => true | _ => false end.

Definition startsEntry (block : list string) : bool :=
  match block with
  | l :: _ => isSession l
  | [] => false
  end.

(** [Block b a h]: the lines [b] are an accumulator of the scan, and [a],
    [h] are the symptoms and health-context flags after its last line.  An
    accumulator starts with an entry-start line or, before the first
    entry, with a field marker; text lines join it only inside a field. *)
Inductive Block : list string -> bool -> bool -> Prop :=
| Block_entry l :
    noNewline l = true -> classify l = KSession -> Block [l] false false
| Block_first_symptoms l :
    noNewline l = true -> classify l = KSymptoms -> Block [l] true false
| Block_first_health l :
    noNewline l = true -> classify l = KHealth -> Block [l] false true
| Block_symptoms b a h l :
    Block b a h -> noNewline l = true -> classify l = KSymptoms ->
    Block (b ++ [l]) true false
| Block_health b a h l :
    Block b a h -> noNewline l = true -> classify l = KHealth ->
    Block (b ++ [l]) false true
| Block_text b a h l :
    Block b a h -> a || h = true -> noNewline l = true -> classify l = KText ->
    Block (b ++ [l]) a h.

(** A block of the view that is an entry-start line and nothing else. *)
Definition bareEntryLine (block : string) : bool :=
  startsWith SESSION_START block && noNewline block.

(** What a second filtering makes of the blocks of a filtered view: a
    block that is more than a bare entry line takes up the empty lines
    that follow it in the view, one before a joiner, two at the end. *)
Fixpoint padBlocks (blocks : list string) : list string :=
  match blocks with
  | [] => []
  | b :: rest =>
      match rest with
      | [] => [if bareEntryLine b then b else b +:+ nl +:+ nl]
      | _ :: _ => (if bareEntryLine b then b else b +:+ nl) :: padBlocks rest
      end
  end.

(** No line of the matched header carries the symptoms or the
    health-context marker. *)
Definition headerQuiet (md : string) : bool :=
  forallb (fun l => negb (includes SYMPTOMS l || includes HEALTH l))
          (split (headerOf md)).

(** The lines of the view after the label, for blocks given by their lines. *)
Fixpoint viewBody (blocks : list (list string)) : list string :=
  match blocks with
  | [] => []
  | b :: rest =>
      match rest with
      | [] => b ++ [""; ""]
      | _ :: _ => b ++ [""; RULE; ""] ++ viewBody rest
      end
  end.

(** The accumulators filled so far: the flushed ones and the current one. *)
Definition accumulators (flushed : list (list string)) (cur : list string)
    : list (list string) :=
  flushed ++ match cur with [] => [] | _ :: _ => [cur] end.

(** What every state of the scan satisfies on lines without newline. *)
Definition ScanInv (s : Scan) : Prop :=
  exists flushed : list (list string),
    userProvidedSections s = map (join nl) flushed /\
    Forall (fun b => exists a h, Block b a h) flushed /\
    Forall (fun b => startsEntry b = true)
           (tl (accumulators flushed (currentSession s))) /\
    match currentSession s with
    | [] =>
        flushed = [] /\
        inSymptomsSection s = false /\ inHealthContextSection s = false
    | _ :: _ =>
        exists a h, Block (currentSession s) a h /\
          (inSymptomsSection s || inHealthContextSection s = true ->
           inSymptomsSection s = a /\ inHealthContextSection s = h)
    end.

(** The text that a stream relays: the truthy [delta.content] of its chunks. *)
Definition deliveredText (chunks : list Chunk) : list string :=
  omap (fun c => if truthy (deltaContent c) then deltaContent c else None) chunks.

Definition demoOracle (reply : ModelReply) : Oracle :=
  mkOracle (fun n => "2026-02-15T17:03:4" +:+ ofNat n +:+ ".000Z")
           (fun n => "uuid-" +:+ ofNat n)
           (fun _ => reply).
Definition emptyFs : Fs := mkFs true true true ∅.
Definition world0 (f : Fs) : World := mkWorld f 0 0 [] [] freshResponse.

(** Two entries and the log of user [u1] that holds them. *)
Definition coughEntry : Entry :=
  mkEntry "2026-02-15T17:03:50.616Z" "cough" None
          ("Rest and fluids." +:+ nl +:+ "See a doctor.").
Definition feverEntry : Entry :=
  mkEntry "2026-02-16T09:12:01.004Z" ("fever since Monday" +:+ nl +:+ "chills")
          (Some "no known allergies") "Likely a viral infection.".
Definition sampleLog : string :=
  logAfter (initialContent "u1" "2026-02-15T17:03:43.506Z") [coughEntry].

(** A store in which the log of user [u1] may be written but not read. *)
Definition writeOnlyLog : string :=
  initialContent "u1" "2026-02-15T17:03:43.506Z"
  +:+ sessionEntry "2026-02-15T17:03:50.616Z" "cough" "Rest and fluids." None.
Definition writeOnlyFs : Fs :=
  mkFs true true true {[ filePathOf "u1" := mkFile writeOnlyLog false true ]}.

(** The world after the handler wrote [texts] to the response body. *)
Definition afterWrites (texts : list string) (w : World) : World :=
  withRes (mkResponse (status (res w)) (headers (res w))
                      (written (res w) ++ texts) (json (res w))
                      (ended (res w))) w.

(** The world when the stream stops: the call is recorded, the three
    headers are set and the delivered text is written. *)
Definition streaming (messages : list Message) (delivered : list string)
    (w1 : World) : World :=
  afterWrites delivered
    (mkWorld (fs w1) (clockReads w1) (uuidDraws w1) (console w1)
       (modelCalls w1 ++ [messages])
       (mkResponse (status (res w1))
          (headers (res w1) ++ [("Content-Type", "text/event-stream")]
             ++ [("Cache-Control", "no-cache")] ++ [("Connection", "keep-alive")])
          (written (res w1)) (json (res w1)) (ended (res w1)))).

(** The model of scenario C: two chunks of text around an empty one, then
    a failure of the provider. *)
Definition failingOracle : Oracle :=
  demoOracle (Stream [mkChunk (Some "Based on") None; mkChunk None None;
                      mkChunk (Some "...") None]
                     (Some (ModelExn "provider unavailable"))).

(** The world after the inner [catch] of a handler: one console line, the
    notices written, the response ended. *)
Definition afterNotices (line : ConsoleLine) (notices : list string) (w : World)
    : World :=
  mkWorld (fs w) (clockReads w) (uuidDraws w) (console w ++ [line]) (modelCalls w)
          (mkResponse (status (res w)) (headers (res w))
                      (written (res w) ++ notices) (json (res w)) true).

(** A text whose title line carries the diagnosis marker, before any entry. *)
Definition markedTitleLog : string :=
  "# Medical History **Diagnosis & Recommendations:**" +:+ nl +:+
  nl +:+
  "**Created:** never" +:+ nl.

(** A model that answers in two chunks and ends normally. *)
Definition answeringOracle : Oracle :=
  demoOracle (Stream [mkChunk (Some "Rest ") None; mkChunk (Some "and fluids.") (Some "usage")]
                     None).

(** What a caller hands to [appendToUserHistory] for one interaction. *)
Record Interaction : Type := mkInteraction {
  toldSymptoms : string;
  gotDiagnosis : string;
  toldHealth : option string
}.

(** The appends of [items] to the log of [userId], one after the other. *)
Fixpoint appendEach (o : Oracle) (userId : string) (items : list Interaction)
    : M unit :=
  match items with
  | [] => ret tt
  | i :: rest =>
      appendToUserHistory o userId (toldSymptoms i) (gotDiagnosis i) (toldHealth i) ;!
      appendEach o userId rest
  end.

(** The entries that these appends write when the clock has been read [k]
    times before. *)
Fixpoint stampFrom (o : Oracle) (k : nat) (items : list Interaction) : list Entry :=
  match items with
  | [] => []
  | i :: rest =>
      mkEntry (isoAt o k) (toldSymptoms i) (toldHealth i) (gotDiagnosis i)
      :: stampFrom o (S k) rest
  end.

(** A line that starts no entry and opens no field. *)
Definition opensNothing (line : string) : bool :=
  match classify line with
  | KSession | KSymptoms | KHealth => false
  | _ => true
  end.

(** A character that an identifier may hold for the trailer to be read
    back: no space and no line terminator. *)
Definition idChar (c : ascii) : bool :=
  negb (Ascii.eqb c " "%char) && negb (isLineTerminator c).

Fixpoint allChars (p : ascii -> bool) (s : string) : bool :=
  match s with
  | EmptyString => true
  | String c r => p c && allChars p r
  end.

(** A store without its directory, which the process may not create. *)
Definition lockedFs : Fs := mkFs false false false ∅.

(** A store in which the log of user [u1] may be read but not written. *)
Definition readOnlyFs : Fs :=
  mkFs true true true {[ filePathOf "u1" := mkFile writeOnlyLog true false ]}.

(** A store in which the log of user [u1] holds [coughEntry]. *)
Definition sampleFs : Fs :=
  mkFs true true true {[ filePathOf "u1" := mkFile sampleLog true true ]}.

(** A model that rejects the call. *)
Definition rejectingOracle : Oracle :=
  demoOracle (SendRejected (ModelExn "401 unauthorized")).

(** A character that a file name may hold: no path separator (code 47, or
    92 where that one separates) and no NUL. *)
Definition nameChar (c : ascii) : bool :=
  negb (Nat.eqb (nat_of_ascii c) 47) && negb (Nat.eqb (nat_of_ascii c) 92)
  && negb (Nat.eqb (nat_of_ascii c) 0).

(** An identifier that is a plain file name: [path.join] puts the log of
    such an identifier in USER_DATA_DIR under the name [filePathOf], and
    the name is short enough for a directory entry (with two bytes for a
    code unit above 127 and the extension, at most 243 bytes of 255). *)
Definition plainName (userId : string) : bool :=
  allChars nameChar userId && Nat.leb (String.length userId) 120.

(** The lines of a last entry that stops inside its diagnosis section. *)
Definition openEntry (time symptoms diagnosis : string) : string :=
  SESSION_START +:+ time +:+ nl +:+
  SYMPTOMS +:+ nl +:+
  symptoms +:+ nl +:+
  DIAGNOSIS +:+ nl +:+
  diagnosis.

(* ================================================================== *)
(** ** Sanity checks of the primitives *)
(* ================================================================== *)

Example split_ex : split ("a" +:+ nl +:+ nl +:+ "b" +:+ nl) = ["a"; ""; "b"; ""].
Proof. reflexivity. Qed.
Example join_ex : join ", " ["a"; "b"; "c"] = "a, b, c".
Proof. reflexivity. Qed.
Example trim_ex : trim "  --- " = "---" /\ trim " a b  " = "a b" /\ trim "   " = "".
Proof. repeat split; reflexivity. Qed.
Example ofNat_ex : ofNat 120 = "120" /\ ofNat 0 = "0".
Proof. split; reflexivity. Qed.

(** The header is matched on the raw text, apart from the scan: a Created
    line that follows a diagnosis marker outside any entry is copied. *)
Example header_is_read_from_raw_text :
  extractUserProvidedHistory markedTitleLog
  = "# Medical History **Diagnosis & Recommendations:**" +:+ nl +:+ nl +:+
    "**Created:** never" +:+ SECTION_LABEL.
Proof. reflexivity. Qed.

(** A complete interaction on an empty store: the identifier is drawn, the
    log is created, the answer is relayed and closed by the trailer, and
    the entry is appended to the log. *)
Example diagnose_success_appends :
  let w' := snd (diagnose answeringOracle (mkBody (Some "cough") None None)
                          (world0 emptyFs)) in
  written (res w') = ["Rest "; "and fluids."; userIdTrailer "uuid-0"] /\
  ended (res w') = true /\
  files (fs w') !! filePathOf "uuid-0"
  = Some (mkFile (logAfter (initialContent "uuid-0" "2026-02-15T17:03:40.000Z")
                    [mkEntry "2026-02-15T17:03:41.000Z" "cough" None
                             "Rest and fluids."])
                 true true).
Proof. vm_compute. repeat split. Qed.

(* ================================================================== *)
(** ** Strings *)
(* ================================================================== *)

(** stdpp keeps [simpl] from unfolding the append of strings; these two
    equations are its computation rules. *)
Lemma sapp_nil_l (b : string) : "" +:+ b = b.
Proof. reflexivity. Qed.

Lemma sapp_cons (x : ascii) (a b : string) : String x a +:+ b = String x (a +:+ b).
Proof. reflexivity. Qed.

Lemma sapp_nil_r (a : string) : a +:+ "" = a.
Proof.
  induction a as [|x a IH]; [reflexivity|]. rewrite sapp_cons, IH. reflexivity.
Qed.

Lemma sapp_assoc (a b c : string) : (a +:+ b) +:+ c = a +:+ (b +:+ c).
Proof.
  induction a as [|x a IH]; [reflexivity|]. rewrite !sapp_cons, IH. reflexivity.
Qed.

Lemma startsWith_app (p t : string) : startsWith p (p +:+ t) = true.
Proof.
  induction p as [|x p IH]; [reflexivity|].
  rewrite sapp_cons. cbn [startsWith]. rewrite Ascii.eqb_refl, IH. reflexivity.
Qed.

Lemma startsWith_eat (p s : string) :
  eat p s = None <-> startsWith p s = false.
Proof.
  revert s. induction p as [|x p IH]; intros s; cbn [eat startsWith].
  - split; discriminate.
  - destruct s as [|y s]; [tauto|].
    destruct (Ascii.eqb x y); cbn [andb]; [apply IH | tauto].
Qed.

Lemma eat_app (p s r : string) : eat p s = Some r -> s = p +:+ r.
Proof.
  revert s. induction p as [|x p IH]; intros s; cbn [eat].
  - intros [= ->]. reflexivity.
  - destruct s as [|y s]; [discriminate|].
    destruct (Ascii.eqb_spec x y) as [->|]; [|discriminate].
    intros H. rewrite sapp_cons, <- (IH _ H). reflexivity.
Qed.

(** *** Lines *)

Lemma split_not_nil (s : string) : split s <> [].
Proof.
  destruct s as [|c r]; cbn [split]; [discriminate|].
  destruct (Ascii.eqb c nlc); [discriminate|].
  destruct (split r); discriminate.
Qed.

Lemma split_cons_plain (c : ascii) (r : string) :
  Ascii.eqb c nlc = false ->
  split (String c r) = String c (hd "" (split r)) :: tl (split r).
Proof.
  intros H. cbn [split]. rewrite H.
  destruct (split r) eqn:E; [destruct (split_not_nil r E) | reflexivity].
Qed.

Lemma split_single (a : string) : noNewline a = true -> split a = [a].
Proof.
  induction a as [|c r IH]; [reflexivity|].
  cbn [noNewline]. intros [Hc Hr]%andb_prop.
  apply negb_true_iff in Hc.
  rewrite (split_cons_plain _ _ Hc), (IH Hr). reflexivity.
Qed.

Lemma noNewline_app (a b : string) :
  noNewline (a +:+ b) = noNewline a && noNewline b.
Proof.
  induction a as [|c a IH]; [reflexivity|].
  rewrite sapp_cons. cbn [noNewline]. rewrite IH, andb_assoc. reflexivity.
Qed.

Lemma split_app_nl (a b : string) : split (a +:+ nl +:+ b) = split a ++ split b.
Proof.
  induction a as [|c r IH].
  - reflexivity.
  - rewrite sapp_cons. destruct (Ascii.eqb c nlc) eqn:Hc.
    + cbn [split]. rewrite Hc, IH. reflexivity.
    + rewrite !(split_cons_plain _ _ Hc), IH.
      destruct (split r) eqn:E; [destruct (split_not_nil r E) | reflexivity].
Qed.

Lemma split_lines_noNewline (s : string) : Forall (fun l => noNewline l = true) (split s).
Proof.
  induction s as [|c r IH]; [repeat constructor|].
  destruct (Ascii.eqb c nlc) eqn:Hc.
  - cbn [split]. rewrite Hc. constructor; [reflexivity | exact IH].
  - rewrite (split_cons_plain _ _ Hc).
    destruct (split r) as [|h t] eqn:E; [destruct (split_not_nil r E)|].
    inversion IH; subst. constructor; [|assumption].
    cbn [hd noNewline]. rewrite Hc. assumption.
Qed.

Lemma join_cons2 (sep x y : string) (rest : list string) :
  join sep (x :: y :: rest) = x +:+ sep +:+ join sep (y :: rest).
Proof. reflexivity. Qed.

Lemma split_join (ls : list string) :
  ls <> [] -> Forall (fun l => noNewline l = true) ls -> split (join nl ls) = ls.
Proof.
  induction ls as [|x [|y rest] IH]; intros Hne Hall.
  - congruence.
  - inversion Hall; subst. apply split_single. assumption.
  - inversion Hall; subst. rewrite join_cons2, split_app_nl.
    rewrite split_single by assumption. rewrite IH; [reflexivity|discriminate|assumption].
Qed.

Lemma join_split (s : string) : join nl (split s) = s.
Proof.
  induction s as [|c r IH]; [reflexivity|].
  destruct (Ascii.eqb_spec c nlc) as [->|Hc].
  - cbn [split]. rewrite Ascii.eqb_refl.
    destruct (split r) as [|h t] eqn:E; [destruct (split_not_nil r E)|].
    rewrite join_cons2, IH. reflexivity.
  - apply Ascii.eqb_neq in Hc. rewrite (split_cons_plain _ _ Hc).
    destruct (split r) as [|h [|h' t]] eqn:E; [destruct (split_not_nil r E)| |].
    + cbn [hd tl join] in *. rewrite IH. reflexivity.
    + cbn [hd tl]. rewrite join_cons2 in *. rewrite sapp_cons, IH. reflexivity.
Qed.

Lemma join_app (sep : string) (xs ys : list string) :
  xs <> [] -> ys <> [] ->
  join sep (xs ++ ys) = join sep xs +:+ sep +:+ join sep ys.
Proof.
  induction xs as [|x [|x' xs] IH]; intros Hx Hy.
  - congruence.
  - destruct ys; [congruence|]. reflexivity.
  - change ((x :: x' :: xs) ++ ys) with (x :: (x' :: xs) ++ ys).
    change ((x' :: xs) ++ ys) with (x' :: (xs ++ ys)) at 1.
    rewrite join_cons2. change (x' :: xs ++ ys) with ((x' :: xs) ++ ys).
    rewrite IH by (assumption || discriminate).
    rewrite join_cons2, !sapp_assoc. reflexivity.
Qed.

Lemma unlines_app (xs ys : list string) :
  unlines (xs ++ ys) = unlines xs +:+ unlines ys.
Proof.
  induction xs as [|x xs IH]; [reflexivity|].
  cbn [app unlines fold_right]. fold (unlines (xs ++ ys)). fold (unlines xs).
  rewrite IH, !sapp_assoc. reflexivity.
Qed.

Lemma split_unlines (items : list string) :
  split (unlines items) = concat (map split items) ++ [""].
Proof.
  induction items as [|x xs IH]; [reflexivity|].
  cbn [unlines fold_right map concat]. fold (unlines xs).
  rewrite split_app_nl, IH, <- app_assoc. reflexivity.
Qed.

(** *** The header pattern *)

Lemma split_spanLine (s : string) :
  split s = fst (spanLine s) ::
            match snd (spanLine s) with
            | EmptyString => []
            | String _ r => split r
            end.
Proof.
  induction s as [|c r IH]; [reflexivity|].
  destruct (Ascii.eqb c nlc) eqn:Hc.
  - cbn [split spanLine]. rewrite Hc. reflexivity.
  - rewrite (split_cons_plain _ _ Hc). cbn [spanLine]. rewrite Hc.
    destruct (spanLine r) as [a b]. cbn [fst snd] in *. rewrite IH. reflexivity.
Qed.

Lemma spanLine_app (p s : string) :
  noNewline p = true ->
  spanLine (p +:+ s) = (p +:+ fst (spanLine s), snd (spanLine s)).
Proof.
  induction p as [|c p IH]; intros Hp.
  - rewrite !sapp_nil_l. destruct (spanLine s); reflexivity.
  - cbn [noNewline] in Hp. apply andb_prop in Hp as [Hc Hp].
    apply negb_true_iff in Hc.
    rewrite sapp_cons. cbn [spanLine]. rewrite Hc, (IH Hp). reflexivity.
Qed.

Lemma spanLine_snd (s : string) :
  snd (spanLine s) = "" \/ exists r, snd (spanLine s) = String nlc r.
Proof.
  induction s as [|c r IH]; [left; reflexivity|].
  cbn [spanLine]. destruct (Ascii.eqb_spec c nlc) as [->|Hc].
  - right. eexists. reflexivity.
  - destruct (spanLine r). exact IH.
Qed.

Lemma startsWith_prefix_app (p a b : string) :
  startsWith p a = true -> startsWith p (a +:+ b) = true.
Proof.
  revert a. induction p as [|x p IH]; intros a; [reflexivity|].
  destruct a as [|y a]; [discriminate|].
  rewrite sapp_cons. cbn [startsWith]. intros [H1 H2]%andb_prop.
  rewrite H1, (IH _ H2). reflexivity.
Qed.

Lemma startsWith_first_line (p s : string) :
  noNewline p = true ->
  startsWith p s = startsWith p (fst (spanLine s)).
Proof.
  revert s. induction p as [|x p IH]; intros s Hp; [reflexivity|].
  cbn [noNewline] in Hp. apply andb_prop in Hp as [Hx Hp].
  apply negb_true_iff in Hx.
  destruct s as [|y s]; [reflexivity|].
  cbn [spanLine]. destruct (Ascii.eqb_spec y nlc) as [->|Hy].
  - cbn [fst startsWith]. rewrite Hx. reflexivity.
  - destruct (spanLine s) as [a b] eqn:E. cbn [fst startsWith].
    rewrite (IH s Hp), E. reflexivity.
Qed.

Lemma headerMatch_lines (md : string) : headerMatch md = headerLines (split md).
Proof.
  unfold headerMatch. rewrite (split_spanLine md). cbn [headerLines].
  rewrite <- (startsWith_first_line "# Medical History" md eq_refl).
  destruct (eat "# Medical History" md) as [r1|] eqn:E1.
  2:{ apply startsWith_eat in E1. rewrite E1. reflexivity. }
  assert (Hs : startsWith "# Medical History" md = true).
  { destruct (startsWith "# Medical History" md) eqn:Hs; [reflexivity|].
    apply startsWith_eat in Hs. congruence. }
  rewrite Hs. apply eat_app in E1. subst md.
  rewrite (spanLine_app "# Medical History" r1 eq_refl). cbn [fst snd].
  destruct (spanLine r1) as [a r2] eqn:E2. cbn [fst snd].
  destruct (spanLine_snd r1) as [H2|[r2' H2]]; rewrite E2 in H2; cbn [snd] in H2;
    subst r2; [reflexivity|].
  change (eat (nl +:+ nl +:+ "**Created:**") (String nlc r2'))
    with (eat (nl +:+ "**Created:**") r2').
  rewrite (split_spanLine r2').
  destruct r2' as [|c r3']; [reflexivity|].
  change (eat (nl +:+ "**Created:**") (String c r3'))
    with (if Ascii.eqb nlc c then eat "**Created:**" r3' else None).
  cbn [spanLine]. rewrite (Ascii.eqb_sym nlc c).
  destruct (Ascii.eqb c nlc) eqn:Hc.
  - cbn [fst snd]. rewrite (split_spanLine r3'). cbn [String.eqb andb].
    rewrite <- (startsWith_first_line "**Created:**" r3' eq_refl).
    destruct (eat "**Created:**" r3') as [r3|] eqn:E3.
    2:{ apply startsWith_eat in E3. rewrite E3. reflexivity. }
    apply eat_app in E3. subst r3'.
    rewrite startsWith_app.
    rewrite (spanLine_app "**Created:**" r3 eq_refl). cbn [fst].
    destruct (spanLine r3) as [b r4]. cbn [fst].
    rewrite !sapp_assoc. reflexivity.
  - destruct (spanLine r3') as [a' b']. cbn [fst snd].
    destruct b' as [|x b']; [reflexivity|].
    destruct (split b'); reflexivity.
Qed.

(* ================================================================== *)
(** ** The line scan of the filter *)
(* ================================================================== *)

Lemma step_classify (s : Scan) (line : string) :
  step s line =
    match classify line with
    | KSession =>
        mkScan (pushSession (userProvidedSections s) (currentSession s))
               [line] false false false
    | KSymptoms =>
        mkScan (userProvidedSections s) (currentSession s ++ [line]) true false false
    | KHealth =>
        mkScan (userProvidedSections s) (currentSession s ++ [line]) false true false
    | KDiagnosis =>
        mkScan (userProvidedSections s) (currentSession s) false false true
    | KRule =>
        mkScan (userProvidedSections s) (currentSession s) false false false
    | KText =>
        if inSymptomsSection s || inHealthContextSection s
        then mkScan (userProvidedSections s) (currentSession s ++ [line])
                    (inSymptomsSection s) (inHealthContextSection s)
                    (inDiagnosisSection s)
        else s
    end.
Proof.
  unfold step, classify.
  destruct (startsWith SESSION_START line); [reflexivity|].
  destruct (includes SYMPTOMS line); [reflexivity|].
  destruct (includes HEALTH line); [reflexivity|].
  destruct (includes DIAGNOSIS line); [reflexivity|].
  destruct (String.eqb (trim line) RULE); reflexivity.
Qed.

Lemma classify_not_marker (line : string) :
  isMarkerLine line = false ->
  classify line = if String.eqb (trim line) RULE then KRule else KText.
Proof.
  unfold isMarkerLine, classify. intros H.
  apply orb_false_elim in H as [H Hd].
  apply orb_false_elim in H as [H Hh].
  apply orb_false_elim in H as [Hs Hy].
  rewrite Hs, Hy, Hh, Hd. reflexivity.
Qed.

Lemma classify_session (t : string) : classify (SESSION_START +:+ t) = KSession.
Proof. unfold classify. rewrite startsWith_app. reflexivity. Qed.

Lemma pushSession_cons ups l cur :
  pushSession ups (l :: cur) = ups ++ [join nl (l :: cur)].
Proof. reflexivity. Qed.

Lemma scan_app (xs ys : list string) (s : Scan) :
  fold_left step (xs ++ ys) s = fold_left step ys (fold_left step xs s).
Proof. apply fold_left_app. Qed.

(** Text lines inside the symptoms or the health-context section are all
    appended. *)
Lemma scan_text_inside (ls : list string) : forall ups cur a b d,
  forallb isText ls = true -> a || b = true ->
  fold_left step ls (mkScan ups cur a b d) = mkScan ups (cur ++ ls) a b d.
Proof.
  induction ls as [|l ls IH]; intros ups cur a b d Hall Hab.
  - rewrite app_nil_r. reflexivity.
  - cbn [forallb] in Hall. apply andb_prop in Hall as [Hl Hall].
    cbn [fold_left]. rewrite step_classify. unfold isText in Hl.
    destruct (classify l); try discriminate. cbn. rewrite Hab.
    rewrite IH by assumption. rewrite <- app_assoc. reflexivity.
Qed.

(** Text lines outside those two sections are all dropped. *)
Lemma scan_text_outside (ls : list string) : forall ups cur d,
  forallb isText ls = true ->
  fold_left step ls (mkScan ups cur false false d) = mkScan ups cur false false d.
Proof.
  induction ls as [|l ls IH]; intros ups cur d Hall; [reflexivity|].
  cbn [forallb] in Hall. apply andb_prop in Hall as [Hl Hall].
  cbn [fold_left]. rewrite step_classify. unfold isText in Hl.
  destruct (classify l); try discriminate. cbn. apply IH. assumption.
Qed.

(** C7 (amended).  A line without marker resets the three flags and is not
    appended when its trimmed text is the rule [---]; any other line
    without marker is appended, the flags staying as they are, when the
    scan is inside the symptoms or the health-context section, and leaves
    the scan as it is otherwise.  Inside one of these two sections the
    accumulator is left alone exactly by the lines that trim to [---]. *)
Theorem step_on_unmarked_line (s : Scan) (line : string) :
  isMarkerLine line = false ->
  (trim line = RULE ->
     step s line =
       mkScan (userProvidedSections s) (currentSession s) false false false) /\
  (trim line <> RULE ->
     inSymptomsSection s || inHealthContextSection s = true ->
     step s line =
       mkScan (userProvidedSections s) (currentSession s ++ [line])
              (inSymptomsSection s) (inHealthContextSection s)
              (inDiagnosisSection s)) /\
  (trim line <> RULE ->
     inSymptomsSection s || inHealthContextSection s = false ->
     step s line = s) /\
  (inSymptomsSection s || inHealthContextSection s = true ->
     (currentSession (step s line) = currentSession s <-> trim line = RULE)).
Proof.
  intros Hm. rewrite step_classify, (classify_not_marker _ Hm).
  destruct (String.eqb_spec (trim line) RULE) as [Hr|Hr].
  - repeat split; try congruence; intros; reflexivity.
  - repeat split; try congruence.
    + intros _ ->. reflexivity.
    + intros _ ->. reflexivity.
    + rewrite H. cbn [currentSession]. intros E.
      apply (f_equal (@length string)) in E. rewrite length_app in E.
      cbn in E. lia.
Qed.

Lemma step_on_unmarked_line_witness :
  isMarkerLine "  ---" = false /\ isMarkerLine "dry, at night" = false /\
  step (mkScan [] [SYMPTOMS] true false false) "  ---"
    = mkScan [] [SYMPTOMS] false false false /\
  step (mkScan [] [SYMPTOMS] true false false) "dry, at night"
    = mkScan [] [SYMPTOMS; "dry, at night"] true false false /\
  step (mkScan [] [SESSION_START] false false true) "dry, at night"
    = mkScan [] [SESSION_START] false false true.
Proof.
  split; [reflexivity|]. split; [reflexivity|]. split; [|split].
  - apply (proj1 (step_on_unmarked_line
                    (mkScan [] [SYMPTOMS] true false false) "  ---" eq_refl)).
    reflexivity.
  - apply (proj1 (proj2 (step_on_unmarked_line
                    (mkScan [] [SYMPTOMS] true false false) "dry, at night" eq_refl)));
      [discriminate | reflexivity].
  - apply (proj1 (proj2 (proj2 (step_on_unmarked_line
                    (mkScan [] [SESSION_START] false false true)
                    "dry, at night" eq_refl))));
      [discriminate | reflexivity].
Defined.

(** C7 (as stated, refuted).  The line ["  ---"] is not the rule [---] and
    carries no marker, yet inside the symptoms section it is not appended:
    it resets the flags like the rule itself. *)
Lemma padded_rule_is_not_appended :
  let s := mkScan [] [SESSION_START +:+ " t"; SYMPTOMS] true false false in
  let line := "  ---" in
  line <> RULE /\ isMarkerLine line = false /\
  inSymptomsSection s = true /\
  currentSession (step s line) <> currentSession s ++ [line] /\
  step s line = mkScan [] [SESSION_START +:+ " t"; SYMPTOMS] false false false.
Proof.
  cbv zeta. repeat split; try discriminate.
Qed.

(** The scan of an entry that stops inside its diagnosis section: the
    accumulator holds the entry line and the symptoms section, and the
    diagnosis flag is set. *)
Lemma scan_open_entry (before : Scan) (t : string) (syms diags : list string) :
  forallb isText syms = true -> forallb isText diags = true ->
  fold_left step ([SESSION_START +:+ t; SYMPTOMS] ++ syms ++ [DIAGNOSIS] ++ diags)
            before
  = mkScan (pushSession (userProvidedSections before) (currentSession before))
           ([SESSION_START +:+ t; SYMPTOMS] ++ syms) false false true.
Proof.
  intros Hs Hd. cbn [app fold_left].
  rewrite (step_classify before), classify_session.
  rewrite step_classify. change (classify SYMPTOMS) with KSymptoms. cbn iota.
  cbn [userProvidedSections currentSession app].
  rewrite scan_app, scan_text_inside by (assumption || reflexivity).
  cbn [fold_left]. rewrite step_classify.
  change (classify DIAGNOSIS) with KDiagnosis. cbn iota.
  cbn [userProvidedSections currentSession].
  rewrite scan_text_outside by assumption. reflexivity.
Qed.

(** A rule at the end of the input: the accumulator is flushed whatever
    the flags were. *)
Lemma finish_after_rule (lines : list string) :
  finish (scanLines (lines ++ [RULE]))
  = pushSession (userProvidedSections (scanLines lines))
                (currentSession (scanLines lines)).
Proof.
  unfold scanLines. rewrite scan_app. cbn [fold_left]. rewrite step_classify.
  change (classify RULE) with KRule. cbn iota.
  unfold finish, pushSession.
  cbn [currentSession inDiagnosisSection userProvidedSections negb].
  rewrite andb_true_r. reflexivity.
Qed.

Lemma split_openEntry (t sym diag : string) :
  noNewline t = true ->
  split (openEntry t sym diag)
  = [SESSION_START +:+ t; SYMPTOMS] ++ split sym ++ [DIAGNOSIS] ++ split diag.
Proof.
  intros Ht. unfold openEntry.
  rewrite <- (sapp_assoc SESSION_START t).
  do 4 rewrite split_app_nl.
  rewrite (split_single (SESSION_START +:+ t))
    by (rewrite noNewline_app, Ht; reflexivity).
  rewrite (split_single SYMPTOMS), (split_single DIAGNOSIS) by reflexivity.
  reflexivity.
Qed.

(** The header pattern reads the first three lines: what follows a
    non-empty list of lines does not change the match when it starts with
    a line that is neither empty nor a Created line. *)
Lemma headerLines_tail (pre : list string) (x y : string) (xs ys : list string) :
  pre <> [] -> x <> "" -> y <> "" ->
  startsWith "**Created:**" x = false -> startsWith "**Created:**" y = false ->
  headerLines (pre ++ x :: xs) = headerLines (pre ++ y :: ys).
Proof.
  intros Hp Hx Hy Cx Cy.
  destruct pre as [|l0 [|l1 [|l2 r]]]; [congruence| | |]; cbn [app headerLines].
  - destruct (startsWith "# Medical History" l0); [|reflexivity].
    apply String.eqb_neq in Hx, Hy.
    destruct xs, ys; rewrite ?Hx, ?Hy; reflexivity.
  - rewrite Cx, Cy, !andb_false_r. reflexivity.
  - reflexivity.
Qed.

(** C8.  After the loop the accumulator is flushed exactly when it is not
    empty and the scan is not inside the diagnosis section.  So a last
    entry at which the text ends inside the diagnosis section leaves no
    block, its symptoms lines included: the blocks and the whole view are
    those of the text with a rule in place of that entry.  The same entry
    followed by a rule is flushed at the end of the input: its block, the
    entry line and the symptoms section, is the last one of the view. *)
Theorem end_of_input_flush (log time symptoms diagnosis : string) :
  noNewline time = true ->
  plainText symptoms = true -> plainText diagnosis = true ->
  (sectionsOf (log +:+ nl +:+ openEntry time symptoms diagnosis)
     = sectionsOf (log +:+ nl +:+ RULE) /\
   extractUserProvidedHistory (log +:+ nl +:+ openEntry time symptoms diagnosis)
     = extractUserProvidedHistory (log +:+ nl +:+ RULE)) /\
  (sectionsOf (log +:+ nl +:+ openEntry time symptoms diagnosis +:+ nl +:+ RULE)
     = sectionsOf (log +:+ nl +:+ RULE)
       ++ [SESSION_START +:+ time +:+ nl +:+ SYMPTOMS +:+ nl +:+ symptoms] /\
   extractUserProvidedHistory
     (log +:+ nl +:+ openEntry time symptoms diagnosis +:+ nl +:+ RULE)
     = headerOf (log +:+ nl +:+ RULE) +:+ SECTION_LABEL +:+
       join JOINER
         (sectionsOf (log +:+ nl +:+ RULE)
          ++ [SESSION_START +:+ time +:+ nl +:+ SYMPTOMS +:+ nl +:+ symptoms])
       +:+ nl +:+ nl) /\
  (forall md,
     (currentSession (scanLines (split md)) <> [] ->
      inDiagnosisSection (scanLines (split md)) = false ->
      sectionsOf md
        = userProvidedSections (scanLines (split md))
          ++ [join nl (currentSession (scanLines (split md)))]) /\
     (currentSession (scanLines (split md)) = [] \/
      inDiagnosisSection (scanLines (split md)) = true ->
      sectionsOf md = userProvidedSections (scanLines (split md)))).
Proof.
  intros Ht Hs Hd.
  assert (Hrule : sectionsOf (log +:+ nl +:+ RULE)
                  = pushSession (userProvidedSections (scanLines (split log)))
                                (currentSession (scanLines (split log)))).
  { unfold sectionsOf. rewrite split_app_nl.
    rewrite (split_single RULE) by reflexivity. apply finish_after_rule. }
  assert (Hopen : sectionsOf (log +:+ nl +:+ openEntry time symptoms diagnosis)
                  = sectionsOf (log +:+ nl +:+ RULE)).
  { rewrite Hrule. unfold sectionsOf.
    rewrite split_app_nl, (split_openEntry _ _ _ Ht).
    unfold scanLines. rewrite scan_app. fold (scanLines (split log)).
    rewrite (scan_open_entry _ _ _ _ Hs Hd).
    unfold finish. cbn [inDiagnosisSection negb].
    rewrite andb_false_r. reflexivity. }
  assert (Hclosed :
    sectionsOf (log +:+ nl +:+ openEntry time symptoms diagnosis +:+ nl +:+ RULE)
    = sectionsOf (log +:+ nl +:+ RULE)
      ++ [SESSION_START +:+ time +:+ nl +:+ SYMPTOMS +:+ nl +:+ symptoms]).
  { rewrite Hrule. unfold sectionsOf.
    do 2 rewrite split_app_nl. rewrite (split_openEntry _ _ _ Ht).
    rewrite (split_single RULE) by reflexivity.
    unfold scanLines. do 2 rewrite scan_app. fold (scanLines (split log)).
    rewrite (scan_open_entry _ _ _ _ Hs Hd).
    cbn [fold_left]. rewrite step_classify.
    change (classify RULE) with KRule. cbn iota.
    unfold finish. cbn [currentSession inDiagnosisSection userProvidedSections
                        negb app length Nat.ltb Nat.leb andb].
    f_equal. f_equal. rewrite join_cons2.
    change (SYMPTOMS :: split symptoms) with ([SYMPTOMS] ++ split symptoms).
    rewrite join_app by (discriminate || apply split_not_nil).
    rewrite join_split. cbn [join]. rewrite sapp_assoc. reflexivity. }
  assert (Hhead : forall rest,
    headerOf (log +:+ nl +:+ openEntry time symptoms diagnosis +:+ rest)
    = headerOf (log +:+ nl +:+ RULE)).
  { intros rest. unfold headerOf. rewrite !headerMatch_lines.
    rewrite !split_app_nl, (split_single RULE) by reflexivity.
    unfold openEntry. rewrite !sapp_assoc.
    rewrite <- (sapp_assoc SESSION_START time).
    rewrite split_app_nl.
    rewrite (split_single (SESSION_START +:+ time))
      by (rewrite noNewline_app, Ht; reflexivity).
    cbn [app].
    rewrite (headerLines_tail (split log) (SESSION_START +:+ time) RULE _ []);
      [reflexivity | apply split_not_nil | discriminate | discriminate
       | reflexivity | reflexivity]. }
  split; [|split].
  - split; [exact Hopen|].
    unfold extractUserProvidedHistory. rewrite Hopen.
    rewrite <- (sapp_nil_r (log +:+ nl +:+ openEntry time symptoms diagnosis)).
    rewrite !sapp_assoc, (Hhead ""). reflexivity.
  - split; [exact Hclosed|].
    unfold extractUserProvidedHistory. rewrite Hclosed, (Hhead (nl +:+ RULE)).
    unfold assemble. rewrite length_app. cbn [length].
    rewrite Nat.add_1_r. reflexivity.
  - intros md. unfold sectionsOf, finish. split.
    + intros Hc Hdg. rewrite Hdg.
      destruct (currentSession (scanLines (split md))); [congruence|reflexivity].
    + intros [Hc|Hdg].
      * rewrite Hc. reflexivity.
      * rewrite Hdg, andb_false_r. reflexivity.
Qed.

Lemma end_of_input_flush_witness :
  let log := "# Medical History - User u1" +:+ nl +:+ nl +:+
             "**Created:** 2026-02-15T17:03:43.506Z" in
  extractUserProvidedHistory (log +:+ nl +:+ openEntry " t" "cough" "Rest.")
    = log +:+ SECTION_LABEL /\
  extractUserProvidedHistory
    (log +:+ nl +:+ openEntry " t" "cough" "Rest." +:+ nl +:+ RULE)
    = log +:+ SECTION_LABEL +:+
      "### Session t" +:+ nl +:+ "**Symptoms Reported:**" +:+ nl +:+ "cough"
      +:+ nl +:+ nl.
Proof.
  intros log.
  destruct (end_of_input_flush log " t" "cough" "Rest." eq_refl eq_refl eq_refl)
    as ((_ & Hopen) & (_ & Hclosed) & _).
  split.
  - rewrite Hopen. reflexivity.
  - rewrite Hclosed. reflexivity.
Defined.

(* ================================================================== *)
(** ** Logs of well-formed entries *)
(* ================================================================== *)

Lemma initialContent_items (u t0 : string) :
  initialContent u t0 = unlines (headerItems u t0).
Proof.
  unfold initialContent, headerItems, unlines, titleLine, createdLine.
  cbn [fold_right]. rewrite !sapp_assoc. reflexivity.
Qed.

Lemma renderEntry_items (e : Entry) : renderEntry e = unlines (entryItems e).
Proof.
  unfold renderEntry, sessionEntry, entryItems.
  destruct (truthy (entryHealth e)); unfold unlines; cbn [app fold_right];
    rewrite !sapp_assoc; reflexivity.
Qed.

Lemma logAfter_items (es : list Entry) : forall items,
  logAfter (unlines items) es = unlines (items ++ flat_map entryItems es).
Proof.
  induction es as [|e es IH]; intros items.
  - cbn [logAfter fold_left flat_map]. rewrite app_nil_r. reflexivity.
  - cbn [logAfter fold_left flat_map].
    rewrite renderEntry_items, <- unlines_app.
    fold (logAfter (unlines (items ++ entryItems e)) es).
    rewrite IH, <- app_assoc. reflexivity.
Qed.

Lemma join_blockLines (r : Reported) : join nl (blockLines r) = blockText r.
Proof.
  unfold blockLines, blockText.
  rewrite (join_app nl ["### Session " +:+ saidAt r; SYMPTOMS]) by
    (try discriminate; intros E; apply app_eq_nil in E as [E _];
     exact (split_not_nil _ E)).
  rewrite (join_app nl (split (saidSymptoms r))) by
    (try discriminate; apply split_not_nil).
  rewrite join_split.
  destruct (truthy (saidHealth r)).
  - rewrite (join_app nl [""]) by discriminate.
    change (HEALTH :: split (default "" (saidHealth r)))
      with ([HEALTH] ++ split (default "" (saidHealth r))).
    rewrite <- app_assoc.
    rewrite (join_app nl [HEALTH]) by
      (try discriminate; intros E; apply app_eq_nil in E as [E _];
       exact (split_not_nil _ E)).
    rewrite (join_app nl (split (default "" (saidHealth r)))) by
      (try discriminate; apply split_not_nil).
    rewrite join_split. cbn [join]. rewrite !sapp_assoc. reflexivity.
  - cbn [app join]. rewrite !sapp_assoc. reflexivity.
Qed.

Lemma scan_cons (l : string) (ls : list string) (s : Scan) :
  fold_left step (l :: ls) s = fold_left step ls (step s l).
Proof. reflexivity. Qed.

Lemma classify_empty : classify "" = KText.
Proof. reflexivity. Qed.
Lemma classify_SYMPTOMS : classify SYMPTOMS = KSymptoms.
Proof. reflexivity. Qed.
Lemma classify_HEALTH : classify HEALTH = KHealth.
Proof. reflexivity. Qed.
Lemma classify_DIAGNOSIS : classify DIAGNOSIS = KDiagnosis.
Proof. reflexivity. Qed.
Lemma classify_RULE : classify RULE = KRule.
Proof. reflexivity. Qed.
Lemma classify_label : classify "## Session History" = KText.
Proof. reflexivity. Qed.
Lemma classify_session_line (t : string) : classify ("### Session " +:+ t) = KSession.
Proof. exact (classify_session (" " +:+ t)). Qed.

Lemma classify_isText (l : string) : isText l = true -> classify l = KText.
Proof. unfold isText. destruct (classify l); congruence. Qed.

(** One step of the scan on a line of known kind. *)
Ltac scan_line K :=
  cbn [app]; rewrite scan_cons, step_classify, K;
  cbn [userProvidedSections currentSession inSymptomsSection
       inHealthContextSection inDiagnosisSection orb].

(** The scan of one well-formed entry, started between entries: the
    previous accumulator is flushed and the new one holds the block. *)
Lemma scan_entry (e : Entry) (ups cur : list string) :
  wellFormed e = true ->
  fold_left step (concat (map split (entryItems e)))
            (mkScan ups cur false false false)
  = mkScan (pushSession ups cur) (blockLines (userFields e)) false false false.
Proof.
  unfold wellFormed. intros H.
  apply andb_prop in H as [H Hm]. apply andb_prop in H as [H Hh].
  apply andb_prop in H as [Ht Hs].
  unfold entryItems, blockLines, userFields.
  cbn [saidAt saidSymptoms saidHealth].
  rewrite !map_app, !concat_app. cbn [map concat].
  rewrite (split_single ("### Session " +:+ entryTime e))
    by (rewrite noNewline_app, Ht; reflexivity).
  change (split "") with [""]. change (split SYMPTOMS) with [SYMPTOMS].
  change (split DIAGNOSIS) with [DIAGNOSIS]. change (split RULE) with [RULE].
  rewrite <- !app_assoc.
  scan_line classify_empty.
  scan_line (classify_session_line (entryTime e)).
  scan_line classify_empty.
  scan_line classify_SYMPTOMS.
  rewrite scan_app, scan_text_inside by (assumption || reflexivity).
  scan_line classify_empty.
  destruct (truthy (entryHealth e)).
  - cbn [map concat]. change (split HEALTH) with [HEALTH].
    rewrite app_nil_r, <- !app_assoc.
    scan_line classify_HEALTH.
    rewrite scan_app, scan_text_inside by (assumption || reflexivity).
    scan_line classify_empty.
    scan_line classify_empty.
    scan_line classify_DIAGNOSIS.
    rewrite scan_app, scan_text_outside by assumption.
    scan_line classify_empty.
    scan_line classify_RULE.
    scan_line classify_empty.
    cbn [fold_left]. rewrite <- ?app_assoc. cbn [app]. rewrite <- ?app_assoc.
    reflexivity.
  - cbn [map concat].
    scan_line classify_empty.
    scan_line classify_empty.
    scan_line classify_DIAGNOSIS.
    rewrite scan_app, scan_text_outside by assumption.
    scan_line classify_empty.
    scan_line classify_RULE.
    scan_line classify_empty.
    cbn [fold_left]. rewrite <- ?app_assoc. cbn [app]. rewrite <- ?app_assoc.
    reflexivity.
Qed.

Lemma blockLines_not_nil (r : Reported) : blockLines r <> [].
Proof. discriminate. Qed.

Lemma scan_entries (es : list Entry) : forall ups cur,
  forallb wellFormed es = true ->
  finish (fold_left step (concat (map split (flat_map entryItems es)) ++ [""])
                    (mkScan ups cur false false false))
  = pushSession ups cur ++ map (fun e => blockText (userFields e)) es.
Proof.
  induction es as [|e es IH]; intros ups cur Hall.
  - cbn [flat_map map concat app]. scan_line classify_empty.
    cbn [fold_left]. rewrite app_nil_r. unfold finish, pushSession.
    cbn [currentSession inDiagnosisSection userProvidedSections negb].
    rewrite andb_true_r. reflexivity.
  - cbn [forallb] in Hall. apply andb_prop in Hall as [He Hall].
    cbn [flat_map]. rewrite map_app, concat_app, <- app_assoc, scan_app.
    rewrite (scan_entry e ups cur He), (IH _ _ Hall).
    unfold pushSession at 1.
    destruct (blockLines (userFields e)) as [|l ls] eqn:E;
      [destruct (blockLines_not_nil _ E)|].
    cbn [length Nat.ltb Nat.leb]. rewrite <- E, join_blockLines.
    cbn [map]. rewrite <- app_assoc. reflexivity.
Qed.

Lemma headerPlain_parts (u t0 : string) :
  headerPlain u t0 = true ->
  split (titleLine u) = [titleLine u] /\
  split (createdLine t0) = [createdLine t0] /\
  classify (titleLine u) = KText /\ classify (createdLine t0) = KText.
Proof.
  unfold headerPlain. intros H.
  apply andb_prop in H as [H Hc]. apply andb_prop in H as [H Ht].
  apply andb_prop in H as [Hu H0].
  repeat split.
  - apply split_single. unfold titleLine. rewrite noNewline_app, Hu. reflexivity.
  - apply split_single. unfold createdLine. rewrite noNewline_app, H0. reflexivity.
  - apply classify_isText. assumption.
  - apply classify_isText. assumption.
Qed.

Lemma lines_wellformed_log (u t0 : string) (es : list Entry) :
  headerPlain u t0 = true ->
  split (logAfter (initialContent u t0) es)
  = [titleLine u; ""; createdLine t0; ""; RULE; ""; "## Session History"; ""]
    ++ concat (map split (flat_map entryItems es)) ++ [""].
Proof.
  intros Hh. destruct (headerPlain_parts u t0 Hh) as (Ht & Hc & _ & _).
  rewrite initialContent_items, logAfter_items, split_unlines.
  rewrite map_app, concat_app. unfold headerItems. cbn [map concat].
  rewrite Ht, Hc. change (split "") with [""]. change (split RULE) with [RULE].
  change (split "## Session History") with ["## Session History"].
  cbn [app]. rewrite <- ?app_assoc. reflexivity.
Qed.

(** The filtered view of a log of well-formed entries: the header and, for
    each entry, the block of what the user said. *)
Lemma extract_wellformed_log (u t0 : string) (es : list Entry) :
  headerPlain u t0 = true -> forallb wellFormed es = true ->
  extractUserProvidedHistory (logAfter (initialContent u t0) es)
  = filteredView u t0 (map userFields es).
Proof.
  intros Hh Hes. destruct (headerPlain_parts u t0 Hh) as (_ & _ & Kt & Kc).
  unfold extractUserProvidedHistory, filteredView. f_equal.
  - unfold headerOf. rewrite headerMatch_lines, (lines_wellformed_log u t0 es Hh).
    cbn [app headerLines].
    rewrite (startsWith_prefix_app "# Medical History" "# Medical History - User " u eq_refl
              : startsWith "# Medical History" (titleLine u) = true).
    rewrite (startsWith_prefix_app "**Created:**" "**Created:** " t0 eq_refl
              : startsWith "**Created:**" (createdLine t0) = true).
    reflexivity.
  - unfold sectionsOf, scanLines. rewrite (lines_wellformed_log u t0 es Hh).
    unfold scan0.
    scan_line Kt. scan_line classify_empty. scan_line Kc.
    scan_line classify_empty. scan_line classify_RULE.
    scan_line classify_empty. scan_line classify_label.
    scan_line classify_empty.
    rewrite (scan_entries es [] [] Hes). rewrite map_map. reflexivity.
Qed.

(** *** Occurrence in order *)

Lemma inOrder_prefix (ps : list string) (a s : string) :
  inOrder ps s -> inOrder ps (a +:+ s).
Proof.
  destruct ps as [|p ps]; [trivial|].
  intros (x & y & -> & H). exists (a +:+ x), y. rewrite sapp_assoc. auto.
Qed.

Lemma inOrder_app (ps qs : list string) : forall a b,
  inOrder ps a -> inOrder qs b -> inOrder (ps ++ qs) (a +:+ b).
Proof.
  induction ps as [|p ps IH]; intros a b Ha Hb.
  - apply inOrder_prefix. exact Hb.
  - destruct Ha as (x & y & -> & Hy). cbn [app inOrder].
    exists x, (y +:+ b). rewrite !sapp_assoc. split; [reflexivity|].
    apply IH; assumption.
Qed.

Lemma inOrder_suffix (ps : list string) (s c : string) :
  inOrder ps s -> inOrder ps (s +:+ c).
Proof.
  intros H. rewrite <- (app_nil_r ps). apply inOrder_app; [exact H | exact I].
Qed.

Lemma inOrder_blockText (r : Reported) : inOrder (userTexts r) (blockText r).
Proof.
  unfold userTexts, blockText.
  exists ("### Session " +:+ saidAt r +:+ nl +:+ SYMPTOMS +:+ nl).
  eexists. split; [rewrite !sapp_assoc; reflexivity|].
  destruct (truthy (saidHealth r)); [|exact I].
  exists (nl +:+ nl +:+ HEALTH +:+ nl), (nl +:+ nl).
  split; [rewrite !sapp_assoc; reflexivity | exact I].
Qed.

Lemma inOrder_blocks (rs : list Reported) :
  inOrder (flat_map userTexts rs) (join JOINER (map blockText rs)).
Proof.
  induction rs as [|r [|r' rs] IH].
  - exact I.
  - cbn [flat_map map join]. rewrite app_nil_r. apply inOrder_blockText.
  - cbn [flat_map]. change (map blockText (r :: r' :: rs))
      with (blockText r :: map blockText (r' :: rs)).
    change (map blockText (r' :: rs)) with (blockText r' :: map blockText rs) at 1.
    rewrite join_cons2.
    apply inOrder_app; [apply inOrder_blockText|].
    apply inOrder_prefix. exact IH.
Qed.

Lemma inOrder_filteredView (u t0 : string) (rs : list Reported) :
  inOrder (flat_map userTexts rs) (filteredView u t0 rs).
Proof.
  unfold filteredView, assemble. rewrite length_map.
  destruct rs as [|r rs]; [exact I|].
  cbn [length Nat.eqb]. apply inOrder_prefix, inOrder_prefix, inOrder_suffix.
  apply inOrder_blocks.
Qed.

(** C2.  For a log made of the header and of well-formed entries, the
    filtered view is the view written from the user's words alone (the
    entry time, the symptoms and the health context): two such logs that
    differ only in model output have the same view, and the symptoms and
    health-context texts of the entries occur in the view verbatim, one
    after the other in the order of the log. *)
Theorem wellformed_log_keeps_user_text_only (u t0 : string) (es : list Entry) :
  headerPlain u t0 = true -> forallb wellFormed es = true ->
  extractUserProvidedHistory (logAfter (initialContent u t0) es)
    = filteredView u t0 (map userFields es) /\
  (forall es', forallb wellFormed es' = true ->
     map userFields es' = map userFields es ->
     extractUserProvidedHistory (logAfter (initialContent u t0) es')
       = extractUserProvidedHistory (logAfter (initialContent u t0) es)) /\
  inOrder (flat_map userTexts (map userFields es))
          (extractUserProvidedHistory (logAfter (initialContent u t0) es)).
Proof.
  intros Hh Hes. split; [|split].
  - apply extract_wellformed_log; assumption.
  - intros es' Hes' Heq.
    rewrite !extract_wellformed_log by assumption. rewrite Heq. reflexivity.
  - rewrite extract_wellformed_log by assumption. apply inOrder_filteredView.
Qed.

Lemma wellformed_log_keeps_user_text_only_witness :
  extractUserProvidedHistory
    (logAfter (initialContent "u1" "2026-02-15T17:03:43.506Z")
              [coughEntry; feverEntry])
  = filteredView "u1" "2026-02-15T17:03:43.506Z"
      [mkReported "2026-02-15T17:03:50.616Z" "cough" None;
       mkReported "2026-02-16T09:12:01.004Z"
                  ("fever since Monday" +:+ nl +:+ "chills")
                  (Some "no known allergies")].
Proof.
  exact (proj1 (wellformed_log_keeps_user_text_only
                  "u1" "2026-02-15T17:03:43.506Z" [coughEntry; feverEntry]
                  eq_refl eq_refl)).
Defined.

(* ================================================================== *)
(** ** Diagnosis text does not reach the filtered view *)
(* ================================================================== *)

Lemma scan_dropDiagnosisText (lines : list string) : forall s inEntry after,
  (after = true ->
     inSymptomsSection s = false /\ inHealthContextSection s = false) ->
  fold_left step (dropDiagnosisText inEntry after lines) s = fold_left step lines s.
Proof.
  induction lines as [|l rest IH]; intros s inEntry after Hinv; [reflexivity|].
  cbn [dropDiagnosisText]. rewrite (scan_cons l rest).
  destruct (classify l) eqn:K.
  - rewrite scan_cons. apply IH. discriminate.
  - rewrite scan_cons. apply IH. discriminate.
  - rewrite scan_cons. apply IH. discriminate.
  - rewrite scan_cons. apply IH. intros _.
    rewrite step_classify, K. split; reflexivity.
  - rewrite scan_cons. apply IH. discriminate.
  - destruct after.
    + destruct (Hinv eq_refl) as [Hs Hh].
      rewrite (step_classify s l), K, Hs, Hh. cbn [orb].
      apply IH. intros _. split; assumption.
    + rewrite scan_cons. apply IH. discriminate.
Qed.

Lemma dropDiagnosisText_Forall (P : string -> Prop) (lines : list string) :
  forall inEntry after,
  Forall P lines -> Forall P (dropDiagnosisText inEntry after lines).
Proof.
  induction lines as [|l rest IH]; intros inEntry after H; [constructor|].
  inversion H; subst. cbn [dropDiagnosisText].
  destruct (classify l); try (constructor; [assumption | apply IH; assumption]).
  destruct after; [apply IH; assumption|].
  constructor; [assumption | apply IH; assumption].
Qed.

Lemma dropDiagnosisText_outside (l : string) (rest : list string) :
  dropDiagnosisText false false (l :: rest)
  = l :: dropDiagnosisText (match classify l with KSession => true | _ => false end)
                           false rest.
Proof. cbn [dropDiagnosisText]. destruct (classify l); reflexivity. Qed.

Lemma title_not_session (l : string) :
  startsWith "# Medical History" l = true -> classify l <> KSession.
Proof.
  intros H. unfold classify.
  destruct (startsWith SESSION_START l) eqn:E.
  - exfalso. destruct l as [|a [|b l]];
      cbn [startsWith SESSION_START andb] in E, H;
      try discriminate; try (rewrite andb_false_r in H; discriminate).
    apply andb_prop in E as [_ E]. apply andb_prop in E as [E _].
    apply andb_prop in H as [_ H]. apply andb_prop in H as [H _].
    apply Ascii.eqb_eq in E, H. congruence.
  - destruct (includes SYMPTOMS l); [discriminate|].
    destruct (includes HEALTH l); [discriminate|].
    destruct (includes DIAGNOSIS l); [discriminate|].
    destruct (String.eqb (trim l) RULE); discriminate.
Qed.

Lemma headerLines_dropDiagnosisText (lines : list string) :
  headerLines (dropDiagnosisText false false lines) = headerLines lines.
Proof.
  destruct lines as [|l0 r0]; [reflexivity|].
  rewrite dropDiagnosisText_outside. cbn [headerLines].
  destruct (startsWith "# Medical History" l0) eqn:H0; [|reflexivity].
  pose proof (title_not_session l0 H0) as N0.
  destruct (classify l0); try congruence;
    (destruct r0 as [|l1 r1]; [reflexivity|];
     rewrite dropDiagnosisText_outside;
     destruct (String.eqb_spec l1 "") as [->|N1];
     [ rewrite classify_empty;
       destruct r1 as [|l2 r2]; [reflexivity|];
       rewrite dropDiagnosisText_outside; reflexivity
     | cbn [andb];
       destruct (dropDiagnosisText _ false r1); destruct r1; reflexivity ]).
Qed.

Lemma extract_withoutDiagnosisText (md : string) :
  extractUserProvidedHistory (withoutDiagnosisText md)
  = extractUserProvidedHistory md.
Proof.
  assert (Hsplit : split (withoutDiagnosisText md)
                   = dropDiagnosisText false false (split md)).
  { unfold withoutDiagnosisText. apply split_join.
    - destruct (split md) as [|l r] eqn:E; [destruct (split_not_nil md E)|].
      rewrite dropDiagnosisText_outside. discriminate.
    - apply dropDiagnosisText_Forall, split_lines_noNewline. }
  unfold extractUserProvidedHistory, headerOf, sectionsOf, scanLines.
  rewrite !headerMatch_lines, Hsplit, headerLines_dropDiagnosisText.
  rewrite scan_dropDiagnosisText by discriminate. reflexivity.
Qed.

(** C1 (amended).  Call diagnosis marker a line that the scan treats as
    one: it contains the diagnosis marker, is no entry-start line and
    contains neither the symptoms nor the health-context marker.  Then the
    filtered view of a log is the filtered view of the log without the
    text lines that follow a diagnosis marker inside an entry, up to the
    next rule or marker line.  And the view of a log with one entry, with
    symptoms "cough" and any diagnosis paragraph of text lines, is the
    header, the label and the block made of the entry line, the symptoms
    marker and "cough": it is the same for every such paragraph. *)
Theorem diagnosis_text_filtered_out :
  (forall md,
     extractUserProvidedHistory md
       = extractUserProvidedHistory (withoutDiagnosisText md)) /\
  (forall u t0 t paragraph,
     headerPlain u t0 = true -> noNewline t = true ->
     plainText paragraph = true ->
     extractUserProvidedHistory
       (logAfter (initialContent u t0) [mkEntry t "cough" None paragraph])
     = titleLine u +:+ nl +:+ nl +:+ createdLine t0 +:+ nl +:+
       nl +:+
       "---" +:+ nl +:+
       nl +:+
       "## Session History" +:+ nl +:+
       nl +:+
       "### Session " +:+ t +:+ nl +:+
       "**Symptoms Reported:**" +:+ nl +:+
       "cough" +:+ nl +:+
       nl +:+
       nl +:+
       nl +:+
       nl).
Proof.
  split.
  - intros md. symmetry. apply extract_withoutDiagnosisText.
  - intros u t0 t paragraph Hh Ht Hp.
    assert (Hwf : forallb wellFormed [mkEntry t "cough" None paragraph] = true).
    { unfold forallb, wellFormed.
      cbn [entryTime entrySymptoms entryHealth entryModelOutput].
      rewrite Ht, Hp. reflexivity. }
    rewrite (extract_wellformed_log u t0 _ Hh Hwf).
    unfold filteredView, assemble, blockText, SECTION_LABEL.
    cbn [map userFields entryTime entrySymptoms entryHealth saidAt
         saidSymptoms saidHealth truthy length Nat.eqb join].
    rewrite !sapp_assoc. reflexivity.
Qed.

Lemma diagnosis_text_filtered_out_witness :
  extractUserProvidedHistory
    (logAfter (initialContent "u1" "2026-02-15T17:03:43.506Z")
       [mkEntry "2026-02-15T17:03:50.616Z" "cough" None
                ("Rest and fluids." +:+ nl +:+ "See a doctor.")])
  = "# Medical History - User u1" +:+ nl +:+ nl +:+
    "**Created:** 2026-02-15T17:03:43.506Z" +:+ nl +:+ nl +:+
    "---" +:+ nl +:+ nl +:+ "## Session History" +:+ nl +:+ nl +:+
    "### Session 2026-02-15T17:03:50.616Z" +:+ nl +:+
    "**Symptoms Reported:**" +:+ nl +:+ "cough" +:+ nl +:+ nl +:+ nl +:+ nl +:+ nl.
Proof.
  exact (proj2 diagnosis_text_filtered_out "u1" "2026-02-15T17:03:43.506Z"
           "2026-02-15T17:03:50.616Z"
           ("Rest and fluids." +:+ nl +:+ "See a doctor.")
           eq_refl eq_refl eq_refl).
Defined.

(** C1 (as stated, refuted).  In [mixedMarkerLog] the sixth line contains
    the diagnosis marker and the line after it is diagnosis text, with no
    rule or marker line in between; the filtered view contains that text. *)
Lemma text_after_mixed_marker_is_kept :
  nth_error (split mixedMarkerLog) 5
    = Some "**Diagnosis & Recommendations:** (from the **Symptoms Reported:** above)" /\
  includes DIAGNOSIS
    "**Diagnosis & Recommendations:** (from the **Symptoms Reported:** above)" = true /\
  nth_error (split mixedMarkerLog) 6 = Some "Likely bronchitis." /\
  includes "Likely bronchitis." (extractUserProvidedHistory mixedMarkerLog) = true.
Proof.
  repeat split.
Qed.

(* ================================================================== *)
(** ** Filtering a filtered view *)
(* ================================================================== *)

Lemma classify_session_iff (l : string) :
  classify l = KSession <-> startsWith SESSION_START l = true.
Proof.
  unfold classify. destruct (startsWith SESSION_START l); [tauto|].
  split; [|discriminate].
  destruct (includes SYMPTOMS l); [discriminate|].
  destruct (includes HEALTH l); [discriminate|].
  destruct (includes DIAGNOSIS l); [discriminate|].
  destruct (String.eqb (trim l) RULE); discriminate.
Qed.

Lemma Block_not_nil b a h : Block b a h -> b <> [].
Proof.
  intros H; inversion H; subst; try discriminate;
    intros E; apply app_eq_nil in E as [_ E]; discriminate.
Qed.

Lemma Block_noNewline b a h :
  Block b a h -> Forall (fun l => noNewline l = true) b.
Proof.
  induction 1; try (repeat constructor; assumption);
    apply Forall_app; split; try assumption; repeat constructor; assumption.
Qed.

Lemma startsEntry_snoc (b : list string) (l : string) :
  b <> [] -> startsEntry (b ++ [l]) = startsEntry b.
Proof. destruct b; [congruence | reflexivity]. Qed.

(** Scanning the lines of a block again rebuilds the block: an entry block
    first flushes the accumulator, a block that starts with a field marker
    extends the empty accumulator. *)
Lemma replay_block b a h :
  Block b a h -> forall ups cur f1 f2 f3,
  (startsEntry b = false -> cur = []) ->
  fold_left step b (mkScan ups cur f1 f2 f3)
  = mkScan (if startsEntry b then pushSession ups cur else ups) b a h false.
Proof.
  induction 1 as [l Hn K | l Hn K | l Hn K
                 | b a h l HB IH Hn K | b a h l HB IH Hn K
                 | b a h l HB IH Hah Hn K]; intros ups cur f1 f2 f3 Hc.
  - cbn [fold_left startsEntry]. unfold isSession. rewrite step_classify, K.
    reflexivity.
  - cbn [startsEntry] in *. unfold isSession in *. rewrite K in *.
    rewrite (Hc eq_refl). cbn [fold_left]. rewrite step_classify, K. reflexivity.
  - cbn [startsEntry] in *. unfold isSession in *. rewrite K in *.
    rewrite (Hc eq_refl). cbn [fold_left]. rewrite step_classify, K. reflexivity.
  - pose proof (Block_not_nil _ _ _ HB) as Hne.
    rewrite startsEntry_snoc in * by assumption.
    rewrite scan_app, (IH _ _ f1 f2 f3 Hc). cbn [fold_left].
    rewrite step_classify, K. reflexivity.
  - pose proof (Block_not_nil _ _ _ HB) as Hne.
    rewrite startsEntry_snoc in * by assumption.
    rewrite scan_app, (IH _ _ f1 f2 f3 Hc). cbn [fold_left].
    rewrite step_classify, K. reflexivity.
  - pose proof (Block_not_nil _ _ _ HB) as Hne.
    rewrite startsEntry_snoc in * by assumption.
    rewrite scan_app, (IH _ _ f1 f2 f3 Hc). cbn [fold_left].
    rewrite step_classify, K.
    cbn [inSymptomsSection inHealthContextSection]. rewrite Hah. reflexivity.
Qed.

Lemma noNewline_two_lines (x y : string) : noNewline (x +:+ nl +:+ y) = false.
Proof. rewrite !noNewline_app. cbn. apply andb_false_r. Qed.

Lemma join_snoc (b : list string) (l : string) :
  b <> [] -> join nl (b ++ [l]) = join nl b +:+ nl +:+ l.
Proof. intros H. apply join_app; [assumption | discriminate]. Qed.

Lemma bareEntryLine_block b a h :
  Block b a h -> bareEntryLine (join nl b) = negb (a || h).
Proof.
  unfold bareEntryLine.
  induction 1 as [l Hn K | l Hn K | l Hn K
                 | b a h l HB IH Hn K | b a h l HB IH Hn K
                 | b a h l HB IH Hah Hn K].
  - cbn [join]. apply classify_session_iff in K. rewrite K, Hn. reflexivity.
  - cbn [join]. destruct (startsWith SESSION_START l) eqn:E; [|reflexivity].
    apply classify_session_iff in E. congruence.
  - cbn [join]. destruct (startsWith SESSION_START l) eqn:E; [|reflexivity].
    apply classify_session_iff in E. congruence.
  - rewrite join_snoc by (eapply Block_not_nil; eassumption).
    rewrite noNewline_two_lines. apply andb_false_r.
  - rewrite join_snoc by (eapply Block_not_nil; eassumption).
    rewrite noNewline_two_lines. apply andb_false_r.
  - rewrite join_snoc by (eapply Block_not_nil; eassumption).
    rewrite noNewline_two_lines, Hah. apply andb_false_r.
Qed.

(** The second scan over the body of a view. *)
Lemma scan_viewBody (bs : list (list string)) : forall ups cur,
  bs <> [] ->
  Forall (fun b => exists a h, Block b a h) bs ->
  Forall (fun b => startsEntry b = true) (tl bs) ->
  (startsEntry (hd [] bs) = false -> cur = []) ->
  finish (fold_left step (viewBody bs) (mkScan ups cur false false false))
  = pushSession ups cur ++ padBlocks (map (join nl) bs).
Proof.
  induction bs as [|b rest IH]; intros ups cur Hne Hgood Htl Hcur; [congruence|].
  inversion Hgood as [|? ? (a & h & HB) Hgood']; subst.
  cbn [hd] in Hcur.
  assert (Hups : (if startsEntry b then pushSession ups cur else ups)
                 = pushSession ups cur).
  { destruct (startsEntry b); [reflexivity|]. rewrite (Hcur eq_refl). reflexivity. }
  pose proof (Block_not_nil _ _ _ HB) as Hbne.
  pose proof (bareEntryLine_block _ _ _ HB) as Hbare.
  destruct rest as [|b' rest'].
  - cbn [viewBody map padBlocks].
    rewrite scan_app, (replay_block _ _ _ HB _ _ _ _ _ Hcur), Hups, Hbare.
    destruct (a || h) eqn:E; cbn [negb]; scan_line classify_empty; rewrite E.
    + scan_line classify_empty. rewrite E.
      cbn [fold_left]. unfold finish.
      cbn [userProvidedSections currentSession inDiagnosisSection negb].
      rewrite <- app_assoc. cbn [app].
      rewrite (join_app nl b [""; ""]) by (assumption || discriminate).
      destruct (b ++ [""; ""]) eqn:E'; [destruct (app_cons_not_nil _ _ _ (eq_sym E'))|].
      reflexivity.
    + scan_line classify_empty. rewrite E.
      cbn [fold_left]. unfold finish.
      cbn [userProvidedSections currentSession inDiagnosisSection negb].
      destruct b; [congruence | reflexivity].
  - cbn [tl] in Htl. inversion Htl as [|? ? Hb' Htl']; subst.
    change (viewBody (b :: b' :: rest'))
      with (b ++ [""; RULE; ""] ++ viewBody (b' :: rest')).
    change (padBlocks (map (join nl) (b :: b' :: rest')))
      with ((if bareEntryLine (join nl b) then join nl b else join nl b +:+ nl)
            :: padBlocks (map (join nl) (b' :: rest'))).
    rewrite scan_app, (replay_block _ _ _ HB _ _ _ _ _ Hcur), Hups, Hbare.
    destruct (a || h) eqn:E; cbn [negb]; scan_line classify_empty; rewrite E.
    + scan_line classify_RULE. scan_line classify_empty.
      rewrite IH; [|discriminate|assumption|cbn [tl]; assumption
                  |cbn [hd]; congruence].
      unfold pushSession at 1.
      destruct (b ++ [""]) eqn:E'; [destruct (app_cons_not_nil _ _ _ (eq_sym E'))|].
      cbn [length Nat.ltb Nat.leb]. rewrite <- E'.
      rewrite (join_app nl b [""]) by (assumption || discriminate).
      cbn [join]. rewrite sapp_nil_r, <- app_assoc. reflexivity.
    + scan_line classify_RULE. scan_line classify_empty.
      rewrite IH; [|discriminate|assumption|cbn [tl]; assumption
                  |cbn [hd]; congruence].
      unfold pushSession at 1.
      destruct b as [|l b]; [congruence|].
      cbn [length Nat.ltb Nat.leb]. rewrite <- app_assoc. reflexivity.
Qed.

(** *** The first scan yields blocks *)

Lemma tl_app_not_nil {A} (xs ys : list A) : xs <> [] -> tl (xs ++ ys) = tl xs ++ ys.
Proof. destruct xs; [congruence | reflexivity]. Qed.

Lemma Forall_tl_last_replace {A} (P : A -> Prop) (xs : list A) (x y : A) :
  (P x -> P y) -> Forall P (tl (xs ++ [x])) -> Forall P (tl (xs ++ [y])).
Proof.
  intros Hxy. destruct xs as [|z xs]; [constructor|].
  cbn [app tl]. rewrite !Forall_app. intros [H1 H2]. split; [assumption|].
  inversion H2; subst. repeat constructor. auto.
Qed.

Lemma Forall_tl_app_l {A} (P : A -> Prop) (xs ys : list A) :
  Forall P (tl (xs ++ ys)) -> Forall P (tl xs).
Proof.
  destruct xs as [|z xs]; [constructor|].
  cbn [app tl]. rewrite Forall_app. tauto.
Qed.

Lemma ScanInv_scan0 : ScanInv scan0.
Proof. exists []. cbn. repeat split; constructor. Qed.

Lemma ScanInv_step (s : Scan) (l : string) :
  noNewline l = true -> ScanInv s -> ScanInv (step s l).
Proof.
  unfold ScanInv, accumulators. intros Hn (bs & HU & Hgood & Htl & Hcur).
  destruct s as [U cur fs fh fd].
  cbn [userProvidedSections currentSession inSymptomsSection
       inHealthContextSection] in *.
  rewrite step_classify.
  cbn [userProvidedSections currentSession inSymptomsSection
       inHealthContextSection inDiagnosisSection].
  destruct (classify l) eqn:K.
  - (* entry start *)
    assert (Hl : startsEntry [l] = true) by (cbn; unfold isSession; rewrite K; reflexivity).
    destruct cur as [|c cur'].
    + destruct Hcur as (-> & _ & _). exists []. cbn. subst U.
      repeat split; try constructor.
      exists false, false. split; [constructor; assumption | discriminate].
    + destruct Hcur as (a & h & HB & _).
      exists (bs ++ [c :: cur']).
      cbn [userProvidedSections currentSession inSymptomsSection
           inHealthContextSection accumulators].
      rewrite pushSession_cons, map_app, HU. split; [reflexivity|].
      split; [apply Forall_app; split; [assumption|]; repeat constructor; eauto|].
      split.
      * rewrite tl_app_not_nil by (intros E; apply app_eq_nil in E as [_ E]; discriminate).
        apply Forall_app. split; [assumption | repeat constructor; assumption].
      * exists false, false. split; [constructor; assumption | discriminate].
  - (* symptoms marker *)
    destruct cur as [|c cur'].
    + destruct Hcur as (-> & _ & _). exists []. cbn. subst U.
      repeat split; try constructor.
      exists true, false. split; [constructor; assumption | tauto].
    + destruct Hcur as (a & h & HB & _). exists bs.
      cbn [userProvidedSections currentSession inSymptomsSection
           inHealthContextSection accumulators app].
      split; [assumption|]. split; [assumption|]. split.
      * apply (Forall_tl_last_replace _ bs (c :: cur') (c :: cur' ++ [l]));
          [trivial | assumption].
      * exists true, false. split; [|tauto].
        apply (Block_symptoms (c :: cur') a h l); assumption.
  - (* health-context marker *)
    destruct cur as [|c cur'].
    + destruct Hcur as (-> & _ & _). exists []. cbn. subst U.
      repeat split; try constructor.
      exists false, true. split; [constructor; assumption | tauto].
    + destruct Hcur as (a & h & HB & _). exists bs.
      cbn [userProvidedSections currentSession inSymptomsSection
           inHealthContextSection accumulators app].
      split; [assumption|]. split; [assumption|]. split.
      * apply (Forall_tl_last_replace _ bs (c :: cur') (c :: cur' ++ [l]));
          [trivial | assumption].
      * exists false, true. split; [|tauto].
        apply (Block_health (c :: cur') a h l); assumption.
  - (* diagnosis marker *)
    exists bs. cbn [userProvidedSections currentSession inSymptomsSection
                    inHealthContextSection].
    split; [assumption|]. split; [assumption|]. split; [assumption|].
    destruct cur as [|c cur'].
    + destruct Hcur as (-> & _ & _). auto.
    + destruct Hcur as (a & h & HB & _). exists a, h. split; [assumption|discriminate].
  - (* rule *)
    exists bs. cbn [userProvidedSections currentSession inSymptomsSection
                    inHealthContextSection].
    split; [assumption|]. split; [assumption|]. split; [assumption|].
    destruct cur as [|c cur'].
    + destruct Hcur as (-> & _ & _). auto.
    + destruct Hcur as (a & h & HB & _). exists a, h. split; [assumption|discriminate].
  - (* text *)
    destruct (fs || fh) eqn:Hact.
    + destruct cur as [|c cur'].
      * destruct Hcur as (_ & -> & ->). discriminate.
      * destruct Hcur as (a & h & HB & Hf). destruct (Hf eq_refl) as [-> ->].
        exists bs.
        cbn [userProvidedSections currentSession inSymptomsSection
             inHealthContextSection accumulators app].
        split; [assumption|]. split; [assumption|]. split.
        -- apply (Forall_tl_last_replace _ bs (c :: cur') (c :: cur' ++ [l]));
             [trivial | assumption].
        -- exists a, h. split; [|tauto].
           apply (Block_text (c :: cur') a h l); assumption.
    + exists bs. cbn [userProvidedSections currentSession inSymptomsSection
                      inHealthContextSection].
      repeat (split; [assumption|]).
      destruct cur as [|c cur']; [assumption|].
      destruct Hcur as (a & h & HB & _). exists a, h.
      split; [assumption | rewrite Hact; discriminate].
Qed.

Lemma ScanInv_scan (lines : list string) : forall s,
  Forall (fun l => noNewline l = true) lines -> ScanInv s ->
  ScanInv (fold_left step lines s).
Proof.
  induction lines as [|l rest IH]; intros s Hall Hs; [assumption|].
  inversion Hall; subst. cbn [fold_left]. apply IH; [assumption|].
  apply ScanInv_step; assumption.
Qed.

(** The sections of a filtered view are blocks, and all but the first
    start with an entry line. *)
Lemma sectionsOf_blocks (md : string) :
  exists bs : list (list string),
    sectionsOf md = map (join nl) bs /\
    Forall (fun b => exists a h, Block b a h) bs /\
    Forall (fun b => startsEntry b = true) (tl bs).
Proof.
  unfold sectionsOf, scanLines.
  destruct (ScanInv_scan (split md) scan0 (split_lines_noNewline md) ScanInv_scan0)
    as (bs & HU & Hgood & Htl & Hcur). unfold accumulators in Htl.
  destruct (fold_left step (split md) scan0) as [U cur fs fh fd].
  cbn [userProvidedSections currentSession inSymptomsSection
       inHealthContextSection] in *.
  unfold finish.
  cbn [userProvidedSections currentSession inDiagnosisSection].
  destruct cur as [|c cur'].
  - exists bs. destruct Hcur as (-> & _ & _). cbn. subst U. repeat split; constructor.
  - destruct Hcur as (a & h & HB & _). cbn [length Nat.ltb Nat.leb andb].
    unfold accumulators in Htl.
    destruct fd; cbn [negb].
    + exists bs. split; [assumption|]. split; [assumption|].
      eapply Forall_tl_app_l; eassumption.
    + exists (bs ++ [c :: cur']). rewrite map_app, HU. split; [reflexivity|].
      split; [|assumption].
      apply Forall_app; split; [assumption|]. repeat constructor. eauto.
Qed.

(** *** The lines of a view *)

Lemma split_label (header rest : string) :
  split (header +:+ SECTION_LABEL +:+ rest)
  = split header ++ [""; RULE; ""; "## Session History"; ""] ++ split rest.
Proof.
  change (SECTION_LABEL +:+ rest)
    with (nl +:+ "" +:+ nl +:+ "---" +:+ nl +:+ "" +:+ nl +:+
          "## Session History" +:+ nl +:+ "" +:+ nl +:+ rest).
  rewrite !split_app_nl. reflexivity.
Qed.

Lemma split_joined_blocks (bs : list (list string)) :
  bs <> [] ->
  Forall (fun b => exists a h, Block b a h) bs ->
  split (join JOINER (map (join nl) bs) +:+ nl +:+ nl) = viewBody bs.
Proof.
  induction bs as [|b rest IH]; intros Hne Hgood; [congruence|].
  inversion Hgood as [|? ? (a & h & HB) Hgood']; subst.
  assert (Hb : split (join nl b) = b).
  { apply split_join; [eapply Block_not_nil | eapply Block_noNewline]; eassumption. }
  destruct rest as [|b' rest'].
  - cbn [map join viewBody].
    change (nl +:+ nl) with (nl +:+ "" +:+ nl +:+ "").
    rewrite !split_app_nl, Hb. reflexivity.
  - change (map (join nl) (b :: b' :: rest'))
      with (join nl b :: map (join nl) (b' :: rest')).
    change (map (join nl) (b' :: rest'))
      with (join nl b' :: map (join nl) rest') at 1.
    rewrite join_cons2.
    change (join nl b' :: map (join nl) rest') with (map (join nl) (b' :: rest')).
    rewrite !sapp_assoc.
    change (JOINER +:+ join JOINER (map (join nl) (b' :: rest')) +:+ nl +:+ nl)
      with (nl +:+ "" +:+ nl +:+ "---" +:+ nl +:+ "" +:+ nl +:+
            (join JOINER (map (join nl) (b' :: rest')) +:+ nl +:+ nl)).
    do 4 rewrite split_app_nl.
    rewrite Hb, IH by (discriminate || assumption).
    reflexivity.
Qed.

(** *** The header of a view *)

Lemma created_not_session (l : string) :
  startsWith "**Created:**" l = true -> isSession l = false.
Proof.
  intros H. unfold isSession.
  destruct (classify l) eqn:K; try reflexivity.
  apply classify_session_iff in K.
  destruct l as [|x l]; [discriminate|].
  cbn [startsWith SESSION_START] in K, H.
  apply andb_prop in K as [K _]. apply andb_prop in H as [H _].
  apply Ascii.eqb_eq in K, H. congruence.
Qed.

(** The matched header is empty, or two lines with an empty line between. *)
Lemma headerOf_shape (md : string) :
  headerOf md = "" \/
  exists l0 l2,
    headerOf md = l0 +:+ nl +:+ nl +:+ l2 /\
    startsWith "# Medical History" l0 = true /\
    startsWith "**Created:**" l2 = true /\
    noNewline l0 = true /\ noNewline l2 = true.
Proof.
  unfold headerOf. rewrite headerMatch_lines.
  pose proof (split_lines_noNewline md) as Hall.
  destruct (split md) as [|l0 [|l1 [|l2 rest]]]; cbn [headerLines];
    try (left; reflexivity);
    try (destruct (startsWith "# Medical History" l0); left; reflexivity).
  destruct (startsWith "# Medical History" l0) eqn:H0; [|left; reflexivity].
  destruct (String.eqb l1 "" && startsWith "**Created:**" l2) eqn:H12;
    [|left; reflexivity].
  apply andb_prop in H12 as [_ H2].
  inversion Hall as [|? ? N0 Hall1]; subst.
  inversion Hall1 as [|? ? N1 Hall2]; subst.
  inversion Hall2 as [|? ? N2 Hall3]; subst.
  right. exists l0, l2. auto.
Qed.

Lemma split_header_lines (l0 l2 : string) :
  noNewline l0 = true -> noNewline l2 = true ->
  split (l0 +:+ nl +:+ nl +:+ l2) = [l0; ""; l2].
Proof.
  intros N0 N2. change (nl +:+ l2) with ("" +:+ nl +:+ l2).
  rewrite !split_app_nl, (split_single l0), (split_single l2) by assumption.
  reflexivity.
Qed.

Lemma headerOf_assemble (md : string) (sections : list string) :
  headerOf (assemble (headerOf md) sections) = headerOf md.
Proof.
  assert (Hlines : exists rest,
            split (assemble (headerOf md) sections)
            = split (headerOf md) ++ "" :: rest).
  { unfold assemble. destruct (Nat.eqb (length sections) 0).
    - rewrite <- (sapp_nil_r SECTION_LABEL), split_label. eexists. reflexivity.
    - rewrite split_label. eexists. reflexivity. }
  destruct Hlines as (rest & Hlines).
  unfold headerOf at 1. rewrite headerMatch_lines, Hlines.
  destruct (headerOf_shape md) as [-> | (l0 & l2 & -> & H0 & H2 & N0 & N2)].
  - reflexivity.
  - rewrite (split_header_lines l0 l2 N0 N2). cbn [app headerLines].
    rewrite H0, H2. reflexivity.
Qed.

(** A line that starts no entry and carries no field marker leaves an
    empty accumulator empty and the two field flags down. *)
Lemma step_quiet_line (l : string) (ups : list string) (d : bool) :
  isSession l = false -> includes SYMPTOMS l || includes HEALTH l = false ->
  exists d', step (mkScan ups [] false false d) l = mkScan ups [] false false d'.
Proof.
  unfold isSession. intros Hs Hq. apply orb_false_elim in Hq as [Hy Hh].
  rewrite step_classify. unfold classify in *.
  destruct (startsWith SESSION_START l); [discriminate|].
  rewrite Hy, Hh.
  destruct (includes DIAGNOSIS l); [eexists; reflexivity|].
  destruct (String.eqb (trim l) RULE); eexists; reflexivity.
Qed.

(** The second scan passes the header and the label of a view without
    opening anything, when the header is quiet. *)
Lemma scan_view_preamble (md : string) :
  headerQuiet md = true ->
  fold_left step (split (headerOf md) ++ [""; RULE; ""; "## Session History"; ""])
            scan0
  = scan0.
Proof.
  unfold headerQuiet. intros Hq.
  destruct (headerOf_shape md) as [E | (l0 & l2 & E & H0 & H2 & N0 & N2)];
    rewrite E in *.
  - reflexivity.
  - rewrite (split_header_lines l0 l2 N0 N2) in *.
    cbn [forallb] in Hq.
    apply andb_prop in Hq as [Q0 Hq]. apply andb_prop in Hq as [_ Hq].
    apply andb_prop in Hq as [Q2 _].
    apply negb_true_iff in Q0, Q2.
    assert (S0 : isSession l0 = false).
    { unfold isSession. pose proof (title_not_session l0 H0).
      destruct (classify l0); congruence. }
    pose proof (created_not_session l2 H2) as S2.
    cbn [app]. unfold scan0. rewrite scan_cons.
    destruct (step_quiet_line l0 [] false S0 Q0) as (d0 & ->).
    scan_line classify_empty. rewrite scan_cons.
    destruct (step_quiet_line l2 [] d0 S2 Q2) as (d2 & ->).
    scan_line classify_empty. scan_line classify_RULE.
    scan_line classify_empty. scan_line classify_label.
    scan_line classify_empty. reflexivity.
Qed.

(** C4 (amended).  Filtering a filtered view is not the identity.  When
    the header lines of the log carry neither the symptoms nor the
    health-context marker, the second filtering keeps the header and the
    blocks in their order, and each block that is more than a bare entry
    line comes back with the empty lines that follow it in the view: one
    newline more before a joiner, two at the end.  A view without blocks,
    or of bare entry lines only, is filtered to itself. *)
Theorem refiltering_pads_blocks (md : string) :
  headerQuiet md = true ->
  headerOf (extractUserProvidedHistory md) = headerOf md /\
  sectionsOf (extractUserProvidedHistory md) = padBlocks (sectionsOf md) /\
  extractUserProvidedHistory (extractUserProvidedHistory md)
    = assemble (headerOf md) (padBlocks (sectionsOf md)).
Proof.
  intros Hq.
  assert (Hh : headerOf (extractUserProvidedHistory md) = headerOf md)
    by apply headerOf_assemble.
  assert (Hs : sectionsOf (extractUserProvidedHistory md) = padBlocks (sectionsOf md)).
  { destruct (sectionsOf_blocks md) as (bs & Hbs & Hgood & Htl).
    unfold extractUserProvidedHistory. rewrite Hbs.
    unfold sectionsOf at 1. unfold scanLines, assemble. rewrite length_map.
    destruct bs as [|b rest].
    - cbn [length Nat.eqb map padBlocks].
      rewrite <- (sapp_nil_r SECTION_LABEL), split_label.
      change (split "") with [""].
      rewrite app_assoc.
      rewrite scan_app, (scan_view_preamble md Hq). reflexivity.
    - cbn [length Nat.eqb].
      rewrite split_label, split_joined_blocks by (discriminate || assumption).
      rewrite app_assoc, scan_app, (scan_view_preamble md Hq).
      unfold scan0.
      rewrite scan_viewBody; [reflexivity|discriminate|assumption|assumption|trivial]. }
  split; [assumption|]. split; [assumption|].
  unfold extractUserProvidedHistory at 1. rewrite Hh, Hs. reflexivity.
Qed.

Lemma refiltering_pads_blocks_witness :
  headerQuiet sampleLog = true /\
  extractUserProvidedHistory (extractUserProvidedHistory sampleLog)
  = assemble (headerOf sampleLog) (padBlocks (sectionsOf sampleLog)).
Proof.
  split; [reflexivity|].
  exact (proj2 (proj2 (refiltering_pads_blocks sampleLog eq_refl))).
Defined.

(** C4 (as stated, refuted).  The filtered view of [sampleLog], a header
    and one entry of the fixed grammar, is not filtered to itself: its
    block comes back two newlines longer. *)
Lemma refiltering_is_not_identity :
  extractUserProvidedHistory (extractUserProvidedHistory sampleLog)
    <> extractUserProvidedHistory sampleLog /\
  sectionsOf sampleLog
    = ["### Session 2026-02-15T17:03:50.616Z" +:+ nl +:+ SYMPTOMS +:+ nl +:+
       "cough" +:+ nl +:+ nl +:+ nl] /\
  sectionsOf (extractUserProvidedHistory sampleLog)
    = ["### Session 2026-02-15T17:03:50.616Z" +:+ nl +:+ SYMPTOMS +:+ nl +:+
       "cough" +:+ nl +:+ nl +:+ nl +:+ nl +:+ nl].
Proof.
  split; [|split; reflexivity].
  apply String.eqb_neq. reflexivity.
Qed.

(* ================================================================== *)
(** ** The store *)
(* ================================================================== *)

Section StoreFacts.
Context (o : Oracle).

  (** C10. [ensureUserId] returns a provided non-empty identifier unchanged
      and draws nothing from the UUID source; for an absent or empty
      identifier it returns the next random UUID, so an empty identifier
      is never the key of a log. *)
Theorem ensureUserId_provided_or_fresh (provided : option string) (w : World) :
    (forall s, provided = Some s -> s <> "" ->
       ensureUserId o provided w = (Ok s, w)) /\
    (provided = None \/ provided = Some "" ->
       ensureUserId o provided w =
         (Ok (uuidAt o (uuidDraws w)),
          mkWorld (fs w) (clockReads w) (S (uuidDraws w)) (console w)
                  (modelCalls w) (res w))).
  Proof.
    split.
    - intros s -> Hs. unfold ensureUserId. destruct s as [|c r]; [congruence|].
      reflexivity.
    - intros [-> | ->]; reflexivity.
  Qed.

  (** An append to an existing log draws one timestamp; it fails with the
    error of [appendFile] and changes no file when the log may not be
    written, and otherwise puts the entry after the previous content. *)
Lemma appendToUserHistory_outcome userId sym diag hh w f :
  dirExists (fs w) = true ->
  files (fs w) !! filePathOf userId = Some f ->
  (mayWrite f = false ->
     fst (appendToUserHistory o userId sym diag hh w)
       = Err (FsExn EACCES "open" (filePathOf userId)) /\
     fs (snd (appendToUserHistory o userId sym diag hh w)) = fs w) /\
  (mayWrite f = true ->
     fst (appendToUserHistory o userId sym diag hh w) = Ok tt /\
     files (fs (snd (appendToUserHistory o userId sym diag hh w)))
       !! filePathOf userId
       = Some (mkFile (content f +:+
                       sessionEntry (isoAt o (clockReads w)) sym diag hh)
                      (mayRead f) true)).
Proof.
  intros Hdir Hf.
  unfold appendToUserHistory, bind, nowISO, appendFile, store.
  cbn [fs]. rewrite Hdir, Hf. cbn [negb].
  split; intros ->; cbn [fst snd fs files]; split; try reflexivity.
  apply lookup_insert_eq.
Qed.

(** Initialisation never throws: a failure of [mkdir] goes to the console. *)
Lemma initializeUserDataDir_never_throws w :
    exists w', initializeUserDataDir w = (Ok tt, w') /\
      (dirExists (fs w) = false -> mayMkdir (fs w) = false ->
         fs w' = fs w /\
         console w' = console w ++
           [Errored "Failed to create user data directory:"
                    (FsExn EACCES "mkdir" USER_DATA_DIR)]).
  Proof.
    unfold initializeUserDataDir, tryCatch, bind, mkdir, consoleLog,
      consoleError, consolePrint.
    destruct (dirExists (fs w)) eqn:Hd; simpl.
    - eexists; split; [reflexivity|]. intros; discriminate.
    - destruct (mayMkdir (fs w)) eqn:Hm; simpl.
      + eexists; split; [reflexivity|]. intros; discriminate.
      + eexists; split; [reflexivity|]. intros _ _. split; reflexivity.
  Qed.

  (** C9. For an identifier that is a plain file name, with the store
      directory in place, [loadUserHistory] returns a readable log verbatim
      and leaves the world as it is; when the user has no log and the
      process may create files, it does not fail: it writes and returns the
      header alone (title with the identifier, Created line with the clock
      reading, rule, Session History label), and no other file changes. *)
Theorem loadUserHistory_existing_or_created (userId : string) (w : World) :
    plainName userId = true ->
    dirExists (fs w) = true ->
    (forall f, files (fs w) !! filePathOf userId = Some f -> mayRead f = true ->
       loadUserHistory o userId w = (Ok (content f), w)) /\
    (files (fs w) !! filePathOf userId = None -> mayCreate (fs w) = true ->
       let header :=
         "# Medical History - User " +:+ userId +:+ nl +:+ nl +:+
         "**Created:** " +:+ isoAt o (clockReads w) +:+ nl +:+ nl +:+
         "---" +:+ nl +:+ nl +:+ "## Session History" +:+ nl +:+ nl in
       exists w',
         loadUserHistory o userId w = (Ok header, w') /\
         files (fs w') !! filePathOf userId = Some (mkFile header true true) /\
         (forall p, p <> filePathOf userId ->
            files (fs w') !! p = files (fs w) !! p)).
  Proof.
    intros _ Hdir. split.
    - intros f Hf Hr.
      unfold loadUserHistory, tryCatch, bind, readFile, ret.
      rewrite Hdir, Hf, Hr. reflexivity.
    - intros Hnone Hcreate header.
      unfold loadUserHistory, tryCatch, bind, readFile, ret, nowISO,
        writeFile, store.
      rewrite Hdir, Hnone. simpl. rewrite Hdir, Hnone, Hcreate. simpl.
      eexists. split; [reflexivity|]. simpl. split.
      + apply lookup_insert_eq.
      + intros p Hp. apply lookup_insert_ne. congruence.
  Qed.

  (** C3 (the divergence).  On the store [writeOnlyFs], where the log of
      [u1] exists and cannot be read, [loadUserHistory] does not fail: the
      EACCES of the read is taken for a missing file, the log is replaced
      by a fresh header, and the call succeeds. *)
Theorem loadUserHistory_swallows_read_error :
    readFile (filePathOf "u1") (world0 writeOnlyFs)
      = (Err (FsExn EACCES "open" (filePathOf "u1")), world0 writeOnlyFs) /\
    fst (loadUserHistory o "u1" (world0 writeOnlyFs))
      = Ok (initialContent "u1" (isoAt o 0)) /\
    files (fs (snd (loadUserHistory o "u1" (world0 writeOnlyFs))))
      !! filePathOf "u1"
      = Some (mkFile (initialContent "u1" (isoAt o 0)) false true).
  Proof.
    repeat split.
  Qed.

End StoreFacts.

Lemma ensureUserId_provided_or_fresh_witness :
  ensureUserId (demoOracle (Stream [] None)) (Some "u1") (world0 emptyFs)
    = (Ok "u1", world0 emptyFs) /\
  ensureUserId (demoOracle (Stream [] None)) (Some "") (world0 emptyFs)
    = (Ok "uuid-0", mkWorld emptyFs 0 1 [] [] freshResponse).
Proof.
  split.
  - apply (proj1 (ensureUserId_provided_or_fresh (demoOracle (Stream [] None))
                    (Some "u1") (world0 emptyFs)) "u1"); [reflexivity|discriminate].
  - apply (proj2 (ensureUserId_provided_or_fresh (demoOracle (Stream [] None))
                    (Some "") (world0 emptyFs))). right. reflexivity.
Defined.

Lemma loadUserHistory_existing_or_created_witness :
  plainName "u1" = true /\
  dirExists (fs (world0 emptyFs)) = true /\
  exists w',
    loadUserHistory (demoOracle (Stream [] None)) "u1" (world0 emptyFs)
      = (Ok (initialContent "u1" "2026-02-15T17:03:40.000Z"), w').
Proof.
  split; [reflexivity|]. split; [reflexivity|].
  destruct (proj2 (loadUserHistory_existing_or_created
                     (demoOracle (Stream [] None)) "u1" (world0 emptyFs)
                     eq_refl eq_refl)
              eq_refl eq_refl) as [w' [H _]].
  exists w'. exact H.
Defined.

(* ================================================================== *)
(** ** The orchestrator *)
(* ================================================================== *)

Lemma afterWrites_nil w : afterWrites [] w = w.
Proof.
  unfold afterWrites, withRes. rewrite app_nil_r.
  destruct w as [f c u k m r]; destruct r; reflexivity.
Qed.

Lemma afterWrites_cons t ts w :
  afterWrites ts (afterWrites [t] w) = afterWrites (t :: ts) w.
Proof.
  unfold afterWrites, withRes; simpl. rewrite <- app_assoc. reflexivity.
Qed.

Lemma deliveredText_cons c rest :
  deliveredText (c :: rest) =
    if truthy (deltaContent c)
    then default "" (deltaContent c) :: deliveredText rest
    else deliveredText rest.
Proof.
  unfold deliveredText. cbn [omap list_omap].
  destruct (deltaContent c) as [[|x d]|]; reflexivity.
Qed.

Lemma join_empty_cons t ts : join "" (t :: ts) = t +:+ join "" ts.
Proof. destruct ts; cbn [join]; [symmetry; apply sapp_nil_r | reflexivity]. Qed.

(** The loop relays the delivered text in order, accumulates it and counts
    every chunk; it touches nothing but the response body. *)
Lemma relay_spec chunks : forall response chunkCount w,
  relay chunks response chunkCount w =
    (Ok (response +:+ join "" (deliveredText chunks),
         chunkCount + length chunks),
     afterWrites (deliveredText chunks) w).
Proof.
  induction chunks as [|c rest IH]; intros response chunkCount w.
  - cbn [relay deliveredText omap list_omap join length]. unfold ret.
    rewrite sapp_nil_r, afterWrites_nil, Nat.add_0_r. reflexivity.
  - rewrite deliveredText_cons. cbn [relay length].
    destruct (truthy (deltaContent c)).
    + unfold bind at 1. unfold resWrite at 1. rewrite IH.
      rewrite join_empty_cons, sapp_assoc.
      rewrite <- (afterWrites_cons (default "" (deltaContent c))).
      replace (S chunkCount + length rest) with (chunkCount + S (length rest)) by lia.
      reflexivity.
    + rewrite IH.
      replace (S chunkCount + length rest) with (chunkCount + S (length rest)) by lia.
      reflexivity.
Qed.

Lemma bind_ok {A B} (m : M A) (k : A -> M B) w a w' :
  m w = (Ok a, w') -> bind m k w = k a w'.
Proof. intros H. unfold bind. rewrite H. reflexivity. Qed.

Lemma notices_three (label a b c : string) (e : Exn) (w : World) :
  (consoleError label e ;! resWrite a ;! resWrite b ;! resWrite c ;! resEnd) w
  = (Ok tt, afterNotices (Errored label e) [a; b; c] w).
Proof.
  destruct w as [f k u cs mc [st hd wr js en]].
  cbv [bind consoleError consolePrint resWrite resEnd withRes afterNotices
       fs clockReads uuidDraws console modelCalls res
       status headers written json ended].
  rewrite <- !app_assoc. reflexivity.
Qed.

Lemma notices_one (label a : string) (e : Exn) (w : World) :
  (consoleError label e ;! resWrite a ;! resEnd) w
  = (Ok tt, afterNotices (Errored label e) [a] w).
Proof.
  destruct w as [f k u cs mc [st hd wr js en]].
  cbv [bind consoleError consolePrint resWrite resEnd withRes afterNotices
       fs clockReads uuidDraws console modelCalls res
       status headers written json ended].
  reflexivity.
Qed.

Section ServerFacts.
Context (o : Oracle).

  (** C6. A request whose [symptoms] is missing or empty is answered by
      status 400 with the input error, on both endpoints, and nothing else
      happens: the file system, the clock, the UUID source, the console
      and the list of model calls are those of before, and nothing is
      written to the body. *)
Theorem missing_symptoms_rejected (body : Body) (w : World) :
    symptoms body = None \/ symptoms body = Some "" ->
    let rejected :=
      withRes (mkResponse 400 (headers (res w)) (written (res w))
                 (Some (JsonObject [("error", SYMPTOMS_REQUIRED)])) true) w in
    diagnose o body w = (Ok tt, rejected) /\
    diagnoseTest o body w = (Ok tt, rejected) /\
    fs rejected = fs w /\ modelCalls rejected = modelCalls w /\
    clockReads rejected = clockReads w /\ uuidDraws rejected = uuidDraws w.
  Proof.
    intros H rejected.
    assert (Ht : truthy (symptoms body) = false)
      by (destruct H as [-> | ->]; reflexivity).
    unfold diagnose, diagnoseTest, interaction, tryCatch.
    rewrite Ht. simpl. repeat split.
  Qed.

Lemma interaction_stream_error (body : Body) (w w0 w1 : World)
      (sym uid hist : string) (chunks : list Chunk) (thrown : Exn)
      (onStreamError : Exn -> string -> nat -> M unit) :
    symptoms body = Some sym -> sym <> "" ->
    ensureUserId o (userId body) w = (Ok uid, w0) ->
    loadUserHistory o uid w0 = (Ok hist, w1) ->
    llm o (buildMessages (extractUserProvidedHistory hist)
                         (healthHistory body) sym)
      = Stream chunks (Some thrown) ->
    interaction o body onStreamError w =
      onStreamError thrown (join "" (deliveredText chunks)) (length chunks)
        (streaming (buildMessages (extractUserProvidedHistory hist)
                                  (healthHistory body) sym)
                   (deliveredText chunks) w1).
  Proof.
    intros Hsym Hne Hid Hload Hllm.
    assert (Ht : truthy (symptoms body) = true).
    { rewrite Hsym. destruct sym; [congruence|reflexivity]. }
    unfold interaction. rewrite Ht. cbn [negb].
    rewrite Hsym. cbn [default from_option id].
    rewrite (bind_ok _ _ _ _ _ Hid), (bind_ok _ _ _ _ _ Hload).
    erewrite bind_ok by (unfold chatSend; rewrite Hllm; reflexivity).
    do 3 (erewrite bind_ok by reflexivity).
    cbn [fst snd].
    erewrite bind_ok by apply relay_spec.
    cbn [fst snd]. unfold tryCatch.
    unfold bind at 1. unfold throw.
    unfold streaming, afterWrites, withRes. cbn. rewrite <- !app_assoc. reflexivity.
  Qed.

  (** C5. When the identifier is resolved, the log is loaded and the model
      stream yields [chunks] and then throws, the handler relays the
      delivered text, then the error notice: two newlines, the bracketed
      label, the thrown value as text and a newline (on /diagnose followed
      by the two lines on the partial accumulation).  It ends the response
      and makes no append: the file system and the clock are those left by
      the load. *)
Theorem stream_error_no_append (body : Body) (w w0 w1 : World)
      (sym uid hist : string) (chunks : list Chunk) (thrown : Exn) :
    symptoms body = Some sym -> sym <> "" ->
    ensureUserId o (userId body) w = (Ok uid, w0) ->
    loadUserHistory o uid w0 = (Ok hist, w1) ->
    llm o (buildMessages (extractUserProvidedHistory hist)
                         (healthHistory body) sym)
      = Stream chunks (Some thrown) ->
    let delivered := deliveredText chunks in
    let notice :=
      nl +:+ nl +:+ "[Error during streaming]: " +:+ exnString thrown +:+ nl in
    let partial :=
      [ "[Chunks received before error: " +:+ ofNat (length chunks) +:+ "]" +:+ nl;
        "[Response length before error: "
        +:+ ofNat (String.length (join "" delivered)) +:+ " characters]" +:+ nl ] in
    (exists w', diagnose o body w = (Ok tt, w') /\
       written (res w') = written (res w1) ++ delivered ++ [notice] ++ partial /\
       ended (res w') = true /\ json (res w') = json (res w1) /\
       fs w' = fs w1 /\ clockReads w' = clockReads w1) /\
    (exists w', diagnoseTest o body w = (Ok tt, w') /\
       written (res w') = written (res w1) ++ delivered ++ [notice] /\
       ended (res w') = true /\ json (res w') = json (res w1) /\
       fs w' = fs w1 /\ clockReads w' = clockReads w1).
  Proof.
    intros Hsym Hne Hid Hload Hllm delivered notice partial.
    split.
    - unfold diagnose, tryCatch.
      rewrite (interaction_stream_error body w w0 w1 sym uid hist chunks thrown
                 _ Hsym Hne Hid Hload Hllm).
      cbv beta. rewrite notices_three.
      eexists. split; [reflexivity|].
      unfold afterNotices, streaming, afterWrites, withRes.
      cbn [res written ended json fs clockReads status headers].
      repeat split. rewrite <- !app_assoc. reflexivity.
    - unfold diagnoseTest, tryCatch.
      rewrite (interaction_stream_error body w w0 w1 sym uid hist chunks thrown
                 _ Hsym Hne Hid Hload Hllm).
      cbv beta. rewrite notices_one.
      eexists. split; [reflexivity|].
      unfold afterNotices, streaming, afterWrites, withRes.
      cbn [res written ended json fs clockReads status headers].
      repeat split. rewrite <- !app_assoc. reflexivity.
  Qed.

End ServerFacts.

Lemma missing_symptoms_rejected_witness :
  diagnose (demoOracle (Stream [] None)) (mkBody (Some "") None (Some "u1"))
           (world0 emptyFs)
  = (Ok tt,
     withRes (mkResponse 400 [] []
                (Some (JsonObject [("error", SYMPTOMS_REQUIRED)])) true)
             (world0 emptyFs)).
Proof.
  exact (proj1 (missing_symptoms_rejected (demoOracle (Stream [] None))
                  (mkBody (Some "") None (Some "u1")) (world0 emptyFs)
                  (or_intror eq_refl))).
Defined.

Lemma stream_error_no_append_witness :
  exists w',
    diagnose failingOracle (mkBody (Some "fever") None None) (world0 emptyFs)
      = (Ok tt, w') /\
    written (res w')
      = [] ++ ["Based on"; "..."]
        ++ [nl +:+ nl +:+ "[Error during streaming]: Error: provider unavailable"
            +:+ nl]
        ++ ["[Chunks received before error: 3]" +:+ nl;
            "[Response length before error: 11 characters]" +:+ nl] /\
    ended (res w') = true /\ json (res w') = None /\
    files (fs w') !! filePathOf "uuid-0"
      = Some (mkFile (initialContent "uuid-0" "2026-02-15T17:03:40.000Z") true true) /\
    clockReads w' = 1.
Proof.
  destruct (proj1 (stream_error_no_append failingOracle
             (mkBody (Some "fever") None None)
             (world0 emptyFs)
             (mkWorld emptyFs 0 1 [] [] freshResponse)
             (snd (loadUserHistory failingOracle "uuid-0"
                     (mkWorld emptyFs 0 1 [] [] freshResponse)))
             "fever" "uuid-0"
             (initialContent "uuid-0" "2026-02-15T17:03:40.000Z")
             [mkChunk (Some "Based on") None; mkChunk None None;
              mkChunk (Some "...") None]
             (ModelExn "provider unavailable")
             eq_refl ltac:(discriminate) eq_refl eq_refl eq_refl))
    as (w' & Hrun & Hw & He & Hj & Hf & Hc).
  exists w'. split; [exact Hrun|]. split; [exact Hw|]. split; [exact He|].
  split; [exact Hj|]. split; [rewrite Hf; reflexivity | exact Hc].
Defined.

(* ================================================================== *)
(** ** More on the store *)
(* ================================================================== *)

Lemma bind_err {A B} (m : M A) (k : A -> M B) w e w' :
  m w = (Err e, w') -> bind m k w = (Err e, w').
Proof. intros H. unfold bind. rewrite H. reflexivity. Qed.


(** What a creating load leaves behind. *)
Lemma loadUserHistory_existing_or_created_aux (o : Oracle) (userId : string) (w : World) :
  dirExists (fs w) = true ->
  (forall f, files (fs w) !! filePathOf userId = Some f -> mayRead f = true ->
     loadUserHistory o userId w = (Ok (content f), w)) /\
  (files (fs w) !! filePathOf userId = None -> mayCreate (fs w) = true ->
     exists w',
       loadUserHistory o userId w
         = (Ok (initialContent userId (isoAt o (clockReads w))), w') /\
       files (fs w') !! filePathOf userId
         = Some (mkFile (initialContent userId (isoAt o (clockReads w))) true true) /\
       dirExists (fs w') = true /\
       clockReads w' = S (clockReads w)).
Proof.
  intros Hdir. split.
  - intros f Hf Hr.
    unfold loadUserHistory, tryCatch, bind, readFile, ret.
    rewrite Hdir, Hf, Hr. reflexivity.
  - intros Hnone Hcreate.
    unfold loadUserHistory, tryCatch, bind, readFile, ret, nowISO,
      writeFile, store.
    rewrite Hdir, Hnone. cbn [negb fs]. rewrite Hdir, Hnone, Hcreate. cbn [negb].
    eexists. split; [reflexivity|]. cbn [fs withFs files dirExists clockReads].
    split; [apply lookup_insert_eq|]. split; reflexivity.
Qed.

Section StoreMore.
Context (o : Oracle).

(** An append touches the file system and the clock and nothing else. *)
Lemma appendToUserHistory_frame userId sym diag hh w :
  res (snd (appendToUserHistory o userId sym diag hh w)) = res w /\
  modelCalls (snd (appendToUserHistory o userId sym diag hh w)) = modelCalls w /\
  console (snd (appendToUserHistory o userId sym diag hh w)) = console w /\
  uuidDraws (snd (appendToUserHistory o userId sym diag hh w)) = uuidDraws w /\
  clockReads (snd (appendToUserHistory o userId sym diag hh w)) = S (clockReads w).
Proof.
  unfold appendToUserHistory, bind, nowISO, appendFile, store. cbn [fs].
  destruct (dirExists (fs w)); cbn [negb];
    [destruct (files (fs w) !! filePathOf userId) as [f|];
       [destruct (mayWrite f) | destruct (mayCreate (fs w))] |];
    cbn [snd withFs res modelCalls console uuidDraws clockReads]; repeat split.
Qed.

(** The world after an append that succeeds on an existing log. *)
Lemma appendToUserHistory_ok userId sym diag hh w f :
  dirExists (fs w) = true ->
  files (fs w) !! filePathOf userId = Some f -> mayWrite f = true ->
  exists w',
    appendToUserHistory o userId sym diag hh w = (Ok tt, w') /\
    dirExists (fs w') = true /\
    files (fs w') !! filePathOf userId
      = Some (mkFile (content f +:+
                      sessionEntry (isoAt o (clockReads w)) sym diag hh)
                     (mayRead f) true) /\
    (forall q, q <> filePathOf userId -> files (fs w') !! q = files (fs w) !! q) /\
    clockReads w' = S (clockReads w).
Proof.
  intros Hd Hf Hw.
  unfold appendToUserHistory, bind, nowISO, appendFile, store. cbn [fs].
  rewrite Hd, Hf, Hw. cbn [negb]. eexists. split; [reflexivity|].
  cbn [fs withFs dirExists files clockReads]. split; [reflexivity|].
  split; [apply lookup_insert_eq|]. split; [|reflexivity].
  intros q Hq. apply lookup_insert_ne. congruence.
Qed.

(** X1.  For an identifier that is a plain file name,
    [appendToUserHistory] puts the entry, stamped with the clock reading,
    after the content of an existing writable log and leaves the other
    files alone; for a user without log it creates a log that holds the
    entry alone, without header; when the directory is missing (ENOENT),
    the log may not be written or may not be created (EACCES), it fails
    with the error of the file system and the files stay as they are. *)
Theorem appendToUserHistory_appends_or_creates userId sym diag hh w :
  plainName userId = true ->
  let path := filePathOf userId in
  let entry := sessionEntry (isoAt o (clockReads w)) sym diag hh in
  let run := appendToUserHistory o userId sym diag hh w in
  (forall f, dirExists (fs w) = true -> files (fs w) !! path = Some f ->
     mayWrite f = true ->
     fst run = Ok tt /\
     files (fs (snd run)) !! path
       = Some (mkFile (content f +:+ entry) (mayRead f) true) /\
     (forall q, q <> path -> files (fs (snd run)) !! q = files (fs w) !! q)) /\
  (dirExists (fs w) = true -> files (fs w) !! path = None ->
     mayCreate (fs w) = true ->
     fst run = Ok tt /\
     files (fs (snd run)) !! path = Some (mkFile entry true true)) /\
  (dirExists (fs w) = false ->
     (exists p, fst run = Err (FsExn ENOENT "open" p)) /\ fs (snd run) = fs w) /\
  (forall f, dirExists (fs w) = true -> files (fs w) !! path = Some f ->
     mayWrite f = false ->
     (exists p, fst run = Err (FsExn EACCES "open" p)) /\ fs (snd run) = fs w) /\
  (dirExists (fs w) = true -> files (fs w) !! path = None ->
     mayCreate (fs w) = false ->
     (exists p, fst run = Err (FsExn EACCES "open" p)) /\ fs (snd run) = fs w).
Proof.
  intros _ path entry run. subst path entry run.
  unfold appendToUserHistory, bind, nowISO, appendFile, store. cbn [fs].
  split; [|split; [|split; [|split]]].
  - intros f Hd Hf Hw. rewrite Hd, Hf, Hw. cbn [negb fst snd fs withFs files].
    split; [reflexivity|]. split; [apply lookup_insert_eq|].
    intros q Hq. apply lookup_insert_ne. congruence.
  - intros Hd Hn Hc. rewrite Hd, Hn, Hc. cbn [negb fst snd fs withFs files].
    split; [reflexivity|]. rewrite sapp_nil_l. apply lookup_insert_eq.
  - intros Hd. rewrite Hd. split; [eexists|]; reflexivity.
  - intros f Hd Hf Hw. rewrite Hd, Hf, Hw. split; [eexists|]; reflexivity.
  - intros Hd Hn Hc. rewrite Hd, Hn, Hc. split; [eexists|]; reflexivity.
Qed.

(** X2.  [initializeUserDataDir] never throws and never touches a file.
    When the directory exists or may be created it exists afterwards and
    the success line is logged; otherwise the store is as before, and the
    error with which [mkdir] failed is logged under the failure label. *)
Theorem initializeUserDataDir_outcome (w : World) :
  exists w',
    initializeUserDataDir w = (Ok tt, w') /\
    files (fs w') = files (fs w) /\ res w' = res w /\
    (dirExists (fs w) = true \/ mayMkdir (fs w) = true ->
       dirExists (fs w') = true /\
       console w' = console w ++ [Logged "User data directory initialized"]) /\
    (dirExists (fs w) = false -> mayMkdir (fs w) = false ->
       fs w' = fs w /\
       exists e,
         fst (mkdir USER_DATA_DIR w) = Err e /\
         console w' = console w
                      ++ [Errored "Failed to create user data directory:" e]).
Proof.
  unfold initializeUserDataDir, tryCatch, bind, mkdir, consoleLog, consoleError,
    consolePrint.
  destruct (dirExists (fs w)) eqn:Hd.
  - eexists. split; [reflexivity|]. cbn [fs files res console].
    split; [reflexivity|]. split; [reflexivity|].
    split; [intros _; split; [assumption | reflexivity] | discriminate].
  - destruct (mayMkdir (fs w)) eqn:Hm.
    + eexists. split; [reflexivity|].
      cbn [fs withFs files res console dirExists].
      split; [reflexivity|]. split; [reflexivity|].
      split; [intros _; split; reflexivity | discriminate].
    + eexists. split; [reflexivity|]. cbn [fs files res console].
      split; [reflexivity|]. split; [reflexivity|].
      split; [intros [?|?]; discriminate |].
      intros _ _. split; [reflexivity|]. eexists. split; reflexivity.
Qed.

(** X3.  Degraded mode: when the directory is missing and may not be
    created, initialisation returns normally, and after it the load and
    the append for an identifier that is a plain file name fail with
    ENOENT on opening the log and leave the store as it is. *)
Theorem store_without_directory (w : World) (userId sym diag : string)
    (hh : option string) :
  plainName userId = true ->
  dirExists (fs w) = false -> mayMkdir (fs w) = false ->
  exists w',
    initializeUserDataDir w = (Ok tt, w') /\
    (exists p, fst (loadUserHistory o userId w') = Err (FsExn ENOENT "open" p)) /\
    fs (snd (loadUserHistory o userId w')) = fs w /\
    (exists p, fst (appendToUserHistory o userId sym diag hh w')
               = Err (FsExn ENOENT "open" p)) /\
    fs (snd (appendToUserHistory o userId sym diag hh w')) = fs w.
Proof.
  intros _ Hd Hm.
  unfold initializeUserDataDir, tryCatch, bind, mkdir, consoleLog, consoleError,
    consolePrint.
  rewrite Hd, Hm. eexists. split; [reflexivity|].
  unfold loadUserHistory, appendToUserHistory, tryCatch, bind, readFile,
    nowISO, writeFile, appendFile, store.
  cbn [fs]. rewrite Hd. cbn [negb fs]. rewrite Hd.
  split; [eexists; reflexivity|]. split; [reflexivity|].
  split; [eexists; reflexivity|]. reflexivity.
Qed.

(** X4.  For an identifier that is a plain file name: once a load has
    succeeded on a store where the log was missing or readable, a further
    load returns the same text and changes nothing: it reads no clock and
    writes no file. *)
Theorem loadUserHistory_stable (userId : string) (w : World) :
  plainName userId = true ->
  dirExists (fs w) = true ->
  (files (fs w) !! filePathOf userId = None /\ mayCreate (fs w) = true) \/
  (exists f, files (fs w) !! filePathOf userId = Some f /\ mayRead f = true) ->
  exists text w1,
    loadUserHistory o userId w = (Ok text, w1) /\
    loadUserHistory o userId w1 = (Ok text, w1).
Proof.
  intros _ Hd [[Hn Hc] | (f & Hf & Hr)].
  - unfold loadUserHistory at 1.
    unfold tryCatch, bind, readFile, ret, nowISO, writeFile, store.
    rewrite Hd, Hn. cbn [negb fs]. rewrite Hd, Hn, Hc. cbn [negb].
    eexists. eexists. split; [reflexivity|].
    unfold loadUserHistory, tryCatch, bind, readFile, ret.
    cbn [fs withFs dirExists files negb].
    rewrite lookup_insert_eq. reflexivity.
  - exists (content f), w.
    assert (H : loadUserHistory o userId w = (Ok (content f), w)).
    { unfold loadUserHistory, tryCatch, bind, readFile, ret.
      rewrite Hd, Hf, Hr. reflexivity. }
    split; exact H.
Qed.

(** The appends of [items] to an existing writable log. *)
Lemma appendEach_ok userId (items : list Interaction) : forall w f,
  dirExists (fs w) = true ->
  files (fs w) !! filePathOf userId = Some f -> mayWrite f = true ->
  exists w',
    appendEach o userId items w = (Ok tt, w') /\
    dirExists (fs w') = true /\
    files (fs w') !! filePathOf userId
      = Some (mkFile (logAfter (content f) (stampFrom o (clockReads w) items))
                     (mayRead f) true) /\
    clockReads w' = clockReads w + length items.
Proof.
  induction items as [|i rest IH]; intros w f Hd Hf Hw.
  - exists w. cbn [appendEach stampFrom logAfter fold_left length].
    rewrite Nat.add_0_r. repeat split; try assumption.
    rewrite Hf. destruct f as [c r wr]. cbn in Hw. subst wr. reflexivity.
  - destruct (appendToUserHistory_ok userId (toldSymptoms i) (gotDiagnosis i)
                (toldHealth i) w f Hd Hf Hw) as (w1 & Hrun & Hd1 & Hf1 & _ & Hc1).
    destruct (IH w1 _ Hd1 Hf1 eq_refl) as (w' & Hrest & Hd' & Hf' & Hc').
    exists w'. cbn [appendEach]. rewrite (bind_ok _ _ _ _ _ Hrun).
    split; [exact Hrest|]. split; [exact Hd'|]. split.
    + rewrite Hf'. cbn [content mayRead stampFrom logAfter fold_left].
      rewrite Hc1. reflexivity.
    + rewrite Hc', Hc1. cbn [length]. lia.
Qed.

(** X5.  Round trip of the store, for an identifier that is a plain file
    name: a first load on a store without the user's log creates it; after
    the appends of [items], a load returns the header followed by the
    entries of [items] in the order of the appends, each stamped with its
    clock reading. *)
Theorem log_round_trip (userId : string) (items : list Interaction) (w : World) :
  plainName userId = true ->
  dirExists (fs w) = true -> mayCreate (fs w) = true ->
  files (fs w) !! filePathOf userId = None ->
  fst ((loadUserHistory o userId ;!
        appendEach o userId items ;!
        loadUserHistory o userId) w)
  = Ok (logAfter (initialContent userId (isoAt o (clockReads w)))
                 (stampFrom o (S (clockReads w)) items)).
Proof.
  intros _ Hd Hc Hn.
  destruct (proj2 (loadUserHistory_existing_or_created_aux o userId w Hd) Hn Hc)
    as (w1 & Hload & Hf1 & Hd1 & Hc1).
  rewrite (bind_ok _ _ _ _ _ Hload).
  destruct (appendEach_ok userId items w1 _ Hd1 Hf1 eq_refl)
    as (w2 & Happ & Hd2 & Hf2 & _).
  rewrite (bind_ok _ _ _ _ _ Happ).
  unfold loadUserHistory, tryCatch, bind, readFile, ret.
  rewrite Hd2, Hf2. cbn [negb mayRead content fst]. rewrite Hc1. reflexivity.
Qed.

End StoreMore.

(* ================================================================== *)
(** ** More on the orchestrator *)
(* ================================================================== *)

Lemma tryCatch_ok {A} (m : M A) (h : Exn -> M A) w a w' :
  m w = (Ok a, w') -> tryCatch m h w = (Ok a, w').
Proof. intros H. unfold tryCatch. rewrite H. reflexivity. Qed.

Lemma tryCatch_err {A} (m : M A) (h : Exn -> M A) w e w' :
  m w = (Err e, w') -> tryCatch m h w = h e w'.
Proof. intros H. unfold tryCatch. rewrite H. reflexivity. Qed.

Section ServerMore.
Context (o : Oracle).

Lemma ensureUserId_ok (provided : option string) (w : World) :
  exists uid w0,
    ensureUserId o provided w = (Ok uid, w0) /\
    fs w0 = fs w /\ res w0 = res w /\ modelCalls w0 = modelCalls w /\
    clockReads w0 = clockReads w.
Proof.
  unfold ensureUserId. destruct (truthy provided).
  - exists (default "" provided), w. repeat split.
  - eexists. eexists. split; [reflexivity|]. repeat split.
Qed.

(** A load reads the clock and the files; it leaves the response and the
    list of model calls alone. *)
Lemma loadUserHistory_frame (userId : string) (w : World) :
  res (snd (loadUserHistory o userId w)) = res w /\
  modelCalls (snd (loadUserHistory o userId w)) = modelCalls w.
Proof.
  unfold loadUserHistory, tryCatch, bind, readFile, ret, nowISO, writeFile, store.
  destruct (dirExists (fs w)) eqn:Hd; cbn [negb fs].
  - destruct (files (fs w) !! filePathOf userId) as [f|] eqn:Hf.
    + destruct (mayRead f); [split; reflexivity|].
      cbn [fs]. rewrite Hd, Hf. cbn [negb].
      destruct (mayWrite f); split; reflexivity.
    + cbn [fs]. rewrite Hd, Hf. cbn [negb].
      destruct (mayCreate (fs w)); split; reflexivity.
  - rewrite Hd. split; reflexivity.
Qed.

Lemma interaction_load_error (body : Body) (w w0 w1 : World)
    (sym uid : string) (e : Exn) (onStreamError : Exn -> string -> nat -> M unit) :
  symptoms body = Some sym -> sym <> "" ->
  ensureUserId o (userId body) w = (Ok uid, w0) ->
  loadUserHistory o uid w0 = (Err e, w1) ->
  interaction o body onStreamError w = (Err e, w1).
Proof.
  intros Hsym Hne Hid Hload.
  assert (Ht : truthy (symptoms body) = true).
  { rewrite Hsym. destruct sym; [congruence|reflexivity]. }
  unfold interaction. rewrite Ht. cbn [negb].
  rewrite (bind_ok _ _ _ _ _ Hid). apply bind_err. exact Hload.
Qed.

Lemma interaction_send_rejected (body : Body) (w w0 w1 : World)
    (sym uid hist : string) (e : Exn)
    (onStreamError : Exn -> string -> nat -> M unit) :
  symptoms body = Some sym -> sym <> "" ->
  ensureUserId o (userId body) w = (Ok uid, w0) ->
  loadUserHistory o uid w0 = (Ok hist, w1) ->
  llm o (buildMessages (extractUserProvidedHistory hist)
                       (healthHistory body) sym) = SendRejected e ->
  interaction o body onStreamError w =
    (Err e,
     mkWorld (fs w1) (clockReads w1) (uuidDraws w1) (console w1)
       (modelCalls w1 ++ [buildMessages (extractUserProvidedHistory hist)
                                        (healthHistory body) sym])
       (res w1)).
Proof.
  intros Hsym Hne Hid Hload Hllm.
  assert (Ht : truthy (symptoms body) = true).
  { rewrite Hsym. destruct sym; [congruence|reflexivity]. }
  unfold interaction. rewrite Ht. cbn [negb].
  rewrite Hsym. cbn [default from_option id].
  rewrite (bind_ok _ _ _ _ _ Hid), (bind_ok _ _ _ _ _ Hload).
  apply bind_err. unfold chatSend. rewrite Hllm. reflexivity.
Qed.

(** When the stream is obtained, the handler is at its inner [try] with
    the delivered text written. *)
Lemma interaction_stream_end (body : Body) (w w0 w1 : World)
    (sym uid hist : string) (chunks : list Chunk) (failure : option Exn)
    (onStreamError : Exn -> string -> nat -> M unit) :
  symptoms body = Some sym -> sym <> "" ->
  ensureUserId o (userId body) w = (Ok uid, w0) ->
  loadUserHistory o uid w0 = (Ok hist, w1) ->
  llm o (buildMessages (extractUserProvidedHistory hist)
                       (healthHistory body) sym)
    = Stream chunks failure ->
  interaction o body onStreamError w =
    tryCatch
      (match failure with
       | Some thrown => throw thrown
       | None => ret tt
       end ;!
       appendToUserHistory o uid sym (join "" (deliveredText chunks))
                           (healthHistory body) ;!
       resWrite (userIdTrailer uid) ;!
       resEnd)
      (fun streamError =>
         onStreamError streamError (join "" (deliveredText chunks)) (length chunks))
      (streaming (buildMessages (extractUserProvidedHistory hist)
                                (healthHistory body) sym)
                 (deliveredText chunks) w1).
Proof.
  intros Hsym Hne Hid Hload Hllm.
  assert (Ht : truthy (symptoms body) = true).
  { rewrite Hsym. destruct sym; [congruence|reflexivity]. }
  unfold interaction. rewrite Ht. cbn [negb].
  rewrite Hsym. cbn [default from_option id].
  rewrite (bind_ok _ _ _ _ _ Hid), (bind_ok _ _ _ _ _ Hload).
  erewrite bind_ok by (unfold chatSend; rewrite Hllm; reflexivity).
  do 3 (erewrite bind_ok by reflexivity).
  cbn [fst snd].
  erewrite bind_ok by apply relay_spec.
  cbn [fst snd].
  unfold streaming, afterWrites, withRes.
  cbn [res status headers written json ended fs clockReads uuidDraws console
       modelCalls].
  rewrite <- !app_assoc. reflexivity.
Qed.



Lemma internalError_spec (endpoint : string) (e : Exn) (W : World) :
  internalError endpoint e W =
    (Ok tt,
     mkWorld (fs W) (clockReads W) (uuidDraws W)
       (console W ++ [Errored ("Error in " +:+ endpoint +:+ " endpoint:") e])
       (modelCalls W)
       (mkResponse 500 (headers (res W)) (written (res W))
          (Some (JsonObject [("error", "Internal server error");
                             ("message", exnMessage e)])) true)).
Proof.
  destruct W as [f k u cs mc [st hd wr js en]].
  cbv [internalError bind consoleError consolePrint resStatusJson withRes
       fs clockReads uuidDraws console modelCalls res
       status headers written json ended].
  reflexivity.
Qed.

Lemma appendToUserHistory_denied (uid sym response : string) (hh : option string)
    (W : World) (f : File) :
  dirExists (fs W) = true ->
  files (fs W) !! filePathOf uid = Some f -> mayWrite f = false ->
  appendToUserHistory o uid sym response hh W =
    (Err (FsExn EACCES "open" (filePathOf uid)),
     mkWorld (fs W) (S (clockReads W)) (uuidDraws W) (console W)
             (modelCalls W) (res W)).
Proof.
  intros Hd Hf Hw.
  unfold appendToUserHistory, bind, nowISO, appendFile, store. cbn [fs].
  rewrite Hd, Hf, Hw. reflexivity.
Qed.

(** X7.  A storage error of the append is answered like a stream error.
    When the stream ends normally and the log may not be written, the
    handlers write the delivered text and then the stream-error notice
    with the text of the EACCES of the append, which names the path of the
    log (on /diagnose followed by the two lines on the accumulation), send
    no trailer, end the response with its status unchanged, and leave the
    files as they were. *)
Theorem append_failure_reported_in_stream (body : Body) (w w0 w1 : World)
    (sym uid hist : string) (chunks : list Chunk) (f : File) :
  symptoms body = Some sym -> sym <> "" ->
  ensureUserId o (userId body) w = (Ok uid, w0) ->
  loadUserHistory o uid w0 = (Ok hist, w1) ->
  llm o (buildMessages (extractUserProvidedHistory hist)
                       (healthHistory body) sym)
    = Stream chunks None ->
  dirExists (fs w1) = true ->
  files (fs w1) !! filePathOf uid = Some f -> mayWrite f = false ->
  let delivered := deliveredText chunks in
  let partial :=
    [ "[Chunks received before error: " +:+ ofNat (length chunks) +:+ "]" +:+ nl;
      "[Response length before error: "
      +:+ ofNat (String.length (join "" delivered)) +:+ " characters]" +:+ nl ] in
  exists path,
  let notice :=
    nl +:+ nl +:+ "[Error during streaming]: "
    +:+ "Error: EACCES: permission denied, open '" +:+ path +:+ "'" +:+ nl in
  (exists w', diagnose o body w = (Ok tt, w') /\
     written (res w') = written (res w1) ++ delivered ++ [notice] ++ partial /\
     ended (res w') = true /\ status (res w') = status (res w1) /\
     json (res w') = json (res w1) /\ fs w' = fs w1) /\
  (exists w', diagnoseTest o body w = (Ok tt, w') /\
     written (res w') = written (res w1) ++ delivered ++ [notice] /\
     ended (res w') = true /\ status (res w') = status (res w1) /\
     json (res w') = json (res w1) /\ fs w' = fs w1).
Proof.
  intros Hsym Hne Hid Hload Hllm Hd Hf Hw delivered partial.
  exists (filePathOf uid). intros notice.
  assert (Hn : streamErrorNotice (FsExn EACCES "open" (filePathOf uid)) = notice).
  { unfold notice, streamErrorNotice, exnString, exnMessage, codeText.
    rewrite !sapp_assoc. reflexivity. }
  assert (Hgen : forall onErr,
    interaction o body onErr w =
      onErr (FsExn EACCES "open" (filePathOf uid)) (join "" delivered)
            (length chunks)
            (mkWorld (fs w1) (S (clockReads w1)) (uuidDraws w1) (console w1)
               (modelCalls w1 ++ [buildMessages (extractUserProvidedHistory hist)
                                                (healthHistory body) sym])
               (mkResponse (status (res w1))
                  (headers (res w1) ++ [("Content-Type", "text/event-stream")]
                     ++ [("Cache-Control", "no-cache")]
                     ++ [("Connection", "keep-alive")])
                  (written (res w1) ++ delivered) (json (res w1))
                  (ended (res w1))))).
  { intros onErr.
    rewrite (interaction_stream_end body w w0 w1 sym uid hist chunks None
               onErr Hsym Hne Hid Hload Hllm).
    unfold tryCatch. erewrite bind_ok by reflexivity.
    erewrite bind_err
      by (apply (appendToUserHistory_denied uid sym _ _ _ f); assumption).
    unfold streaming, afterWrites, withRes.
    cbn [res status headers written json ended fs clockReads uuidDraws console
         modelCalls].
    reflexivity. }
  split.
  - unfold diagnose. erewrite tryCatch_ok;
      [|rewrite Hgen; apply notices_three].
    eexists. split; [reflexivity|]. unfold afterNotices.
    cbn [res written ended json status fs].
    repeat split. rewrite Hn, <- !app_assoc. reflexivity.
  - unfold diagnoseTest. erewrite tryCatch_ok;
      [|rewrite Hgen; apply notices_one].
    eexists. split; [reflexivity|]. unfold afterNotices.
    cbn [res written ended json status fs].
    repeat split. rewrite Hn, <- !app_assoc. reflexivity.
Qed.

(** X8.  Failures before the stream are answered by status 500.  When the
    load fails, or the model rejects the call, both handlers answer with
    the JSON error "Internal server error" and the message of the error,
    write nothing to the body and append nothing; after a failed load the
    model is not called. *)
Theorem early_failure_answers_500 (body : Body) (w w0 w1 : World)
    (sym uid : string) (e : Exn) :
  symptoms body = Some sym -> sym <> "" ->
  ensureUserId o (userId body) w = (Ok uid, w0) ->
  let answered (run : M unit) (after : World) (calls : list (list Message)) :=
    exists w',
      run w = (Ok tt, w') /\
      status (res w') = 500 /\
      json (res w') = Some (JsonObject [("error", "Internal server error");
                                        ("message", exnMessage e)]) /\
      ended (res w') = true /\ written (res w') = written (res after) /\
      fs w' = fs after /\ modelCalls w' = calls in
  (loadUserHistory o uid w0 = (Err e, w1) ->
     answered (diagnose o body) w1 (modelCalls w1) /\
     answered (diagnoseTest o body) w1 (modelCalls w1)) /\
  (forall hist,
     loadUserHistory o uid w0 = (Ok hist, w1) ->
     llm o (buildMessages (extractUserProvidedHistory hist)
                          (healthHistory body) sym) = SendRejected e ->
     let calls :=
       modelCalls w1 ++ [buildMessages (extractUserProvidedHistory hist)
                                       (healthHistory body) sym] in
     answered (diagnose o body) w1 calls /\
     answered (diagnoseTest o body) w1 calls).
Proof.
  intros Hsym Hne Hid answered. split.
  - intros Hload. split; unfold answered, diagnose, diagnoseTest;
      (erewrite tryCatch_err;
         [|apply (interaction_load_error body w w0 w1 sym uid e); assumption]);
      rewrite internalError_spec; eexists; (split; [reflexivity|]);
      cbn [res status json ended written fs modelCalls]; repeat split.
  - intros hist Hload Hllm calls.
    split; unfold answered, diagnose, diagnoseTest;
      (erewrite tryCatch_err;
         [|apply (interaction_send_rejected body w w0 w1 sym uid hist e);
           assumption]);
      rewrite internalError_spec; eexists; (split; [reflexivity|]);
      cbn [res status json ended written fs modelCalls]; repeat split.
Qed.

(** What the handlers do once the log is loaded, whatever the model does. *)
Lemma interaction_outcome (body : Body) (w w0 w1 : World)
    (sym uid hist : string) (onErr : Exn -> string -> nat -> M unit) :
  symptoms body = Some sym -> sym <> "" ->
  ensureUserId o (userId body) w = (Ok uid, w0) ->
  loadUserHistory o uid w0 = (Ok hist, w1) ->
  (forall e r n W, exists W',
      onErr e r n W = (Ok tt, W') /\ ended (res W') = true /\
      modelCalls W' = modelCalls W) ->
  exists r w',
    interaction o body onErr w = (r, w') /\
    modelCalls w' = modelCalls w1 ++
      [buildMessages (extractUserProvidedHistory hist) (healthHistory body) sym] /\
    (r = Ok tt -> ended (res w') = true).
Proof.
  intros Hsym Hne Hid Hload Hon.
  destruct (llm o (buildMessages (extractUserProvidedHistory hist)
                                 (healthHistory body) sym)) as [e|chunks failure] eqn:Hllm.
  - rewrite (interaction_send_rejected body w w0 w1 sym uid hist e onErr
               Hsym Hne Hid Hload Hllm).
    eexists. eexists. split; [reflexivity|]. cbn [modelCalls].
    split; [reflexivity | discriminate].
  - rewrite (interaction_stream_end body w w0 w1 sym uid hist chunks failure
               onErr Hsym Hne Hid Hload Hllm).
    set (W := streaming _ _ w1).
    assert (HW : modelCalls W = modelCalls w1 ++
              [buildMessages (extractUserProvidedHistory hist)
                             (healthHistory body) sym]) by reflexivity.
    clearbody W.
    destruct failure as [thrown|].
    + erewrite tryCatch_err by reflexivity.
      destruct (Hon thrown (join "" (deliveredText chunks)) (length chunks) W)
        as (W' & -> & He & Hm).
      exists (Ok tt), W'. split; [reflexivity|]. rewrite Hm, HW. auto.
    + destruct (appendToUserHistory_frame o uid sym
                  (join "" (deliveredText chunks)) (healthHistory body) W)
        as (Hres & Hmc & _ & _ & _).
      destruct (appendToUserHistory o uid sym (join "" (deliveredText chunks))
                  (healthHistory body) W) as [[[]|e] W'] eqn:Happ;
        cbn [snd] in Hres, Hmc.
      * erewrite tryCatch_ok.
        2:{ erewrite bind_ok by reflexivity.
            rewrite (bind_ok _ _ _ _ _ Happ).
            erewrite bind_ok by reflexivity. reflexivity. }
        eexists. eexists. split; [reflexivity|].
        cbn [withRes modelCalls res ended]. rewrite Hmc, HW. auto.
      * erewrite tryCatch_err.
        2:{ erewrite bind_ok by reflexivity. apply bind_err. exact Happ. }
        destruct (Hon e (join "" (deliveredText chunks)) (length chunks) W')
          as (W'' & -> & He & Hm).
        exists (Ok tt), W''. split; [reflexivity|]. rewrite Hm, Hmc, HW. auto.
Qed.

Lemma notices_three_ends (label a b c : string) (e : Exn) (W : World) :
  exists W',
    (consoleError label e ;! resWrite a ;! resWrite b ;! resWrite c ;! resEnd) W
      = (Ok tt, W') /\
    ended (res W') = true /\ modelCalls W' = modelCalls W.
Proof. rewrite notices_three. eexists. repeat split. Qed.

Lemma notices_one_ends (label a : string) (e : Exn) (W : World) :
  exists W',
    (consoleError label e ;! resWrite a ;! resEnd) W = (Ok tt, W') /\
    ended (res W') = true /\ modelCalls W' = modelCalls W.
Proof. rewrite notices_one. eexists. repeat split. Qed.

(** Both handlers, from a loaded log on. *)
Lemma handlers_after_load (body : Body) (w w0 w1 : World) (sym uid hist : string) :
  symptoms body = Some sym -> sym <> "" ->
  ensureUserId o (userId body) w = (Ok uid, w0) ->
  loadUserHistory o uid w0 = (Ok hist, w1) ->
  let called (run : M unit) :=
    exists w',
      run w = (Ok tt, w') /\ ended (res w') = true /\
      modelCalls w' = modelCalls w1 ++
        [buildMessages (extractUserProvidedHistory hist)
                       (healthHistory body) sym] in
  called (diagnose o body) /\ called (diagnoseTest o body).
Proof.
  intros Hsym Hne Hid Hload called.
  split; unfold called, diagnose, diagnoseTest;
    match goal with
    | |- exists w', tryCatch (interaction o body ?onErr) _ w = _ /\ _ =>
        destruct (interaction_outcome body w w0 w1 sym uid hist onErr
                    Hsym Hne Hid Hload) as (r & w' & Hrun & Hm & He);
          [intros e r n W; first [apply notices_three_ends | apply notices_one_ends]|]
    end;
    (destruct r as [[]|e];
      [ exists w'; split; [apply tryCatch_ok; exact Hrun | auto]
      | erewrite tryCatch_err by exact Hrun;
        rewrite internalError_spec; eexists; split; [reflexivity|];
        cbn [res ended modelCalls]; auto ]).
Qed.

(** X9.  No rejection escapes a handler: for every request, store and
    model, both handlers return normally and leave the response ended. *)
Theorem handlers_always_answer (body : Body) (w : World) :
  (exists w', diagnose o body w = (Ok tt, w') /\ ended (res w') = true) /\
  (exists w', diagnoseTest o body w = (Ok tt, w') /\ ended (res w') = true).
Proof.
  destruct (truthy (symptoms body)) eqn:Ht.
  - destruct (symptoms body) as [sym|] eqn:Hsym; [|discriminate].
    assert (Hne : sym <> "") by (destruct sym; [discriminate|congruence]).
    destruct (ensureUserId_ok (userId body) w) as (uid & w0 & Hid & _).
    destruct (loadUserHistory o uid w0) as [[hist|e] w1] eqn:Hload.
    + destruct (handlers_after_load body w w0 w1 sym uid hist Hsym Hne Hid Hload)
        as [(wa & Ha & Ea & _) (wb & Hb & Eb & _)].
      split; eauto.
    + split; unfold diagnose, diagnoseTest;
        (erewrite tryCatch_err;
           [|apply (interaction_load_error body w w0 w1 sym uid e); assumption]);
        rewrite internalError_spec; eexists; split; reflexivity.
  - unfold diagnose, diagnoseTest, interaction, tryCatch. rewrite Ht.
    cbn [negb]. unfold resStatusJson. split; eexists; split; reflexivity.
Qed.

(** X10.  Prior model output never reaches the prompt.  When the request
    names a user whose log is the header followed by well-formed entries,
    each handler calls the model exactly once, whatever the model then
    does, and the messages of the call are built from the filtered view
    written from the user's words alone, the health context and the
    symptoms of the request. *)
Theorem prompt_holds_user_words_only (body : Body) (w : World)
    (sym u t0 : string) (es : list Entry) (f : File) :
  symptoms body = Some sym -> sym <> "" ->
  userId body = Some u -> u <> "" ->
  dirExists (fs w) = true ->
  files (fs w) !! filePathOf u = Some f -> mayRead f = true ->
  content f = logAfter (initialContent u t0) es ->
  headerPlain u t0 = true -> forallb wellFormed es = true ->
  let prompt :=
    buildMessages (filteredView u t0 (map userFields es))
                  (healthHistory body) sym in
  modelCalls (snd (diagnose o body w)) = modelCalls w ++ [prompt] /\
  modelCalls (snd (diagnoseTest o body w)) = modelCalls w ++ [prompt].
Proof.
  intros Hsym Hne Hu Hune Hd Hf Hr Hc Hh Hes prompt.
  assert (Hid : ensureUserId o (userId body) w = (Ok u, w)).
  { rewrite Hu. unfold ensureUserId. destruct u; [congruence|reflexivity]. }
  assert (Hload : loadUserHistory o u w = (Ok (content f), w)).
  { unfold loadUserHistory, tryCatch, bind, readFile, ret.
    rewrite Hd, Hf, Hr. reflexivity. }
  destruct (handlers_after_load body w w w sym u (content f) Hsym Hne Hid Hload)
    as [(wa & Ha & _ & Ma) (wb & Hb & _ & Mb)].
  rewrite Ha, Hb. cbn [snd]. rewrite Ma, Mb, Hc.
  rewrite (extract_wellformed_log u t0 es Hh Hes). split; reflexivity.
Qed.

(** X11.  GET /history/:userId.  With the directory in place, a readable
    log is sent as it is stored, model output included, as text/markdown,
    and the store is untouched; for an identifier that is a plain file
    name and has no log, the request creates the log and sends the new
    header; when the load fails, the answer is status 500 with the error
    "Failed to load history" and an empty body. *)
Theorem history_outcome (userId : string) (w : World) :
  (forall f, dirExists (fs w) = true ->
     files (fs w) !! filePathOf userId = Some f -> mayRead f = true ->
     exists w',
       history o userId w = (Ok tt, w') /\
       written (res w') = written (res w) ++ [content f] /\
       headers (res w') = headers (res w) ++ [("Content-Type", "text/markdown")] /\
       ended (res w') = true /\ status (res w') = status (res w) /\
       fs w' = fs w) /\
  (plainName userId = true ->
     dirExists (fs w) = true -> files (fs w) !! filePathOf userId = None ->
     mayCreate (fs w) = true ->
     exists w',
       history o userId w = (Ok tt, w') /\
       written (res w')
         = written (res w) ++ [initialContent userId (isoAt o (clockReads w))] /\
       ended (res w') = true /\
       files (fs w') !! filePathOf userId
         = Some (mkFile (initialContent userId (isoAt o (clockReads w))) true true)) /\
  (forall e w1, loadUserHistory o userId w = (Err e, w1) ->
     exists w',
       history o userId w = (Ok tt, w') /\
       status (res w') = 500 /\
       json (res w') = Some (JsonObject [("error", "Failed to load history");
                                         ("message", exnMessage e)]) /\
       ended (res w') = true /\ written (res w') = written (res w)).
Proof.
  split; [|split].
  - intros f Hd Hf Hr.
    assert (Hload : loadUserHistory o userId w = (Ok (content f), w)).
    { unfold loadUserHistory, tryCatch, bind, readFile, ret.
      rewrite Hd, Hf, Hr. reflexivity. }
    unfold history. erewrite tryCatch_ok.
    2:{ rewrite (bind_ok _ _ _ _ _ Hload). erewrite bind_ok by reflexivity.
        reflexivity. }
    eexists. split; [reflexivity|].
    cbn [withRes res written headers ended status fs]. repeat split.
  - intros _ Hd Hn Hc.
    destruct (proj2 (loadUserHistory_existing_or_created_aux o userId w Hd) Hn Hc)
      as (w1 & Hload & Hf1 & _ & _).
    destruct (loadUserHistory_frame userId w) as (Hres & _).
    rewrite Hload in Hres. cbn [snd] in Hres.
    unfold history. erewrite tryCatch_ok.
    2:{ rewrite (bind_ok _ _ _ _ _ Hload). erewrite bind_ok by reflexivity.
        reflexivity. }
    eexists. split; [reflexivity|].
    cbn [withRes res written headers ended status fs]. rewrite Hres.
    repeat split. exact Hf1.
  - intros e w1 Hload.
    destruct (loadUserHistory_frame userId w) as (Hres & _).
    rewrite Hload in Hres. cbn [snd] in Hres.
    unfold history. erewrite tryCatch_err by (apply bind_err; exact Hload).
    unfold resStatusJson. eexists. split; [reflexivity|].
    cbn [withRes res written json ended status]. rewrite Hres. repeat split.
Qed.

(** X12.  The relay loop.  Over any chunks, the loop writes the non-empty
    contents in the order of the chunks and nothing else, returns as
    accumulated response the concatenation of what it wrote, counts every
    chunk, the empty ones too, and touches neither the store nor the
    clock. *)
Theorem relay_in_order (chunks : list Chunk) (w : World) :
  exists w',
    relay chunks "" 0 w
      = (Ok (join "" (deliveredText chunks), length chunks), w') /\
    written (res w') = written (res w) ++ deliveredText chunks /\
    Forall (fun text => text <> "") (deliveredText chunks) /\
    length (deliveredText chunks) <= length chunks /\
    ended (res w') = ended (res w) /\ fs w' = fs w /\
    clockReads w' = clockReads w.
Proof.
  exists (afterWrites (deliveredText chunks) w). split; [|split; [|split; [|split]]].
  - rewrite relay_spec. reflexivity.
  - reflexivity.
  - induction chunks as [|c rest IH]; [constructor|].
    rewrite deliveredText_cons.
    destruct (deltaContent c) as [[|x d]|]; cbn [truthy default from_option id];
      try exact IH.
    constructor; [discriminate | exact IH].
  - induction chunks as [|c rest IH]; [reflexivity|].
    rewrite deliveredText_cons.
    destruct (truthy (deltaContent c)); cbn [length]; lia.
  - repeat split.
Qed.

End ServerMore.

(* ================================================================== *)
(** ** More on the filter *)
(* ================================================================== *)

Lemma pushSession_empty (ups : list string) : pushSession ups [] = ups.
Proof. reflexivity. Qed.

Lemma concat_snoc {A} (xss : list (list A)) (xs : list A) :
  concat (xss ++ [xs]) = concat xss ++ xs.
Proof. rewrite concat_app. cbn [concat]. rewrite app_nil_r. reflexivity. Qed.

(** One step of the scan selects: the accumulators, read one after the
    other, stay a subsequence of the lines read so far. *)
Lemma step_selects (s : Scan) (l : string) (bs : list (list string))
    (pre : list string) :
  userProvidedSections s = map (join nl) bs ->
  Forall (fun b => b <> [] /\ Forall (fun x => noNewline x = true) b) bs ->
  Forall (fun x => noNewline x = true) (currentSession s) ->
  concat bs ++ currentSession s `sublist_of` pre ->
  noNewline l = true ->
  exists bs',
    userProvidedSections (step s l) = map (join nl) bs' /\
    Forall (fun b => b <> [] /\ Forall (fun x => noNewline x = true) b) bs' /\
    Forall (fun x => noNewline x = true) (currentSession (step s l)) /\
    concat bs' ++ currentSession (step s l) `sublist_of` pre ++ [l].
Proof.
  intros HU Hbs Hcur Hsub Hl.
  assert (Hpush : concat bs ++ currentSession s ++ [l] `sublist_of` pre ++ [l]).
  { rewrite app_assoc. apply sublist_app; [assumption | reflexivity]. }
  assert (Hdrop : concat bs ++ currentSession s `sublist_of` pre ++ [l]).
  { apply sublist_inserts_r. assumption. }
  assert (Hcur' : Forall (fun x => noNewline x = true) (currentSession s ++ [l])).
  { apply Forall_app. split; [assumption | repeat constructor; assumption]. }
  rewrite step_classify.
  destruct (classify l).
  - cbn [userProvidedSections currentSession].
    destruct (currentSession s) as [|c cs] eqn:E.
    + exists bs. rewrite app_nil_r in Hsub.
      rewrite pushSession_empty. split; [assumption|]. split; [assumption|].
      split; [repeat constructor; assumption|].
      apply sublist_app; [assumption | reflexivity].
    + exists (bs ++ [c :: cs]). rewrite pushSession_cons, map_app, HU.
      split; [reflexivity|]. split.
      * apply Forall_app. split; [assumption|].
        constructor; [split; [discriminate | assumption] | constructor].
      * split; [repeat constructor; assumption|].
        rewrite concat_snoc. apply sublist_app; [assumption | reflexivity].
  - exists bs. cbn [userProvidedSections currentSession]. auto.
  - exists bs. cbn [userProvidedSections currentSession]. auto.
  - exists bs. cbn [userProvidedSections currentSession]. auto.
  - exists bs. cbn [userProvidedSections currentSession]. auto.
  - destruct (inSymptomsSection s || inHealthContextSection s);
      exists bs; cbn [userProvidedSections currentSession]; auto.
Qed.

Lemma scan_selects (lines : list string) : forall s bs pre,
  userProvidedSections s = map (join nl) bs ->
  Forall (fun b => b <> [] /\ Forall (fun x => noNewline x = true) b) bs ->
  Forall (fun x => noNewline x = true) (currentSession s) ->
  concat bs ++ currentSession s `sublist_of` pre ->
  Forall (fun x => noNewline x = true) lines ->
  exists bs',
    userProvidedSections (fold_left step lines s) = map (join nl) bs' /\
    Forall (fun b => b <> [] /\ Forall (fun x => noNewline x = true) b) bs' /\
    Forall (fun x => noNewline x = true) (currentSession (fold_left step lines s)) /\
    concat bs' ++ currentSession (fold_left step lines s) `sublist_of` pre ++ lines.
Proof.
  induction lines as [|l rest IH]; intros s bs pre HU Hbs Hcur Hsub Hall.
  - exists bs. rewrite app_nil_r. auto.
  - inversion Hall as [|? ? Hl Hrest]; subst.
    destruct (step_selects s l bs pre HU Hbs Hcur Hsub Hl)
      as (bs1 & E1 & E2 & E3 & E4).
    destruct (IH (step s l) bs1 (pre ++ [l]) E1 E2 E3 E4 Hrest) as (bs' & P).
    exists bs'. cbn [fold_left]. rewrite <- app_assoc in P. exact P.
Qed.

Lemma map_split_join (bs : list (list string)) :
  Forall (fun b => b <> [] /\ Forall (fun x => noNewline x = true) b) bs ->
  map split (map (join nl) bs) = bs.
Proof.
  induction 1 as [|b bs [Hne Hn] _ IH]; [reflexivity|].
  cbn [map]. rewrite IH, split_join by assumption. reflexivity.
Qed.

(** X13.  The filter only selects lines.  The lines of the blocks of a
    view, read block after block, are a subsequence of the lines of the
    log: the filter never writes a line that the log does not hold, never
    repeats one and never changes their order. *)
Theorem view_lines_are_selected (md : string) :
  concat (map split (sectionsOf md)) `sublist_of` split md.
Proof.
  unfold sectionsOf, scanLines.
  destruct (scan_selects (split md) scan0 [] [] eq_refl) as (bs & HU & Hbs & Hcur & Hsub);
    [constructor | constructor | reflexivity | apply split_lines_noNewline |].
  cbn [app] in Hsub. unfold finish.
  destruct (fold_left step (split md) scan0) as [U cur fs' fh' fd'].
  cbn [userProvidedSections currentSession inDiagnosisSection] in *.
  destruct (Nat.ltb 0 (length cur) && negb fd') eqn:E.
  - apply andb_prop in E as [E _].
    assert (Hne : cur <> []) by (destruct cur; [discriminate | discriminate]).
    rewrite HU. change [join nl cur] with (map (join nl) [cur]).
    rewrite <- map_app, map_split_join, concat_snoc.
    + exact Hsub.
    + apply Forall_app. split; [assumption|]. repeat constructor; assumption.
  - rewrite HU, map_split_join by assumption.
    etransitivity; [|exact Hsub]. apply sublist_inserts_r. reflexivity.
Qed.

Lemma Block_kinds b a h :
  Block b a h ->
  opensNothing (hd "" b) = false /\
  Forall (fun l => classify l <> KDiagnosis /\ classify l <> KRule) b.
Proof.
  induction 1 as [l Hn K | l Hn K | l Hn K
                 | b a h l HB [IH1 IH2] Hn K | b a h l HB [IH1 IH2] Hn K
                 | b a h l HB [IH1 IH2] Hah Hn K].
  1-3: split; [cbn [hd]; unfold opensNothing; rewrite K; reflexivity|];
       repeat constructor; rewrite K; discriminate.
  1-3: pose proof (Block_not_nil _ _ _ HB) as Hne; split;
       [destruct b; [congruence | exact IH1]|];
       apply Forall_app; split; [assumption|];
       repeat constructor; rewrite K; discriminate.
Qed.

(** X14.  What a block of the view is made of.  Every block starts with an
    entry-start line or a field marker line, and every block after the
    first starts with an entry-start line; no line of a block is a rule or
    a line that the scan treats as diagnosis marker. *)
Theorem view_blocks_shape (md : string) :
  Forall (fun block =>
            opensNothing (hd "" (split block)) = false /\
            Forall (fun l => classify l <> KDiagnosis /\ classify l <> KRule)
                   (split block))
         (sectionsOf md) /\
  Forall (fun block => startsWith SESSION_START block = true) (tl (sectionsOf md)).
Proof.
  destruct (sectionsOf_blocks md) as (bs & -> & Hgood & Htl). split.
  - apply Forall_map. eapply Forall_impl; [exact Hgood|].
    intros b (a & h & HB). cbn beta.
    rewrite split_join by (eauto using Block_not_nil, Block_noNewline).
    eapply Block_kinds. exact HB.
  - destruct bs as [|b0 bs]; [constructor|]. cbn [map tl] in *.
    inversion Hgood as [|? ? _ Hgood']; subst.
    apply Forall_map. clear Hgood.
    induction bs as [|b bs IH]; [constructor|].
    inversion Htl; subst. inversion Hgood' as [|? ? (a & h & HB) ?]; subst.
    constructor; [|apply IH; assumption].
    cbn beta. destruct b as [|l rest]; [discriminate|].
    cbn [startsEntry] in H1. unfold isSession in H1.
    destruct (classify l) eqn:K; try discriminate.
    apply classify_session_iff in K.
    destruct rest; [exact K|]. rewrite join_cons2.
    apply startsWith_prefix_app. exact K.
Qed.

Lemma spanLine_eq (s : string) : s = fst (spanLine s) +:+ snd (spanLine s).
Proof.
  induction s as [|c r IH]; [reflexivity|].
  cbn [spanLine]. destruct (Ascii.eqb c nlc); [reflexivity|].
  destruct (spanLine r) as [a b]. cbn [fst snd] in *.
  rewrite sapp_cons, <- IH. reflexivity.
Qed.

(** X15.  The header of a view is copied from the start of the log: it is
    a prefix of the text, and it is either empty or made of a title line,
    an empty line and a Created line. *)
Theorem header_is_prefix (md : string) :
  (exists rest, md = headerOf md +:+ rest) /\
  (headerOf md = "" \/
   exists title created,
     headerOf md = title +:+ nl +:+ nl +:+ created /\
     startsWith "# Medical History" title = true /\
     startsWith "**Created:**" created = true /\
     noNewline title = true /\ noNewline created = true).
Proof.
  split; [|apply headerOf_shape].
  unfold headerOf, headerMatch.
  destruct (eat "# Medical History" md) as [r1|] eqn:E1; [|exists md; reflexivity].
  apply eat_app in E1.
  pose proof (spanLine_eq r1) as S1.
  destruct (spanLine r1) as [a r2]. cbn [fst snd] in S1.
  destruct (eat (nl +:+ nl +:+ "**Created:**") r2) as [r3|] eqn:E2;
    [|exists md; reflexivity].
  apply eat_app in E2.
  pose proof (spanLine_eq r3) as S3.
  destruct (spanLine r3) as [b r4]. cbn [fst snd] in S3.
  exists r4. rewrite E1, S1, E2, S3 at 1. rewrite !sapp_assoc. reflexivity.
Qed.

Lemma scan_opens_nothing (lines : list string) : forall d,
  forallb opensNothing lines = true ->
  exists d',
    fold_left step lines (mkScan [] [] false false d) = mkScan [] [] false false d'.
Proof.
  induction lines as [|l rest IH]; intros d Hall; [eexists; reflexivity|].
  cbn [forallb] in Hall. apply andb_prop in Hall as [Hl Hall].
  cbn [fold_left]. rewrite step_classify. unfold opensNothing in Hl.
  destruct (classify l); try discriminate; cbn; apply IH; assumption.
Qed.

(** X16.  A log in which no line starts an entry or carries the symptoms
    or the health-context marker has no block: its view is the header
    followed by the Session History label, whatever else the log holds. *)
Theorem nothing_opened_empty_view (md : string) :
  forallb opensNothing (split md) = true ->
  sectionsOf md = [] /\
  extractUserProvidedHistory md = headerOf md +:+ SECTION_LABEL.
Proof.
  intros H.
  assert (Hs : sectionsOf md = []).
  { unfold sectionsOf, scanLines, scan0.
    destruct (scan_opens_nothing (split md) false H) as (d' & ->). reflexivity. }
  split; [exact Hs|]. unfold extractUserProvidedHistory. rewrite Hs. reflexivity.
Qed.

(** X17.  Entry count.  The view of a log made of the header and of
    well-formed entries has one block for each entry, in the order of the
    log. *)
Theorem one_block_per_entry (u t0 : string) (es : list Entry) :
  headerPlain u t0 = true -> forallb wellFormed es = true ->
  sectionsOf (logAfter (initialContent u t0) es)
    = map (fun e => blockText (userFields e)) es /\
  length (sectionsOf (logAfter (initialContent u t0) es)) = length es.
Proof.
  intros Hh Hes. destruct (headerPlain_parts u t0 Hh) as (_ & _ & Kt & Kc).
  assert (Hs : sectionsOf (logAfter (initialContent u t0) es)
               = map (fun e => blockText (userFields e)) es).
  { unfold sectionsOf, scanLines. rewrite (lines_wellformed_log u t0 es Hh).
    unfold scan0.
    scan_line Kt. scan_line classify_empty. scan_line Kc.
    scan_line classify_empty. scan_line classify_RULE.
    scan_line classify_empty. scan_line classify_label.
    scan_line classify_empty.
    rewrite (scan_entries es [] [] Hes). reflexivity. }
  split; [exact Hs|]. rewrite Hs, length_map. reflexivity.
Qed.

(* ================================================================== *)
(** ** The trailer read back by the clients *)
(* ================================================================== *)

Lemma eat_same (p r : string) : eat p (p +:+ r) = Some r.
Proof.
  induction p as [|x p IH]; [reflexivity|].
  rewrite sapp_cons. cbn [eat]. rewrite Ascii.eqb_refl. exact IH.
Qed.

Lemma lazyCapture_id (id rest : string) :
  allChars idChar id = true -> lazyCapture (id +:+ " ---" +:+ rest) = Some id.
Proof.
  induction id as [|c id IH]; intros H.
  - rewrite sapp_nil_l. destruct rest; reflexivity.
  - cbn [allChars] in H. apply andb_prop in H as [Hc H].
    unfold idChar in Hc. apply andb_prop in Hc as [Hsp Hlt].
    apply negb_true_iff in Hsp, Hlt.
    rewrite sapp_cons. cbn [lazyCapture startsWith].
    rewrite (Ascii.eqb_sym " " c), Hsp. cbn [andb]. rewrite Hlt.
    fold lazyCapture. rewrite (IH H). reflexivity.
Qed.

Lemma startsWith_cut (p : string) : forall x rest,
  noNewline p = true ->
  startsWith p (x +:+ nl +:+ rest) = startsWith p (x +:+ nl).
Proof.
  induction p as [|m p IH]; intros x rest Hp; [reflexivity|].
  cbn [noNewline] in Hp. apply andb_prop in Hp as [Hm Hp].
  apply negb_true_iff in Hm.
  destruct x as [|y x].
  - rewrite !sapp_nil_l. cbn [nl sapp_cons]. unfold nl.
    rewrite sapp_cons. cbn [startsWith]. rewrite Hm. reflexivity.
  - rewrite !sapp_cons. cbn [startsWith]. rewrite (IH x rest Hp). reflexivity.
Qed.

Lemma userIdMatch_skip (body rest : string) :
  includes "--- USER_ID: " (body +:+ nl) = false ->
  userIdMatch (body +:+ nl +:+ rest) = userIdMatch (nl +:+ rest).
Proof.
  induction body as [|c body IH]; intros H; [reflexivity|].
  rewrite sapp_cons in H. cbn [includes] in H.
  apply orb_false_elim in H as [Hs Hi].
  rewrite <- sapp_cons in Hs.
  rewrite <- (startsWith_cut "--- USER_ID: " (String c body) rest eq_refl) in Hs.
  rewrite sapp_cons in Hs |- *.
  cbn [userIdMatch]. unfold userIdAt.
  apply startsWith_eat in Hs. rewrite Hs. fold userIdMatch. apply IH. exact Hi.
Qed.

(** X18.  The clients read back what the server wrote.  When the relayed
    text, closed by a newline, does not contain [--- USER_ID: ], and the
    identifier holds no space and no line terminator, the pattern of the
    clients finds in the body followed by the server's trailer exactly the
    identifier.  The leftmost match decides: a trailer-shaped text earlier
    in the body is what the clients report. *)
Theorem client_reads_trailer (body id : string) :
  allChars idChar id = true ->
  (includes "--- USER_ID: " (body +:+ nl) = false ->
   userIdMatch (body +:+ userIdTrailer id) = Some id) /\
  (forall rest,
   userIdMatch ("--- USER_ID: " +:+ id +:+ " ---" +:+ rest) = Some id).
Proof.
  intros Hid.
  assert (Hat : forall rest,
            userIdMatch ("--- USER_ID: " +:+ id +:+ " ---" +:+ rest) = Some id).
  { intros rest.
    assert (E : userIdAt ("--- USER_ID: " +:+ id +:+ " ---" +:+ rest) = Some id).
    { unfold userIdAt. rewrite eat_same. apply lazyCapture_id. exact Hid. }
    destruct ("--- USER_ID: " +:+ id +:+ " ---" +:+ rest);
      cbn [userIdMatch]; rewrite E; reflexivity. }
  split; [|exact Hat].
  intros Hbody. unfold userIdTrailer.
  rewrite (userIdMatch_skip body _ Hbody).
  change (nl +:+ nl +:+ "--- USER_ID: " +:+ id +:+ " ---")
    with (String nlc (String nlc ("--- USER_ID: " +:+ id +:+ " ---"))).
  cbn [userIdMatch]. unfold userIdAt at 1 2. cbn [eat].
  change (Ascii.eqb "-" nlc) with false. cbv iota.
  rewrite <- (sapp_nil_r " ---"). apply Hat.
Qed.

(* ================================================================== *)
(** ** The statements above at concrete inputs *)
(* ================================================================== *)

Lemma appendToUserHistory_appends_or_creates_witness :
  plainName "u1" = true /\ plainName "u2" = true /\
  fst (appendToUserHistory answeringOracle "u1" "fever" "Rest." None
                           (world0 sampleFs)) = Ok tt /\
  files (fs (snd (appendToUserHistory answeringOracle "u2" "fever" "Rest." None
                                      (world0 sampleFs)))) !! filePathOf "u2"
    = Some (mkFile (sessionEntry "2026-02-15T17:03:40.000Z" "fever" "Rest." None)
                   true true) /\
  (exists p, fst (appendToUserHistory answeringOracle "u1" "fever" "Rest." None
                                      (world0 lockedFs))
             = Err (FsExn ENOENT "open" p)) /\
  (exists p, fst (appendToUserHistory answeringOracle "u1" "fever" "Rest." None
                                      (world0 readOnlyFs))
             = Err (FsExn EACCES "open" p)).
Proof.
  destruct (appendToUserHistory_appends_or_creates answeringOracle "u1" "fever"
              "Rest." None (world0 sampleFs) eq_refl) as (H1 & _).
  destruct (appendToUserHistory_appends_or_creates answeringOracle "u2" "fever"
              "Rest." None (world0 sampleFs) eq_refl) as (_ & H2 & _).
  destruct (appendToUserHistory_appends_or_creates answeringOracle "u1" "fever"
              "Rest." None (world0 lockedFs) eq_refl) as (_ & _ & H3 & _).
  destruct (appendToUserHistory_appends_or_creates answeringOracle "u1" "fever"
              "Rest." None (world0 readOnlyFs) eq_refl) as (_ & _ & _ & H4 & _).
  split; [reflexivity|]. split; [reflexivity|].
  split; [exact (proj1 (H1 (mkFile sampleLog true true) eq_refl eq_refl eq_refl))|].
  split; [exact (proj2 (H2 eq_refl eq_refl eq_refl))|].
  split; [exact (proj1 (H3 eq_refl))|].
  exact (proj1 (H4 (mkFile writeOnlyLog true false) eq_refl eq_refl eq_refl)).
Defined.

Lemma initializeUserDataDir_outcome_witness :
  exists w' e,
    initializeUserDataDir (world0 lockedFs) = (Ok tt, w') /\
    fs w' = lockedFs /\
    fst (mkdir USER_DATA_DIR (world0 lockedFs)) = Err e /\
    console w' = [Errored "Failed to create user data directory:" e].
Proof.
  destruct (initializeUserDataDir_outcome (world0 lockedFs))
    as (w' & Hrun & _ & _ & _ & Hfail).
  destruct (Hfail eq_refl eq_refl) as (Hfs & e & He & Hc).
  exists w', e. split; [exact Hrun|]. split; [exact Hfs|].
  split; [exact He | exact Hc].
Defined.

Lemma store_without_directory_witness :
  plainName "u1" = true /\
  exists w' p,
    initializeUserDataDir (world0 lockedFs) = (Ok tt, w') /\
    fst (loadUserHistory answeringOracle "u1" w') = Err (FsExn ENOENT "open" p).
Proof.
  split; [reflexivity|].
  destruct (store_without_directory answeringOracle (world0 lockedFs)
              "u1" "cough" "Rest." None eq_refl eq_refl eq_refl)
    as (w' & Hrun & (p & Hload) & _).
  exists w', p. split; [exact Hrun | exact Hload].
Defined.

Lemma loadUserHistory_stable_witness :
  plainName "u1" = true /\
  exists text w1,
    loadUserHistory answeringOracle "u1" (world0 emptyFs) = (Ok text, w1) /\
    loadUserHistory answeringOracle "u1" w1 = (Ok text, w1).
Proof.
  split; [reflexivity|].
  exact (loadUserHistory_stable answeringOracle "u1" (world0 emptyFs)
           eq_refl eq_refl (or_introl (conj eq_refl eq_refl))).
Defined.

Lemma log_round_trip_witness :
  fst ((loadUserHistory answeringOracle "u1" ;!
        appendEach answeringOracle "u1"
          [mkInteraction "cough" "Rest." None;
           mkInteraction "fever" "Fluids." (Some "no allergies")] ;!
        loadUserHistory answeringOracle "u1") (world0 emptyFs))
  = Ok (logAfter (initialContent "u1" "2026-02-15T17:03:40.000Z")
          [mkEntry "2026-02-15T17:03:41.000Z" "cough" None "Rest.";
           mkEntry "2026-02-15T17:03:42.000Z" "fever" (Some "no allergies")
                   "Fluids."]).
Proof.
  exact (log_round_trip answeringOracle "u1"
           [mkInteraction "cough" "Rest." None;
            mkInteraction "fever" "Fluids." (Some "no allergies")]
           (world0 emptyFs) eq_refl eq_refl eq_refl eq_refl).
Defined.


Lemma append_failure_reported_in_stream_witness :
  exists path w',
    diagnoseTest answeringOracle (mkBody (Some "fever") None (Some "u1"))
                 (world0 readOnlyFs) = (Ok tt, w') /\
    written (res w')
      = [] ++ ["Rest "; "and fluids."]
        ++ [nl +:+ nl +:+ "[Error during streaming]: "
            +:+ "Error: EACCES: permission denied, open '" +:+ path +:+ "'"
            +:+ nl] /\
    fs w' = readOnlyFs.
Proof.
  destruct (append_failure_reported_in_stream answeringOracle
             (mkBody (Some "fever") None (Some "u1"))
             (world0 readOnlyFs) (world0 readOnlyFs) (world0 readOnlyFs)
             "fever" "u1" writeOnlyLog
             [mkChunk (Some "Rest ") None; mkChunk (Some "and fluids.") (Some "usage")]
             (mkFile writeOnlyLog true false)
             eq_refl ltac:(discriminate) eq_refl eq_refl eq_refl
             eq_refl eq_refl eq_refl)
    as (path & _ & (w' & Hrun & Hw & _ & _ & _ & Hf)).
  exists path, w'. split; [exact Hrun|]. split; [exact Hw | exact Hf].
Defined.

Lemma early_failure_answers_500_witness :
  (exists w',
     diagnose answeringOracle (mkBody (Some "fever") None (Some "u1"))
              (world0 lockedFs) = (Ok tt, w') /\
     status (res w') = 500 /\ modelCalls w' = []) /\
  (exists w',
     diagnose rejectingOracle (mkBody (Some "fever") None (Some "u1"))
              (world0 sampleFs) = (Ok tt, w') /\
     status (res w') = 500 /\ fs w' = sampleFs).
Proof.
  split.
  - destruct (proj1 (proj1 (early_failure_answers_500 answeringOracle
               (mkBody (Some "fever") None (Some "u1"))
               (world0 lockedFs) (world0 lockedFs)
               (snd (loadUserHistory answeringOracle "u1" (world0 lockedFs)))
               "fever" "u1" (FsExn ENOENT "open" (filePathOf "u1"))
               eq_refl ltac:(discriminate) eq_refl) eq_refl))
      as (w' & Hrun & Hs & _ & _ & _ & _ & Hm).
    exists w'. split; [exact Hrun|]. split; [exact Hs | exact Hm].
  - destruct (proj1 (proj2 (early_failure_answers_500 rejectingOracle
               (mkBody (Some "fever") None (Some "u1"))
               (world0 sampleFs) (world0 sampleFs) (world0 sampleFs)
               "fever" "u1" (ModelExn "401 unauthorized")
               eq_refl ltac:(discriminate) eq_refl) sampleLog eq_refl eq_refl))
      as (w' & Hrun & Hs & _ & _ & _ & Hf & _).
    exists w'. split; [exact Hrun|]. split; [exact Hs | exact Hf].
Defined.

Lemma prompt_holds_user_words_only_witness :
  modelCalls (snd (diagnose failingOracle
                     (mkBody (Some "fever") (Some "asthma") (Some "u1"))
                     (world0 sampleFs)))
  = [buildMessages
       (filteredView "u1" "2026-02-15T17:03:43.506Z"
          [mkReported "2026-02-15T17:03:50.616Z" "cough" None])
       (Some "asthma") "fever"].
Proof.
  exact (proj1 (prompt_holds_user_words_only failingOracle
                  (mkBody (Some "fever") (Some "asthma") (Some "u1"))
                  (world0 sampleFs) "fever" "u1" "2026-02-15T17:03:43.506Z"
                  [coughEntry] (mkFile sampleLog true true)
                  eq_refl ltac:(discriminate) eq_refl ltac:(discriminate)
                  eq_refl eq_refl eq_refl eq_refl eq_refl eq_refl)).
Defined.

Lemma history_outcome_witness :
  (exists w',
     history answeringOracle "u1" (world0 sampleFs) = (Ok tt, w') /\
     written (res w') = [sampleLog] /\ fs w' = sampleFs) /\
  (exists w',
     history answeringOracle "u2" (world0 sampleFs) = (Ok tt, w') /\
     files (fs w') !! filePathOf "u2"
       = Some (mkFile (initialContent "u2" "2026-02-15T17:03:40.000Z") true true)).
Proof.
  destruct (history_outcome answeringOracle "u1" (world0 sampleFs)) as (H1 & _).
  destruct (history_outcome answeringOracle "u2" (world0 sampleFs)) as (_ & H2 & _).
  split.
  - destruct (H1 (mkFile sampleLog true true) eq_refl eq_refl eq_refl)
      as (w' & Hrun & Hw & _ & _ & _ & Hf).
    exists w'. split; [exact Hrun|]. split; [exact Hw | exact Hf].
  - destruct (H2 eq_refl eq_refl eq_refl eq_refl) as (w' & Hrun & _ & _ & Hf).
    exists w'. split; [exact Hrun | exact Hf].
Defined.

Lemma nothing_opened_empty_view_witness :
  extractUserProvidedHistory
    ("notes" +:+ nl +:+ DIAGNOSIS +:+ nl +:+ "Rest and fluids." +:+ nl +:+ RULE)
  = SECTION_LABEL.
Proof.
  exact (proj2 (nothing_opened_empty_view
                  ("notes" +:+ nl +:+ DIAGNOSIS +:+ nl +:+ "Rest and fluids."
                   +:+ nl +:+ RULE) eq_refl)).
Defined.

Lemma one_block_per_entry_witness :
  length (sectionsOf (logAfter (initialContent "u1" "2026-02-15T17:03:43.506Z")
                               [coughEntry; feverEntry])) = 2.
Proof.
  exact (proj2 (one_block_per_entry "u1" "2026-02-15T17:03:43.506Z"
                  [coughEntry; feverEntry] eq_refl eq_refl)).
Defined.

Lemma client_reads_trailer_witness :
  userIdMatch ("Rest and fluids."
               +:+ userIdTrailer "df54211c-0ac9-4fb1-af4e-4eb29e5ced1e")
  = Some "df54211c-0ac9-4fb1-af4e-4eb29e5ced1e".
Proof.
  exact (proj1 (client_reads_trailer "Rest and fluids."
                  "df54211c-0ac9-4fb1-af4e-4eb29e5ced1e" eq_refl) eq_refl).
Defined.
